(** * The availability engine of the resource-management calendar

    A shallow embedding of the slot generator and the date-range iterator of
    [server/src/controllers/calendarController.ts], of the handlers of the
    assignment and employee controllers, and of the part of [StorageService]
    these handlers call.

    Conventions of the embedding.
    - A string is the sequence of its UTF-16 code units, for code units
      below 256.
    - A JavaScript [Date] is its time value: an integer number of
      milliseconds since the epoch, or NaN (an Invalid Date).  Every method
      that sets a field ends with [TimeClip], which gives NaN beyond
      8.64e15 ms.  Timestamp strings held in records ([startTime],
      [endTime], the query dates) are represented by the time value
      [new Date(...)] gives them, and the ISO string a slot carries by the
      instant it denotes.
    - The arithmetic of [MakeTime] and [MakeDate] is that of the integers;
      it is the arithmetic of doubles as long as the intermediate results
      stay below 2^53 in magnitude.
    - The host time zone is any function [LocalTZA] that gives the offset
      of local time from UTC at an instant, or at a local time;
      daylight-saving changes are changes of its value.  A statement that
      computes with instants says that it assumes a constant offset.
    - [settings.slotDuration] is an integer number of minutes.
    - A [RangeError] thrown by [toISOString] is an abrupt completion; the
      errors made by [createError] are values of the handlers.
    - A [while] loop is a function with a bound [fuel] on the number of
      iterations; [None] means the bound was reached, and a loop that never
      terminates returns [None] for every bound.
    - The limits of an engine (memory, the stack, the length of an
      argument list) are not modelled. *)

From Stdlib Require Import ZArith List String Ascii Bool Lia.
Import ListNotations.
Local Open Scope Z_scope.

(** ** JavaScript numbers and strings *)

(** A number that is an integer, [None] being NaN: a field of a date, or
    such a field plus an integer. *)
Definition JSNum := option Z.

(** A number in general: NaN, an infinity, or the finite double
    [significand * 2 ^ exponent] (the sign of zero is not kept). *)
Inductive JSNumber :=
| NaN
| Infinity (negative : bool)
| Finite (significand exponent : Z).

Definition codeUnit (c : ascii) : Z := Z.of_nat (nat_of_ascii c).

(** [StrWhiteSpaceChar]: TAB, LF, VT, FF, CR, SP and NBSP. *)
Definition isStrWhiteSpaceChar (c : ascii) : bool :=
  let n := codeUnit c in
  ((9 <=? n) && (n <=? 13)) || (n =? 32) || (n =? 160).

Fixpoint trimStart (s : string) : string :=
  match s with
  | EmptyString => EmptyString
  | String c s' => if isStrWhiteSpaceChar c then trimStart s' else s
  end.

Fixpoint trimEnd (s : string) : string :=
  match s with
  | EmptyString => EmptyString
  | String c s' =>
      match trimEnd s' with
      | EmptyString => if isStrWhiteSpaceChar c then EmptyString else String c EmptyString
      | rest => String c rest
      end
  end.

(** The value of a digit in a radix up to 36. *)
Definition digitOf (radix : Z) (c : ascii) : option Z :=
  let n := codeUnit c in
  let v := if (48 <=? n) && (n <=? 57) then n - 48
           else if (97 <=? n) && (n <=? 122) then n - 87
           else if (65 <=? n) && (n <=? 90) then n - 55
           else 36 in
  if v <? radix then Some v else None.

(** The longest run of digits at the head of [s]: its value on top of
    [acc], the number of digits on top of [count], and what follows. *)
Fixpoint readDigits (radix acc count : Z) (s : string) : Z * Z * string :=
  match s with
  | EmptyString => (acc, count, s)
  | String c s' =>
      match digitOf radix c with
      | Some v => readDigits radix (radix * acc + v) (count + 1) s'
      | None => (acc, count, s)
      end
  end.

(** [ExponentPart], or nothing, up to the end of the text. *)
Definition readExponent (s : string) : option Z :=
  match s with
  | EmptyString => Some 0
  | String c s' =>
      if Ascii.eqb c "e" || Ascii.eqb c "E" then
        let '(negative, s'') :=
          match s' with
          | String sign r =>
              if Ascii.eqb sign "+" then (false, r)
              else if Ascii.eqb sign "-" then (true, r)
              else (false, s')
          | EmptyString => (false, s')
          end in
        match readDigits 10 0 0 s'' with
        | (v, n, EmptyString) =>
            if 0 <? n then Some (if negative then - v else v) else None
        | _ => None
        end
      else None
  end.

(** [StrUnsignedDecimalLiteral] other than [Infinity]: the digits [m] and
    the decimal exponent [e] of the value [m * 10 ^ e]. *)
Definition readDecimal (s : string) : option (Z * Z) :=
  let '(i, ni, rest) := readDigits 10 0 0 s in
  let '(m, nf, rest') :=
    match rest with
    | String c r => if Ascii.eqb c "." then readDigits 10 i 0 r else (i, 0, rest)
    | EmptyString => (i, 0, rest)
    end in
  if ni + nf =? 0 then None
  else match readExponent rest' with
       | Some e => Some (m, e - nf)
       | None => None
       end.

(** The exponent of the leading bit of the positive rational [n / d]. *)
Definition floorLog2 (n d : Z) : Z :=
  let c := Z.log2 n - Z.log2 d in
  if d * 2 ^ Z.max 0 c <=? n * 2 ^ Z.max 0 (- c) then c else c - 1.

(** [num / den] rounded to the nearest integer, ties to even. *)
Definition roundHalfEven (num den : Z) : Z :=
  let q := num / den in
  let r := num mod den in
  if 2 * r <? den then q
  else if den <? 2 * r then q + 1
  else if Z.even q then q else q + 1.

(** The double nearest to the positive rational [n / d], as a significand
    of at most 53 bits and an exponent; [None] when it is beyond the
    largest double. *)
Definition nearestDouble (n d : Z) : option (Z * Z) :=
  let p := Z.max (floorLog2 n d - 52) (- 1074) in
  let k := roundHalfEven (n * 2 ^ Z.max 0 (- p)) (d * 2 ^ Z.max 0 p) in
  if 2 ^ 1024 <=? k * 2 ^ Z.max 0 p then None else Some (k, p).

Definition roundedValue (negative : bool) (n d : Z) : JSNumber :=
  if n =? 0 then Finite 0 0
  else match nearestDouble n d with
       | Some (k, p) => Finite (if negative then - k else k) p
       | None => Infinity negative
       end.

(** [StrDecimalLiteral]: an optional sign, then [Infinity] or a decimal
    literal. *)
Definition decimalLiteral (s : string) : JSNumber :=
  let '(negative, body) :=
    match s with
    | String sign r =>
        if Ascii.eqb sign "+" then (false, r)
        else if Ascii.eqb sign "-" then (true, r)
        else (false, s)
    | EmptyString => (false, s)
    end in
  if String.eqb body "Infinity" then Infinity negative
  else match readDecimal body with
       | Some (m, e) =>
           if 0 <=? e then roundedValue negative (m * 10 ^ e) 1
           else roundedValue negative m (10 ^ (- e))
       | None => NaN
       end.

(** [NonDecimalIntegerLiteral] after its prefix: digits up to the end. *)
Definition nonDecimalLiteral (radix : Z) (s : string) : JSNumber :=
  match readDigits radix 0 0 s with
  | (v, n, EmptyString) => if 0 <? n then roundedValue false v 1 else NaN
  | _ => NaN
  end.

Definition radixOfPrefix (c : ascii) : option Z :=
  if Ascii.eqb c "x" || Ascii.eqb c "X" then Some 16
  else if Ascii.eqb c "o" || Ascii.eqb c "O" then Some 8
  else if Ascii.eqb c "b" || Ascii.eqb c "B" then Some 2
  else None.

(** [Number(text)] ([StringToNumber]): white space around the literal is
    dropped, the empty text is 0, and a text that is no numeric literal is
    NaN. *)
Definition Number (text : string) : JSNumber :=
  let s := trimEnd (trimStart text) in
  match s with
  | EmptyString => Finite 0 0
  | String c0 (String c1 r) =>
      match (if Ascii.eqb c0 "0" then radixOfPrefix c1 else None) with
      | Some radix => nonDecimalLiteral radix r
      | None => decimalLiteral s
      end
  | _ => decimalLiteral s
  end.

(** [s.split(sep)] for a one-character separator. *)
Fixpoint split (sep : ascii) (s : string) : list string :=
  match s with
  | EmptyString => [EmptyString]
  | String c s' =>
      if Ascii.eqb c sep then EmptyString :: split sep s'
      else match split sep s' with
           | h :: t => String c h :: t
           | [] => [String c EmptyString]
           end
  end.

(** [x ?? 0] where [x] is an array element: [None] is [undefined]. *)
Definition nullish0 (x : option JSNumber) : JSNumber :=
  match x with
  | None => Finite 0 0
  | Some v => v
  end.

Definition num_add (a b : JSNum) : JSNum :=
  match a, b with
  | Some x, Some y => Some (x + y)
  | _, _ => None
  end.

(** ** Abrupt completion *)

(** What evaluating an expression gives: a value, or the [RangeError]
    that [toISOString] throws on an Invalid Date. *)
Inductive Completion (A : Type) :=
| Normal (value : A)
| RangeError.
Arguments Normal {A}.
Arguments RangeError {A}.

(** A computation with loops: [None] when the bound on the iterations was
    reached, else how it completed. *)
Definition Run (A : Type) : Type := option (Completion A).

Definition ret {A : Type} (a : A) : Run A := Some (Normal a).

Definition bind {A B : Type} (r : Run A) (k : A -> Run B) : Run B :=
  match r with
  | Some (Normal a) => k a
  | Some RangeError => Some RangeError
  | None => None
  end.

Notation "x <- r ;; k" := (bind r (fun x => k))
  (at level 61, r at next level, right associativity).

Definition mapRun {A B : Type} (f : A -> B) (r : Run A) : Run B :=
  x <- r ;; ret (f x).

(** ** The fragment of ECMAScript [Date] the engine uses *)

(** [LocalTZA t isUTC]: the offset of local time from UTC, in
    milliseconds, at the instant [t] when [isUTC] holds and at the local
    time [t] otherwise. *)
Class HostTimeZone := { LocalTZA : Z -> bool -> Z }.

Module Date.

Definition msPerSecond : Z := 1000.
Definition msPerMinute : Z := 60000.
Definition msPerHour : Z := 3600000.
Definition msPerDay : Z := 86400000.

Definition Day (t : Z) : Z := t / msPerDay.
Definition TimeWithinDay (t : Z) : Z := t mod msPerDay.
Definition WeekDay (t : Z) : Z := (Day t + 4) mod 7.
Definition HourFromTime (t : Z) : Z := (t / msPerHour) mod 24.
Definition MinFromTime (t : Z) : Z := (t / msPerMinute) mod 60.
Definition SecFromTime (t : Z) : Z := (t / msPerSecond) mod 60.
Definition msFromTime (t : Z) : Z := t mod msPerSecond.

Definition MakeTime (hour min sec ms : Z) : Z :=
  hour * msPerHour + min * msPerMinute + sec * msPerSecond + ms.
Definition MakeDate (day time : Z) : Z := day * msPerDay + time.

(** Day of the month (1..31) of a time value, through the proleptic
    Gregorian calendar. *)
Definition DateFromTime (t : Z) : Z :=
  let z := Day t + 719468 in
  let era := z / 146097 in
  let doe := z - era * 146097 in
  let yoe := (doe - doe / 1460 + doe / 36524 - doe / 146096) / 365 in
  let doy := doe - (365 * yoe + yoe / 4 - yoe / 100) in
  let mp := (5 * doy + 2) / 153 in
  doy - (153 * mp + 2) / 5 + 1.

(** A [Date] object: its time value, [None] for an Invalid Date. *)
Definition t := option Z.

Definition maxTime : Z := 8640000000000000.

Definition TimeClip (time : Z) : t :=
  if Z.abs time <=? maxTime then Some time else None.

(** The argument of [MakeTime] as an integer: none when the number is not
    finite, else the number without its fraction. *)
Definition integerPart (x : JSNumber) : option Z :=
  match x with
  | Finite k p => Some (if 0 <=? p then k * 2 ^ p else Z.quot k (2 ^ (- p)))
  | _ => None
  end.

Section Local.
Context {host : HostTimeZone}.

Definition LocalTime (t : Z) : Z := t + LocalTZA t true.
Definition UTC (t : Z) : Z := t - LocalTZA t false.

Definition getDay (d : t) : JSNum :=
  option_map (fun tv => WeekDay (LocalTime tv)) d.
Definition getDate (d : t) : JSNum :=
  option_map (fun tv => DateFromTime (LocalTime tv)) d.
Definition getMinutes (d : t) : JSNum :=
  option_map (fun tv => MinFromTime (LocalTime tv)) d.

(** [d.setHours(hour, min, sec, ms)]. *)
Definition setHours (d : t) (hour min sec ms : JSNumber) : t :=
  match d, integerPart hour, integerPart min, integerPart sec, integerPart ms with
  | Some tv, Some h, Some m, Some s, Some milli =>
      TimeClip (UTC (MakeDate (Day (LocalTime tv)) (MakeTime h m s milli)))
  | _, _, _, _, _ => None
  end.

(** [d.setMinutes(min)]: the other fields of the local time are kept. *)
Definition setMinutes (d : t) (min : JSNum) : t :=
  match d, min with
  | Some tv, Some m =>
      let lt := LocalTime tv in
      TimeClip (UTC (MakeDate (Day lt)
                       (MakeTime (HourFromTime lt) m (SecFromTime lt) (msFromTime lt))))
  | _, _ => None
  end.

(** [d.setDate(date)]: day [date] of the month [d] is in, counted from
    the first of that month, which is [DateFromTime - 1] days before
    [d]; the time within the day is kept. *)
Definition setDate (d : t) (date : JSNum) : t :=
  match d, date with
  | Some tv, Some dt =>
      let lt := LocalTime tv in
      TimeClip (UTC (MakeDate (Day lt - (DateFromTime lt - 1) + (dt - 1))
                       (TimeWithinDay lt)))
  | _, _ => None
  end.

(** [d.toDateString()] names the local calendar day of [d], and nothing
    else; it is represented by the number of that day.  An Invalid Date
    prints as one fixed text, here [None]. *)
Definition toDateString (d : t) : option Z :=
  option_map (fun tv => Day (LocalTime tv)) d.

End Local.

(** [d.toISOString()]: the text of the instant, which is represented by
    the instant; a [RangeError] on an Invalid Date. *)
Definition toISOString (d : t) : Completion t :=
  match d with
  | Some _ => Normal d
  | None => RangeError
  end.

(** [===] on two results of [toDateString]. *)
Definition text_eqb (a b : option Z) : bool :=
  match a, b with
  | Some x, Some y => x =? y
  | None, None => true
  | _, _ => false
  end.

(** Relational operators on dates compare time values; a comparison with
    NaN is false. *)
Definition ltb (a b : t) : bool :=
  match a, b with Some x, Some y => x <? y | _, _ => false end.
Definition leb (a b : t) : bool :=
  match a, b with Some x, Some y => x <=? y | _, _ => false end.
Definition gtb (a b : t) : bool :=
  match a, b with Some x, Some y => y <? x | _, _ => false end.
Definition geb (a b : t) : bool :=
  match a, b with Some x, Some y => y <=? x | _, _ => false end.

Definition isNaN (d : t) : bool :=
  match d with Some _ => false | None => true end.

End Date.

Definition JSDate := Date.t.

(** ** Data model ([server/src/types/types.ts]) *)

Record WorkHours := {
  wh_start : string;
  wh_end : string;
}.

Record Employee := {
  emp_id : string;
  emp_name : string;
  emp_email : string;
  workHours : WorkHours;
}.

Inductive Status := scheduled | completed | cancelled.

Definition Status_eqb (a b : Status) : bool :=
  match a, b with
  | scheduled, scheduled | completed, completed | cancelled, cancelled => true
  | _, _ => false
  end.

Record WorkAssignment := {
  id : string;
  employeeId : string;
  clientName : string;
  clientPhone : string;
  clientAddress : string;
  workType : string;
  startTime : JSDate;
  endTime : JSDate;
  comment : option string;
  status : Status;
  createdAt : string;
  updatedAt : string;
}.

Record TimeSlot := {
  slot_start : JSDate;
  slot_end : JSDate;
  available : bool;
  slot_assignmentId : option string;
  slot_employeeId : option string;
}.

Record CalendarSettings := {
  workStartTime : string;
  workEndTime : string;
  slotDuration : Z;
  adminEmail : string;
}.

Record StorageData := {
  employees : list Employee;
  workAssignments : list WorkAssignment;
  settings : CalendarSettings;
}.

(** A value thrown by [createError(message, statusCode)], or the data of
    the JSON response. *)
Inductive Result (A : Type) :=
| Ok (statusCode : Z) (data : A)
| AppError (message : string) (statusCode : Z).
Arguments Ok {A}.
Arguments AppError {A}.

(** Truthiness of an optional string: [undefined] and the empty string
    are falsy. *)
Definition truthy (s : option string) : bool :=
  match s with
  | Some (String _ _) => true
  | _ => false
  end.

Definition num_eqb (a : JSNum) (n : Z) : bool :=
  match a with Some x => x =? n | None => false end.

(** The query of [GET /api/calendar/timeslots]; a date parameter is
    [None] when it is absent or empty. *)
Record TimeSlotsQuery := {
  q_employeeId : option string;
  q_startDate : option JSDate;
  q_endDate : option JSDate;
}.

(** ** The slot generator ([generateTimeSlotsForDay]) *)

Section Engine.
Context {host : HostTimeZone}.

(** [const [hour, minute] = text.split(":").map(Number)], each then
    defaulted by [?? 0]. *)
Definition parseHours (text : string) : JSNumber * JSNumber :=
  let parts := map Number (split ":" text) in
  (nullish0 (nth_error parts 0), nullish0 (nth_error parts 1)).

(** [new Date(date)] followed by [setHours(hour ?? 0, minute ?? 0, 0, 0)]. *)
Definition anchor (date : JSDate) (text : string) : JSDate :=
  let '(hour, minute) := parseHours text in
  Date.setHours date hour minute (Finite 0 0) (Finite 0 0).

(** The overlap test of the slot loop, on the slot [currentTime, slotEnd)
    and one assignment. *)
Definition slotOverlaps (currentTime slotEnd : JSDate) (assignment : WorkAssignment) : bool :=
  let assignmentStart := startTime assignment in
  let assignmentEnd := endTime assignment in
  (Date.geb currentTime assignmentStart && Date.ltb currentTime assignmentEnd)
  || (Date.gtb slotEnd assignmentStart && Date.leb slotEnd assignmentEnd)
  || (Date.leb currentTime assignmentStart && Date.geb slotEnd assignmentEnd).

(** The predicate of [dayAssignments.find] that picks the assignment whose
    id the slot carries. *)
Definition coversStart (currentTime : JSDate) (a : WorkAssignment) : bool :=
  let assignmentStart := startTime a in
  let assignmentEnd := endTime a in
  Date.geb currentTime assignmentStart && Date.ltb currentTime assignmentEnd.

(** The body of the [while] loop up to [slots.push]: the two calls of
    [toISOString] come first in the object literal, and either may throw. *)
Definition makeSlot (employee : Employee) (slotDuration : Z)
    (dayAssignments : list WorkAssignment) (currentTime : JSDate) : Completion TimeSlot :=
  let slotEnd :=
    Date.setMinutes currentTime (num_add (Date.getMinutes currentTime) (Some slotDuration)) in
  let hasConflict := existsb (slotOverlaps currentTime slotEnd) dayAssignments in
  match Date.toISOString currentTime with
  | RangeError => RangeError
  | Normal start =>
      match Date.toISOString slotEnd with
      | RangeError => RangeError
      | Normal end_ =>
          Normal {| slot_start := start;
                    slot_end := end_;
                    available := negb hasConflict;
                    slot_employeeId := Some (emp_id employee);
                    slot_assignmentId :=
                      if hasConflict
                      then option_map id (find (coversStart currentTime) dayAssignments)
                      else None |}
      end
  end.

(** [while (currentTime < workEndTime) { ... }]. *)
Fixpoint slotLoop (fuel : nat) (employee : Employee) (slotDuration : Z)
    (dayAssignments : list WorkAssignment) (workEndTime currentTime : JSDate)
    : Run (list TimeSlot) :=
  if Date.ltb currentTime workEndTime then
    match fuel with
    | O => None
    | S fuel' =>
        slot <- Some (makeSlot employee slotDuration dayAssignments currentTime) ;;
        let next :=
          Date.setMinutes currentTime
            (num_add (Date.getMinutes currentTime) (Some slotDuration)) in
        slots <- slotLoop fuel' employee slotDuration dayAssignments workEndTime next ;;
        ret (slot :: slots)
    end
  else ret [].

(** [const dayAssignments = assignments.filter(...)]. *)
Definition dayAssignmentsOf (date : JSDate) (employee : Employee)
    (assignments : list WorkAssignment) : list WorkAssignment :=
  filter (fun assignment =>
            let assignmentDate := startTime assignment in
            String.eqb (employeeId assignment) (emp_id employee)
            && Date.text_eqb (Date.toDateString assignmentDate) (Date.toDateString date)
            && Status_eqb (status assignment) scheduled)
         assignments.

Definition generateTimeSlotsForDay (fuel : nat) (date : JSDate) (employee : Employee)
    (settings : CalendarSettings) (assignments : list WorkAssignment)
    : Run (list TimeSlot) :=
  let workStart := workStartTime settings in
  let workEnd := workEndTime settings in
  let slotDuration := slotDuration settings in
  let workStartTime := anchor date workStart in
  let workEndTime := anchor date workEnd in
  let dayAssignments := dayAssignmentsOf date employee assignments in
  slotLoop fuel employee slotDuration dayAssignments workEndTime workStartTime.

(** The generator as the specification words it: the window is anchored
    from the employee's own work hours, and of [settings] only
    [slotDuration] is read. *)
Definition generateTimeSlotsForDay_spec (fuel : nat) (date : JSDate) (employee : Employee)
    (settings : CalendarSettings) (assignments : list WorkAssignment)
    : Run (list TimeSlot) :=
  let workStartTime := anchor date (wh_start (workHours employee)) in
  let workEndTime := anchor date (wh_end (workHours employee)) in
  let dayAssignments := dayAssignmentsOf date employee assignments in
  slotLoop fuel employee (slotDuration settings) dayAssignments workEndTime workStartTime.

(** ** The date-range iterator ([calendarController.getTimeSlots]) *)

(** [for (const employee of targetEmployees) { timeSlots.push(...slots) }]. *)
Fixpoint forEmployees (fuel : nat) (currentDate : JSDate) (settings : CalendarSettings)
    (assignments : list WorkAssignment) (targetEmployees : list Employee)
    : Run (list TimeSlot) :=
  match targetEmployees with
  | [] => ret []
  | employee :: others =>
      slots <- generateTimeSlotsForDay fuel currentDate employee settings assignments ;;
      rest <- forEmployees fuel currentDate settings assignments others ;;
      ret (slots ++ rest)
  end.

Definition targetEmployeesOf (employeeId : option string) (employees : list Employee)
    : list Employee :=
  if truthy employeeId
  then filter (fun emp => match employeeId with
                          | Some i => String.eqb (emp_id emp) i
                          | None => false
                          end) employees
  else employees.

(** [while (currentDate <= end) { ... currentDate.setDate(currentDate.getDate() + 1) }];
    [slotFuel] bounds each run of the slot loop. *)
Fixpoint dayLoop (fuel slotFuel : nat) (employeeId : option string)
    (employees : list Employee) (settings : CalendarSettings)
    (assignments : list WorkAssignment) (end_ currentDate : JSDate)
    : Run (list TimeSlot) :=
  if Date.leb currentDate end_ then
    match fuel with
    | O => None
    | S fuel' =>
        let dayOfWeek := Date.getDay currentDate in
        today <- (if negb (num_eqb dayOfWeek 0) && negb (num_eqb dayOfWeek 6)
                  then forEmployees slotFuel currentDate settings assignments
                         (targetEmployeesOf employeeId employees)
                  else ret []) ;;
        let next :=
          Date.setDate currentDate (num_add (Date.getDate currentDate) (Some 1)) in
        later <- dayLoop fuel' slotFuel employeeId employees settings assignments end_ next ;;
        ret (today ++ later)
    end
  else ret [].

(** The handler: the [catch] passes on the errors made by [createError]
    and turns any other exception into status 500. *)
Definition getTimeSlots (fuel : nat) (data : StorageData) (query : TimeSlotsQuery)
    : option (Result (list TimeSlot)) :=
  match q_startDate query, q_endDate query with
  | Some start, Some end_ =>
      if Date.isNaN start || Date.isNaN end_
      then Some (AppError "Invalid date format" 400)
      else
        match dayLoop fuel fuel (q_employeeId query) (employees data) (settings data)
                (workAssignments data) end_ start with
        | None => None
        | Some (Normal timeSlots) => Some (Ok 200 timeSlots)
        | Some RangeError => Some (AppError "Failed to retrieve time slots" 500)
        end
  | _, _ => Some (AppError "startDate and endDate are required" 400)
  end.

End Engine.

(** ** The storage service ([StorageService], the in-memory [data]) *)

(** [updates: Partial<WorkAssignment>]: a field is [None] when the body
    does not carry it. *)
Record WorkAssignmentUpdates := {
  upd_id : option string;
  upd_employeeId : option string;
  upd_clientName : option string;
  upd_clientPhone : option string;
  upd_clientAddress : option string;
  upd_workType : option string;
  upd_startTime : option JSDate;
  upd_endTime : option JSDate;
  upd_comment : option (option string);
  upd_status : option Status;
  upd_createdAt : option string;
}.

(** What the host supplies to a call: the text of [new Date().toISOString()]
    and the identifier built from [Date.now()] and [Math.random()]. *)
Record Clock := {
  now : string;
  freshId : string;
}.

Definition getEmployeeById (data : StorageData) (i : string) : option Employee :=
  find (fun employee => String.eqb (emp_id employee) i) (employees data).

Definition getWorkAssignments (data : StorageData) : list WorkAssignment :=
  workAssignments data.

(** [data.workAssignments.push(newAssignment)]; the [id], [createdAt] and
    [updatedAt] of the argument are not part of its type and are not read. *)
Definition addWorkAssignment (clock : Clock) (data : StorageData)
    (assignment : WorkAssignment) : WorkAssignment * StorageData :=
  let newAssignment :=
    {| id := freshId clock;
       employeeId := employeeId assignment;
       clientName := clientName assignment;
       clientPhone := clientPhone assignment;
       clientAddress := clientAddress assignment;
       workType := workType assignment;
       startTime := startTime assignment;
       endTime := endTime assignment;
       comment := comment assignment;
       status := status assignment;
       createdAt := now clock;
       updatedAt := now clock |} in
  (newAssignment,
   {| employees := employees data;
      workAssignments := workAssignments data ++ [newAssignment];
      settings := settings data |}).

Definition orElse {A : Type} (x : option A) (d : A) : A :=
  match x with Some v => v | None => d end.

(** [{ ...old, ...updates, updatedAt: new Date().toISOString() }]. *)
Definition mergeUpdates (clock : Clock) (old : WorkAssignment)
    (updates : WorkAssignmentUpdates) : WorkAssignment :=
  {| id := orElse (upd_id updates) (id old);
     employeeId := orElse (upd_employeeId updates) (employeeId old);
     clientName := orElse (upd_clientName updates) (clientName old);
     clientPhone := orElse (upd_clientPhone updates) (clientPhone old);
     clientAddress := orElse (upd_clientAddress updates) (clientAddress old);
     workType := orElse (upd_workType updates) (workType old);
     startTime := orElse (upd_startTime updates) (startTime old);
     endTime := orElse (upd_endTime updates) (endTime old);
     comment := orElse (upd_comment updates) (comment old);
     status := orElse (upd_status updates) (status old);
     createdAt := orElse (upd_createdAt updates) (createdAt old);
     updatedAt := now clock |}.

(** [findIndex] and the assignment to [data.workAssignments[assignmentIndex]]:
    the first assignment with that id is replaced. *)
Fixpoint replaceFirst (i : string) (f : WorkAssignment -> WorkAssignment)
    (l : list WorkAssignment) : option (WorkAssignment * list WorkAssignment) :=
  match l with
  | [] => None
  | a :: rest =>
      if String.eqb (id a) i then Some (f a, f a :: rest)
      else match replaceFirst i f rest with
           | Some (u, rest') => Some (u, a :: rest')
           | None => None
           end
  end.

Definition updateWorkAssignment (clock : Clock) (data : StorageData) (i : string)
    (updates : WorkAssignmentUpdates) : option WorkAssignment * StorageData :=
  match replaceFirst i (fun old => mergeUpdates clock old updates) (workAssignments data) with
  | None => (None, data)
  | Some (updated, l) =>
      (Some updated,
       {| employees := employees data;
          workAssignments := l;
          settings := settings data |})
  end.

(** ** The assignment controller ([createAssignment], [updateAssignment]) *)

(** The body of [POST /api/assignments]; a field is [None] when the body
    does not carry it, and the two timestamps are [None] when absent or
    empty. *)
Record CreateWorkAssignmentRequest := {
  req_employeeId : option string;
  req_clientName : option string;
  req_clientPhone : option string;
  req_clientAddress : option string;
  req_workType : option string;
  req_startTime : option JSDate;
  req_endTime : option JSDate;
  req_comment : option string;
}.

Definition validWorkTypes : list string :=
  ["measurement"; "maintenance"; "demolition"; "consultation"]%string.

(** [existingAssignments.some(...)] of [createAssignment]. *)
Definition hasConflict (employeeId_ : string) (startTime_ endTime_ : JSDate)
    (existingAssignments : list WorkAssignment) : bool :=
  existsb
    (fun assignment =>
       String.eqb (employeeId assignment) employeeId_
       && Status_eqb (status assignment) scheduled
       && ((Date.geb startTime_ (startTime assignment) && Date.ltb startTime_ (endTime assignment))
           || (Date.gtb endTime_ (startTime assignment) && Date.leb endTime_ (endTime assignment))
           || (Date.leb startTime_ (startTime assignment) && Date.geb endTime_ (endTime assignment))))
    existingAssignments.

(** [!text] on a string that is present. *)
Definition isEmpty (text : string) : bool :=
  match text with EmptyString => true | String _ _ => false end.

Definition createAssignment (clock : Clock) (data : StorageData)
    (body : CreateWorkAssignmentRequest) : Result WorkAssignment * StorageData :=
  match req_employeeId body, req_clientName body, req_clientPhone body,
        req_clientAddress body, req_workType body, req_startTime body, req_endTime body with
  | Some employeeId_, Some clientName_, Some clientPhone_, Some clientAddress_,
    Some workType_, Some startTime_, Some endTime_ =>
      if isEmpty employeeId_ || isEmpty clientName_ || isEmpty clientPhone_
         || isEmpty clientAddress_ || isEmpty workType_
      then (AppError "Missing required fields" 400, data)
      else if negb (existsb (String.eqb workType_) validWorkTypes)
      then (AppError "Invalid work type" 400, data)
      else
        match getEmployeeById data employeeId_ with
        | None => (AppError "Employee not found" 404, data)
        | Some _ =>
            let existingAssignments := getWorkAssignments data in
            if hasConflict employeeId_ startTime_ endTime_ existingAssignments
            then (AppError "Time slot is already occupied" 409, data)
            else
              let '(newAssignment, data') :=
                addWorkAssignment clock data
                  {| id := EmptyString;
                     employeeId := employeeId_;
                     clientName := clientName_;
                     clientPhone := clientPhone_;
                     clientAddress := clientAddress_;
                     workType := workType_;
                     startTime := startTime_;
                     endTime := endTime_;
                     comment := req_comment body;
                     status := scheduled;
                     createdAt := EmptyString;
                     updatedAt := EmptyString |} in
              (Ok 201 newAssignment, data')
        end
  | _, _, _, _, _, _, _ => (AppError "Missing required fields" 400, data)
  end.

(** [PUT /api/assignments/:id]; [None] is an absent route parameter or an
    absent body. *)
Definition updateAssignment (clock : Clock) (data : StorageData)
    (id_ : option string) (updates : option WorkAssignmentUpdates)
    : Result WorkAssignment * StorageData :=
  match id_ with
  | Some i =>
      if negb (truthy id_) then (AppError "Assignment ID is required" 400, data)
      else
        match updates with
        | None => (AppError "Updates are required" 400, data)
        | Some u =>
            match updateWorkAssignment clock data i u with
            | (None, data') => (AppError "Work assignment not found" 404, data')
            | (Some updatedAssignment, data') => (Ok 200 updatedAssignment, data')
            end
        end
  | None => (AppError "Assignment ID is required" 400, data)
  end.

(** ** Quantities used in the statements *)

(** A host whose offset from UTC never changes. *)
Definition fixedOffset (host : HostTimeZone) (offset : Z) : Prop :=
  forall t isUTC, LocalTZA t isUTC = offset.

(** [d.setMinutes(d.getMinutes() + n)], the step of the slot loop, and
    [d.setDate(d.getDate() + 1)], the step of the day loop. *)
Definition plusMinutes {host : HostTimeZone} (d : JSDate) (n : Z) : JSDate :=
  Date.setMinutes d (num_add (Date.getMinutes d) (Some n)).
Definition nextDay {host : HostTimeZone} (d : JSDate) : JSDate :=
  Date.setDate d (num_add (Date.getDate d) (Some 1)).

(** The record that the slot loop pushes at [currentTime]; [makeSlot]
    returns it unless one of its two dates is invalid. *)
Definition slotAt {host : HostTimeZone} (employee : Employee) (slotDuration : Z)
    (dayAssignments : list WorkAssignment) (currentTime : JSDate) : TimeSlot :=
  let slotEnd := plusMinutes currentTime slotDuration in
  let hasConflict := existsb (slotOverlaps currentTime slotEnd) dayAssignments in
  {| slot_start := currentTime;
     slot_end := slotEnd;
     available := negb hasConflict;
     slot_employeeId := Some (emp_id employee);
     slot_assignmentId :=
       if hasConflict
       then option_map id (find (coversStart currentTime) dayAssignments)
       else None |}.

(** The time of day, in milliseconds, that a work-hours text denotes. *)
Definition timeOfDay (text : string) : option Z :=
  let '(hour, minute) := parseHours text in
  match Date.integerPart hour, Date.integerPart minute with
  | Some h, Some m => Some (Date.MakeTime h m 0 0)
  | _, _ => None
  end.

(** The number of runs of the slot loop from [cur] up to [we] in steps of
    [d] minutes: the least [n] with [cur + n * step >= we]. *)
Definition slotCount (d cur we : Z) : nat :=
  Z.to_nat ((we - cur + d * Date.msPerMinute - 1) / (d * Date.msPerMinute)).

(** The number of runs of the slot loop on any day of a host with a
    constant offset: the two ends of the window are the same times of day
    on every day. *)
Definition windowRuns (settings : CalendarSettings) : nat :=
  match timeOfDay (workStartTime settings), timeOfDay (workEndTime settings) with
  | Some ws, Some we => slotCount (slotDuration settings) ws we
  | _, _ => O
  end.

(** The number of runs of the day loop from [cur] up to [end_] in steps
    of 24 hours. *)
Definition dayCount (cur end_ : Z) : nat :=
  Z.to_nat ((end_ - cur) / Date.msPerDay + 1).

(** Order on dates as propositions; nothing is related to an Invalid Date. *)
Definition date_lt (a b : JSDate) : Prop :=
  match a, b with Some x, Some y => x < y | _, _ => False end.
Definition date_le (a b : JSDate) : Prop :=
  match a, b with Some x, Some y => x <= y | _, _ => False end.

(** The three clauses of the overlap rule, for a proposed interval
    [[s, e)] and an existing assignment. *)
Definition startInside (s : JSDate) (a : WorkAssignment) : Prop :=
  date_le (startTime a) s /\ date_lt s (endTime a).
Definition endInside (e : JSDate) (a : WorkAssignment) : Prop :=
  date_lt (startTime a) e /\ date_le e (endTime a).
Definition containsExisting (s e : JSDate) (a : WorkAssignment) : Prop :=
  date_le s (startTime a) /\ date_le (endTime a) e.
Definition threeClause (s e : JSDate) (a : WorkAssignment) : Prop :=
  startInside s a \/ endInside e a \/ containsExisting s e a.

(** The same rule and the single inequality, on instants. *)
Definition threeClauseZ (s e as_ ae : Z) : Prop :=
  (as_ <= s /\ s < ae) \/ (as_ < e /\ e <= ae) \/ (s <= as_ /\ ae <= e).
Definition singleInequality (s e as_ ae : Z) : Prop :=
  s < ae /\ as_ < e.

(** An assignment of the employee, with status [scheduled], whose start
    is on the calendar day of [date]. *)
Definition sameDayScheduled {host : HostTimeZone} (date : JSDate) (employee : Employee)
    (a : WorkAssignment) : Prop :=
  employeeId a = emp_id employee
  /\ Date.toDateString (startTime a) = Date.toDateString date
  /\ status a = scheduled.

(** ** Concrete data for the examples *)

Definition utc : HostTimeZone := {| LocalTZA := fun _ _ => 0 |}.

(** UTC+2 all year. *)
Definition eet : HostTimeZone := {| LocalTZA := fun _ _ => 7200000 |}.

(** Tallinn in 2024: UTC+2, and UTC+3 from 31 March 01:00 UTC to
    27 October 01:00 UTC.  A local time that a change skips or repeats is
    read with the offset in force before the change. *)
Definition tallinn : HostTimeZone :=
  {| LocalTZA := fun t isUTC =>
       if isUTC
       then if (1711846800000 <=? t) && (t <? 1729990800000)
            then 10800000 else 7200000
       else if (1711846800000 + 10800000 <=? t) && (t <? 1729990800000 + 10800000)
            then 10800000 else 7200000 |}.

(** The instant [2024-01-DDThh:mm:00.000Z]; 15 January 2024 is a Monday. *)
Definition jan2024 (dd hh mm : Z) : JSDate :=
  Some (1705276800000 + (dd - 15) * 86400000 + hh * 3600000 + mm * 60000).

Definition defaultSettings : CalendarSettings :=
  {| workStartTime := "08:00";
     workEndTime := "16:30";
     slotDuration := 60;
     adminEmail := "admin@company.com" |}.

(** The default window cut into slots of [d] minutes. *)
Definition settingsWithDuration (d : Z) : CalendarSettings :=
  {| workStartTime := "08:00";
     workEndTime := "16:30";
     slotDuration := d;
     adminEmail := "admin@company.com" |}.

(** An employee whose own work hours differ from the global window. *)
Definition lateEmployee : Employee :=
  {| emp_id := "emp-1";
     emp_name := "John Doe";
     emp_email := "john@example.com";
     workHours := {| wh_start := "09:00"; wh_end := "17:30" |} |}.

Definition booking (i : string) (employee : string) (from to : JSDate) (st : Status)
    : WorkAssignment :=
  {| id := i;
     employeeId := employee;
     clientName := "John Client";
     clientPhone := "555-1234";
     clientAddress := "123 Main St";
     workType := "measurement";
     startTime := from;
     endTime := to;
     comment := None;
     status := st;
     createdAt := "2024-01-10T10:00:00.000Z";
     updatedAt := "2024-01-10T10:00:00.000Z" |}.

Definition clock0 : Clock :=
  {| now := "2024-01-12T10:00:00.000Z"; freshId := "assignment-1705053600000-k3j9x2m1q" |}.

(** A store with two scheduled bookings of one employee, 09:00-10:00 and
    11:00-12:00, an update that moves the second onto 09:30-10:30, and the
    request that proposes 09:30-10:30 as a new booking. *)
Definition twoBookings : StorageData :=
  {| employees := [lateEmployee];
     workAssignments :=
       [booking "a1" "emp-1" (jan2024 15 9 0) (jan2024 15 10 0) scheduled;
        booking "a2" "emp-1" (jan2024 15 11 0) (jan2024 15 12 0) scheduled];
     settings := defaultSettings |}.

Definition moveOntoFirst : WorkAssignmentUpdates :=
  {| upd_id := None; upd_employeeId := None; upd_clientName := None;
     upd_clientPhone := None; upd_clientAddress := None; upd_workType := None;
     upd_startTime := Some (jan2024 15 9 30); upd_endTime := Some (jan2024 15 10 30);
     upd_comment := None; upd_status := None; upd_createdAt := None |}.

Definition proposeOverFirst : CreateWorkAssignmentRequest :=
  {| req_employeeId := Some "emp-1"%string;
     req_clientName := Some "Jane Client"%string;
     req_clientPhone := Some "555-5678"%string;
     req_clientAddress := Some "456 Oak Ave"%string;
     req_workType := Some "maintenance"%string;
     req_startTime := Some (jan2024 15 9 30);
     req_endTime := Some (jan2024 15 10 30);
     req_comment := None |}.

(** ** The other handlers of the calendar controller *)

(** The filter of [getAssignmentsForDateRange]: the same three clauses on
    the closed range [[start, end]]. *)
Definition inDateRange (start end_ : JSDate) (assignment : WorkAssignment) : bool :=
  let assignmentStart := startTime assignment in
  let assignmentEnd := endTime assignment in
  (Date.geb assignmentStart start && Date.leb assignmentStart end_)
  || (Date.geb assignmentEnd start && Date.leb assignmentEnd end_)
  || (Date.leb assignmentStart start && Date.geb assignmentEnd end_).

(** [GET /api/calendar/assignments]; the query has the shape of the one of
    [getTimeSlots]. *)
Definition getAssignmentsForDateRange (data : StorageData) (query : TimeSlotsQuery)
    : Result (list WorkAssignment) :=
  match q_startDate query, q_endDate query with
  | Some start, Some end_ =>
      if Date.isNaN start || Date.isNaN end_
      then AppError "Invalid date format" 400
      else
        let allAssignments := getWorkAssignments data in
        let filteredAssignments := filter (inDateRange start end_) allAssignments in
        Ok 200
          (if truthy (q_employeeId query)
           then filter (fun assignment =>
                          match q_employeeId query with
                          | Some i => String.eqb (employeeId assignment) i
                          | None => false
                          end) filteredAssignments
           else filteredAssignments)
  | _, _ => AppError "startDate and endDate are required" 400
  end.

(** The filter of [getEmployeeSchedule]. *)
Definition startsInRange (i : string) (start end_ : JSDate) (assignment : WorkAssignment)
    : bool :=
  let assignmentStart := startTime assignment in
  String.eqb (employeeId assignment) i
  && Date.geb assignmentStart start && Date.leb assignmentStart end_.

(** [GET /api/calendar/employee/:id/schedule].  A date parameter that is
    absent or empty is replaced by a default: [now1] is the reading of
    [new Date()], [now2] the reading of [Date.now()]. *)
Definition getEmployeeSchedule (now1 now2 : Z) (data : StorageData)
    (id_ : option string) (startDate endDate : option JSDate)
    : Result (Employee * list WorkAssignment) :=
  match id_ with
  | Some i =>
      if negb (truthy id_) then AppError "Employee ID is required" 400
      else
        match getEmployeeById data i with
        | None => AppError "Employee not found" 404
        | Some employee =>
            let start := match startDate with Some d => d | None => Some now1 end in
            let end_ :=
              match endDate with
              | Some d => d
              | None => Some (now2 + 7 * 24 * 60 * 60 * 1000)
              end in
            if Date.isNaN start || Date.isNaN end_
            then AppError "Invalid date format" 400
            else
              let allAssignments := getWorkAssignments data in
              let employeeAssignments := filter (startsInRange i start end_) allAssignments in
              Ok 200 (employee, employeeAssignments)
        end
  | None => AppError "Employee ID is required" 400
  end.

(** ** The rest of the storage service *)

Definition getWorkAssignmentById (data : StorageData) (i : string) : option WorkAssignment :=
  find (fun assignment => String.eqb (id assignment) i) (getWorkAssignments data).

(** [deleteWorkAssignment]: every assignment with that id is filtered out;
    the answer is [false] when the length did not change. *)
Definition deleteWorkAssignment (data : StorageData) (i : string) : bool * StorageData :=
  let kept := filter (fun assignment => negb (String.eqb (id assignment) i))
                (workAssignments data) in
  let data' := {| employees := employees data;
                  workAssignments := kept;
                  settings := settings data |} in
  if Nat.eqb (List.length kept) (List.length (workAssignments data))
  then (false, data')
  else (true, data').

Definition getEmployees (data : StorageData) : list Employee := employees data.

(** [addEmployee]: the argument has no [id]. *)
Definition addEmployee (clock : Clock) (data : StorageData) (name email : string)
    (hours : WorkHours) : Employee * StorageData :=
  let newEmployee :=
    {| emp_id := freshId clock; emp_name := name; emp_email := email; workHours := hours |} in
  (newEmployee,
   {| employees := employees data ++ [newEmployee];
      workAssignments := workAssignments data;
      settings := settings data |}).

(** [updates: Partial<Employee>]. *)
Record EmployeeUpdates := {
  eupd_id : option string;
  eupd_name : option string;
  eupd_email : option string;
  eupd_workHours : option WorkHours;
}.

Definition mergeEmployee (old : Employee) (updates : EmployeeUpdates) : Employee :=
  {| emp_id := orElse (eupd_id updates) (emp_id old);
     emp_name := orElse (eupd_name updates) (emp_name old);
     emp_email := orElse (eupd_email updates) (emp_email old);
     workHours := orElse (eupd_workHours updates) (workHours old) |}.

Fixpoint replaceFirstEmployee (i : string) (f : Employee -> Employee)
    (l : list Employee) : option (Employee * list Employee) :=
  match l with
  | [] => None
  | e :: rest =>
      if String.eqb (emp_id e) i then Some (f e, f e :: rest)
      else match replaceFirstEmployee i f rest with
           | Some (u, rest') => Some (u, e :: rest')
           | None => None
           end
  end.

Definition updateEmployee (data : StorageData) (i : string) (updates : EmployeeUpdates)
    : option Employee * StorageData :=
  match replaceFirstEmployee i (fun old => mergeEmployee old updates) (employees data) with
  | None => (None, data)
  | Some (updated, l) =>
      (Some updated,
       {| employees := l;
          workAssignments := workAssignments data;
          settings := settings data |})
  end.

Definition deleteEmployee (data : StorageData) (i : string) : bool * StorageData :=
  let kept := filter (fun emp => negb (String.eqb (emp_id emp) i)) (employees data) in
  let data' := {| employees := kept;
                  workAssignments := workAssignments data;
                  settings := settings data |} in
  if Nat.eqb (List.length kept) (List.length (employees data))
  then (false, data')
  else (true, data').

(** ** The other handlers of the assignment controller *)

Module assignmentController.

Definition getAllAssignments (data : StorageData) : Result (list WorkAssignment) :=
  Ok 200 (getWorkAssignments data).

Definition getAssignmentById (data : StorageData) (id_ : option string)
    : Result WorkAssignment :=
  match id_ with
  | Some i =>
      if negb (truthy id_) then AppError "Assignment ID is required" 400
      else
        match getWorkAssignmentById data i with
        | None => AppError "Work assignment not found" 404
        | Some assignment => Ok 200 assignment
        end
  | None => AppError "Assignment ID is required" 400
  end.

(** The response of a successful deletion carries no data. *)
Definition deleteAssignment (data : StorageData) (id_ : option string)
    : Result unit * StorageData :=
  match id_ with
  | Some i =>
      if negb (truthy id_) then (AppError "Assignment ID is required" 400, data)
      else
        match deleteWorkAssignment data i with
        | (false, data') => (AppError "Work assignment not found" 404, data')
        | (true, data') => (Ok 200 tt, data')
        end
  | None => (AppError "Assignment ID is required" 400, data)
  end.

End assignmentController.

(** ** The employee controller *)

Module employeeController.

(** The body of [POST /api/employees]; [workHours] may be absent, and so
    may each of its two fields. *)
Record CreateEmployeeRequest := {
  ereq_name : option string;
  ereq_email : option string;
  ereq_workHours : option (option string * option string);
}.

Definition getAllEmployees (data : StorageData) : Result (list Employee) :=
  Ok 200 (getEmployees data).

Definition getEmployeeById (data : StorageData) (id_ : option string) : Result Employee :=
  match id_ with
  | Some i =>
      if negb (truthy id_) then AppError "Employee ID is required" 400
      else
        match getEmployeeById data i with
        | None => AppError "Employee not found" 404
        | Some employee => Ok 200 employee
        end
  | None => AppError "Employee ID is required" 400
  end.

Definition createEmployee (clock : Clock) (data : StorageData) (body : CreateEmployeeRequest)
    : Result Employee * StorageData :=
  match ereq_name body, ereq_email body, ereq_workHours body with
  | Some name, Some email, Some (start, end_) =>
      if isEmpty name || isEmpty email
      then (AppError "Missing required fields: name, email, workHours" 400, data)
      else
        match start, end_ with
        | Some (String c1 s1), Some (String c2 s2) =>
            let existingEmployees := getEmployees data in
            let emailExists :=
              existsb (fun emp => String.eqb (emp_email emp) email) existingEmployees in
            if emailExists
            then (AppError "Employee with this email already exists" 409, data)
            else
              let '(newEmployee, data') :=
                addEmployee clock data name email
                  {| wh_start := String c1 s1; wh_end := String c2 s2 |} in
              (Ok 201 newEmployee, data')
        | _, _ => (AppError "Work hours must include start and end times" 400, data)
        end
  | _, _, _ => (AppError "Missing required fields: name, email, workHours" 400, data)
  end.

Definition updateEmployee (data : StorageData) (id_ : option string)
    (updates : EmployeeUpdates) : Result Employee * StorageData :=
  match id_ with
  | Some i =>
      if negb (truthy id_) then (AppError "Employee ID is required" 400, data)
      else
        match updateEmployee data i updates with
        | (None, data') => (AppError "Employee not found" 404, data')
        | (Some updatedEmployee, data') => (Ok 200 updatedEmployee, data')
        end
  | None => (AppError "Employee ID is required" 400, data)
  end.

Definition deleteEmployee (data : StorageData) (id_ : option string)
    : Result unit * StorageData :=
  match id_ with
  | Some i =>
      if negb (truthy id_) then (AppError "Employee ID is required" 400, data)
      else
        match deleteEmployee data i with
        | (false, data') => (AppError "Employee not found" 404, data')
        | (true, data') => (Ok 200 tt, data')
        end
  | None => (AppError "Employee ID is required" 400, data)
  end.

End employeeController.

(** ** Invariants of the store *)

(** Two assignments whose intervals have an instant in common. *)
Definition sharesTime (a b : WorkAssignment) : Prop :=
  exists sa ea sb eb,
    startTime a = Some sa /\ endTime a = Some ea
    /\ startTime b = Some sb /\ endTime b = Some eb
    /\ sa < eb /\ sb < ea.

(** One employee booked twice at one time. *)
Definition doubleBooked (a b : WorkAssignment) : Prop :=
  employeeId a = employeeId b /\ status a = scheduled /\ status b = scheduled
  /\ sharesTime a b.

Definition noDoubleBooking (l : list WorkAssignment) : Prop :=
  ForallOrdPairs (fun a b => ~ doubleBooked a b) l.

(** A creation request that passes the validation of [createAssignment]
    for employee [eid] and the timestamps [s] and [e]. *)
Definition wellFormedRequest (body : CreateWorkAssignmentRequest) (eid : string)
    (s e : JSDate) : Prop :=
  req_employeeId body = Some eid /\ eid <> EmptyString
  /\ truthy (req_clientName body) = true
  /\ truthy (req_clientPhone body) = true
  /\ truthy (req_clientAddress body) = true
  /\ (exists w, req_workType body = Some w /\ In w validWorkTypes)
  /\ req_startTime body = Some s /\ req_endTime body = Some e.

(** The record [createAssignment] stores for such a request. *)
Definition createdRecord (clock : Clock) (body : CreateWorkAssignmentRequest) (eid : string)
    (s e : JSDate) : WorkAssignment :=
  {| id := freshId clock;
     employeeId := eid;
     clientName := orElse (req_clientName body) EmptyString;
     clientPhone := orElse (req_clientPhone body) EmptyString;
     clientAddress := orElse (req_clientAddress body) EmptyString;
     workType := orElse (req_workType body) EmptyString;
     startTime := s;
     endTime := e;
     comment := req_comment body;
     status := scheduled;
     createdAt := now clock;
     updatedAt := now clock |}.

(** An assignment whose two timestamps are readable and in order, or
    both unreadable. *)
Definition orderedOrUnreadable (a : WorkAssignment) : Prop :=
  (exists s e, startTime a = Some s /\ endTime a = Some e /\ s <= e)
  \/ (startTime a = None /\ endTime a = None).

(** ** Concrete data for the further examples *)

Definition otherEmployee : Employee :=
  {| emp_id := "emp-2";
     emp_name := "Jane Smith";
     emp_email := "jane@example.com";
     workHours := {| wh_start := "09:00"; wh_end := "17:30" |} |}.

Definition twoEmployees : StorageData :=
  {| employees := [lateEmployee; otherEmployee];
     workAssignments :=
       [booking "a1" "emp-1" (jan2024 15 9 0) (jan2024 15 10 0) scheduled;
        booking "a2" "emp-2" (jan2024 15 9 0) (jan2024 15 10 0) scheduled];
     settings := defaultSettings |}.

(** A store with one employee, no booking and a slot duration of [d]
    minutes. *)
Definition storeWithDuration (d : Z) : StorageData :=
  {| employees := [lateEmployee];
     workAssignments := [];
     settings := settingsWithDuration d |}.

(** A booking whose end is text that is not a date. *)
Definition openEnded : WorkAssignment :=
  booking "a3" "emp-1" (jan2024 15 9 0) None scheduled.

(** The request that books the 10:00-11:00 slot of Monday for [emp-1]. *)
Definition bookTen : CreateWorkAssignmentRequest :=
  {| req_employeeId := Some "emp-1"%string;
     req_clientName := Some "Jane Client"%string;
     req_clientPhone := Some "555-5678"%string;
     req_clientAddress := Some "456 Oak Ave"%string;
     req_workType := Some "maintenance"%string;
     req_startTime := Some (jan2024 15 10 0);
     req_endTime := Some (jan2024 15 11 0);
     req_comment := None |}.

(** A request whose two timestamps are text that is not a date. *)
Definition unreadableTimes : CreateWorkAssignmentRequest :=
  {| req_employeeId := Some "emp-1"%string;
     req_clientName := Some "Jane Client"%string;
     req_clientPhone := Some "555-5678"%string;
     req_clientAddress := Some "456 Oak Ave"%string;
     req_workType := Some "maintenance"%string;
     req_startTime := Some None;
     req_endTime := Some None;
     req_comment := None |}.

(** An update that gives an employee the work hours 10:00-14:00. *)
Definition shorterHours : EmployeeUpdates :=
  {| eupd_id := None; eupd_name := None; eupd_email := None;
     eupd_workHours := Some {| wh_start := "10:00"; wh_end := "14:00" |} |}.

Definition cancelIt : WorkAssignmentUpdates :=
  {| upd_id := None; upd_employeeId := None; upd_clientName := None;
     upd_clientPhone := None; upd_clientAddress := None; upd_workType := None;
     upd_startTime := None; upd_endTime := None;
     upd_comment := None; upd_status := Some cancelled; upd_createdAt := None |}.

(** * Properties *)

(** ** Facts about dates *)

Lemma TimeClip_Some (x y : Z) :
  Date.TimeClip x = Some y <-> y = x /\ - Date.maxTime <= x <= Date.maxTime.
Proof.
  unfold Date.TimeClip. destruct (Z.abs x <=? Date.maxTime) eqn:E.
  - apply Z.leb_le in E. split.
    + intros H. injection H as <-. split; [reflexivity|lia].
    + intros [-> _]. reflexivity.
  - apply Z.leb_gt in E. split; [discriminate|]. intros [_ H]. lia.
Qed.

Lemma TimeClip_None (x : Z) :
  Date.TimeClip x = None <-> x < - Date.maxTime \/ Date.maxTime < x.
Proof.
  unfold Date.TimeClip. destruct (Z.abs x <=? Date.maxTime) eqn:E.
  - apply Z.leb_le in E. split; [discriminate|]. lia.
  - apply Z.leb_gt in E. split; [lia|reflexivity].
Qed.

Lemma ltb_Some (x y : Z) : Date.ltb (Some x) (Some y) = (x <? y).
Proof. reflexivity. Qed.

Section DateFacts.
Context {host : HostTimeZone}.

Lemma time_fields (t : Z) :
  Date.MakeDate (Date.Day t)
    (Date.MakeTime (Date.HourFromTime t) (Date.MinFromTime t)
       (Date.SecFromTime t) (Date.msFromTime t)) = t.
Proof.
  unfold Date.MakeDate, Date.MakeTime, Date.Day, Date.HourFromTime, Date.MinFromTime,
    Date.SecFromTime, Date.msFromTime, Date.msPerDay, Date.msPerHour,
    Date.msPerMinute, Date.msPerSecond.
  Z.to_euclidean_division_equations. lia.
Qed.

(** [d.setMinutes(d.getMinutes() + n)] is the instant at which the local
    time reads [n] minutes more than at [d]. *)
Lemma plusMinutes_value (t n : Z) :
  plusMinutes (Some t) n
  = Date.TimeClip (Date.UTC (Date.LocalTime t + n * Date.msPerMinute)).
Proof.
  unfold plusMinutes, Date.setMinutes, Date.getMinutes, num_add. cbn [option_map].
  do 2 f_equal.
  pose proof (time_fields (Date.LocalTime t)) as H.
  unfold Date.MakeDate, Date.MakeTime in *. lia.
Qed.

(** [d.setDate(d.getDate() + 1)] is the instant at which the local time
    reads one day more than at [d]. *)
Lemma nextDay_value (t : Z) :
  nextDay (Some t) = Date.TimeClip (Date.UTC (Date.LocalTime t + Date.msPerDay)).
Proof.
  unfold nextDay, Date.setDate, Date.getDate, num_add. cbn [option_map].
  do 2 f_equal.
  unfold Date.MakeDate, Date.TimeWithinDay, Date.Day.
  pose proof (Z.div_mod (Date.LocalTime t) Date.msPerDay ltac:(discriminate)) as H.
  lia.
Qed.

Lemma plusMinutes_invalid (n : Z) : plusMinutes None n = None.
Proof. reflexivity. Qed.

Lemma nextDay_invalid : nextDay None = None.
Proof. reflexivity. Qed.

(** The anchor is the instant at which the local time reads [h] hours and
    [m] minutes, and no seconds, on the local day of the date. *)
Lemma anchor_value (t h m : Z) (text : string) (hour minute : JSNumber) :
  parseHours text = (hour, minute) ->
  Date.integerPart hour = Some h -> Date.integerPart minute = Some m ->
  anchor (Some t) text
  = Date.TimeClip (Date.UTC (Date.Day (Date.LocalTime t) * Date.msPerDay
                             + Date.MakeTime h m 0 0)).
Proof.
  intros Hp Hh Hm. unfold anchor, Date.setHours. rewrite Hp, Hh, Hm. reflexivity.
Qed.

Lemma anchor_timeOfDay (t : Z) (text : string) :
  anchor (Some t) text
  = match timeOfDay text with
    | Some tod =>
        Date.TimeClip (Date.UTC (Date.Day (Date.LocalTime t) * Date.msPerDay + tod))
    | None => None
    end.
Proof.
  unfold anchor, timeOfDay, Date.setHours.
  destruct (parseHours text) as [hour minute].
  destruct (Date.integerPart hour), (Date.integerPart minute); reflexivity.
Qed.

Lemma anchor_invalid_date (text : string) : anchor None text = None.
Proof. unfold anchor. now destruct (parseHours text). Qed.

End DateFacts.

(** On a host with a constant offset the two steps are sums of instants. *)
Section FixedOffsetDates.
Context {host : HostTimeZone}.
Variable offset : Z.
Hypothesis Hfixed : fixedOffset host offset.

Lemma UTC_LocalTime (t x : Z) : Date.UTC (Date.LocalTime t + x) = t + x.
Proof. unfold Date.UTC, Date.LocalTime. rewrite !Hfixed. lia. Qed.

Lemma LocalTime_fixed (t : Z) : Date.LocalTime t = t + offset.
Proof. unfold Date.LocalTime. now rewrite Hfixed. Qed.

Lemma plusMinutes_fixed (t n : Z) :
  plusMinutes (Some t) n = Date.TimeClip (t + n * Date.msPerMinute).
Proof. now rewrite plusMinutes_value, UTC_LocalTime. Qed.

Lemma nextDay_fixed (t : Z) : nextDay (Some t) = Date.TimeClip (t + Date.msPerDay).
Proof. now rewrite nextDay_value, UTC_LocalTime. Qed.

Lemma anchor_fixed (t : Z) (text : string) :
  anchor (Some t) text
  = match timeOfDay text with
    | Some tod => Date.TimeClip (Date.Day (t + offset) * Date.msPerDay - offset + tod)
    | None => None
    end.
Proof.
  rewrite anchor_timeOfDay. destruct (timeOfDay text) as [tod|]; [|reflexivity].
  f_equal. unfold Date.UTC. rewrite Hfixed, LocalTime_fixed. lia.
Qed.

Lemma getDay_next (cur n : Z) :
  Date.getDay (Some cur) = Some n ->
  Date.getDay (Some (cur + Date.msPerDay)) = Some ((n + 1) mod 7).
Proof.
  unfold Date.getDay, Date.WeekDay, Date.Day. cbn [option_map].
  rewrite !LocalTime_fixed.
  intros H. injection H as <-. f_equal.
  replace (cur + Date.msPerDay + offset) with (cur + offset + 1 * Date.msPerDay) by lia.
  rewrite Z.div_add by discriminate.
  rewrite Zplus_mod_idemp_l. f_equal. lia.
Qed.

End FixedOffsetDates.

(** ** The slot loop *)

Section SlotLoopFacts.
Context {host : HostTimeZone}.
Variables (employee : Employee) (d : Z) (dayAssignments : list WorkAssignment).

Lemma makeSlot_eq (c : JSDate) :
  makeSlot employee d dayAssignments c
  = match c, plusMinutes c d with
    | Some _, Some _ => Normal (slotAt employee d dayAssignments c)
    | _, _ => RangeError
    end.
Proof.
  unfold makeSlot, slotAt, Date.toISOString. fold (plusMinutes c d).
  destruct c as [cz|]; [|reflexivity].
  destruct (plusMinutes (Some cz) d); reflexivity.
Qed.

Lemma makeSlot_Normal (c : JSDate) (s : TimeSlot) :
  makeSlot employee d dayAssignments c = Normal s ->
  s = slotAt employee d dayAssignments c
  /\ (exists cz, c = Some cz) /\ (exists ez, plusMinutes c d = Some ez).
Proof.
  rewrite makeSlot_eq. destruct c as [cz|]; [|discriminate].
  destruct (plusMinutes (Some cz) d) as [ez|]; [|discriminate].
  intros H. injection H as <-. eauto.
Qed.

Lemma slotLoop_step (fuel : nat) (workEndTime cur : JSDate) :
  slotLoop (S fuel) employee d dayAssignments workEndTime cur
  = if Date.ltb cur workEndTime then
      match makeSlot employee d dayAssignments cur with
      | RangeError => Some RangeError
      | Normal slot =>
          match slotLoop fuel employee d dayAssignments workEndTime (plusMinutes cur d) with
          | Some (Normal slots) => Some (Normal (slot :: slots))
          | Some RangeError => Some RangeError
          | None => None
          end
      end
    else Some (Normal []).
Proof.
  cbn [slotLoop]. unfold bind, ret, plusMinutes.
  destruct (Date.ltb cur workEndTime); [|reflexivity].
  destruct (makeSlot employee d dayAssignments cur); [|reflexivity].
  destruct (slotLoop fuel employee d dayAssignments workEndTime _) as [[rest|]|]; reflexivity.
Qed.

Lemma slotLoop_O (workEndTime cur : JSDate) :
  slotLoop O employee d dayAssignments workEndTime cur
  = if Date.ltb cur workEndTime then None else Some (Normal []).
Proof. reflexivity. Qed.

(** A window that is empty or inverted, or has an invalid end, gives no
    slot, whatever the fuel and the duration. *)
Lemma slotLoop_empty (fuel : nat) (workEndTime cur : JSDate) :
  Date.ltb cur workEndTime = false ->
  slotLoop fuel employee d dayAssignments workEndTime cur = Some (Normal []).
Proof.
  intros H. destruct fuel; [rewrite slotLoop_O | rewrite slotLoop_step]; now rewrite H.
Qed.

(** What a list that the loop returns is made of. *)
Lemma slotLoop_nil (fuel : nat) (workEndTime cur : JSDate) :
  slotLoop fuel employee d dayAssignments workEndTime cur = Some (Normal []) ->
  Date.ltb cur workEndTime = false.
Proof.
  destruct fuel; [rewrite slotLoop_O | rewrite slotLoop_step];
    destruct (Date.ltb cur workEndTime); try discriminate; try reflexivity.
  destruct (makeSlot employee d dayAssignments cur); [|discriminate].
  destruct (slotLoop fuel employee d dayAssignments workEndTime _) as [[rest|]|];
    discriminate.
Qed.

Lemma slotLoop_cons (fuel : nat) (workEndTime cur : JSDate) (s : TimeSlot)
    (rest : list TimeSlot) :
  slotLoop fuel employee d dayAssignments workEndTime cur = Some (Normal (s :: rest)) ->
  Date.ltb cur workEndTime = true
  /\ makeSlot employee d dayAssignments cur = Normal s
  /\ exists fuel',
       fuel = S fuel'
       /\ slotLoop fuel' employee d dayAssignments workEndTime (plusMinutes cur d)
          = Some (Normal rest).
Proof.
  destruct fuel; [rewrite slotLoop_O | rewrite slotLoop_step];
    destruct (Date.ltb cur workEndTime); try discriminate.
  destruct (makeSlot employee d dayAssignments cur) as [slot|]; [|discriminate].
  destruct (slotLoop fuel employee d dayAssignments workEndTime (plusMinutes cur d))
    as [[slots|]|] eqn:Hrest; try discriminate.
  intros H. injection H as <- <-. eauto.
Qed.

(** Every slot of a result was made at a start that passed the loop
    test. *)
Lemma slotLoop_In (workEndTime : JSDate) (slots : list TimeSlot) :
  forall (fuel : nat) (cur : JSDate),
    slotLoop fuel employee d dayAssignments workEndTime cur = Some (Normal slots) ->
    forall s, In s slots ->
      exists c : Z,
        makeSlot employee d dayAssignments (Some c) = Normal s
        /\ Date.ltb (Some c) workEndTime = true.
Proof.
  induction slots as [|x rest IH]; intros fuel cur Hrun s Hin; [destruct Hin|].
  destruct (slotLoop_cons _ _ _ _ _ Hrun) as (Hlt & Hx & fuel' & -> & Hrest).
  destruct Hin as [<-|Hin].
  - destruct (makeSlot_Normal _ _ Hx) as (_ & [cz ->] & _). eauto.
  - eapply IH; eassumption.
Qed.

(** Each slot begins where the one before it ends. *)
Lemma slotLoop_chain (workEndTime : JSDate) (slots : list TimeSlot) :
  forall (fuel : nat) (cur : JSDate),
    slotLoop fuel employee d dayAssignments workEndTime cur = Some (Normal slots) ->
    forall (k : nat) (a b : TimeSlot),
      nth_error slots k = Some a -> nth_error slots (S k) = Some b ->
      slot_start b = slot_end a.
Proof.
  induction slots as [|x rest IH]; intros fuel cur Hrun k a b Ha Hb;
    [destruct k; discriminate|].
  destruct (slotLoop_cons _ _ _ _ _ Hrun) as (_ & Hx & fuel' & -> & Hrest).
  destruct k as [|k].
  - cbn in Ha, Hb. injection Ha as <-.
    destruct rest as [|y rest']; [discriminate|]. cbn in Hb. injection Hb as <-.
    destruct (slotLoop_cons _ _ _ _ _ Hrest) as (_ & Hy & _).
    destruct (makeSlot_Normal _ _ Hx) as (-> & _).
    destruct (makeSlot_Normal _ _ Hy) as (-> & _). reflexivity.
  - cbn in Ha, Hb. eapply IH; eassumption.
Qed.

(** The loop stops at the end of the last slot. *)
Lemma slotLoop_last (workEndTime : JSDate) (front : list TimeSlot) (s : TimeSlot) :
  forall (fuel : nat) (cur : JSDate),
    slotLoop fuel employee d dayAssignments workEndTime cur
    = Some (Normal (front ++ [s])) ->
    Date.ltb (slot_end s) workEndTime = false.
Proof.
  induction front as [|x front IH]; intros fuel cur Hrun; cbn [app] in Hrun;
    destruct (slotLoop_cons _ _ _ _ _ Hrun) as (_ & Hx & fuel' & -> & Hrest).
  - apply slotLoop_nil in Hrest.
    destruct (makeSlot_Normal _ _ Hx) as (-> & _). exact Hrest.
  - eapply IH; eassumption.
Qed.

(** More fuel does not change a result. *)
Lemma slotLoop_fuel_mono (fuel : nat) (workEndTime : JSDate) :
  forall (cur : JSDate) (r : Completion (list TimeSlot)) (fuel' : nat),
    slotLoop fuel employee d dayAssignments workEndTime cur = Some r ->
    (fuel <= fuel')%nat ->
    slotLoop fuel' employee d dayAssignments workEndTime cur = Some r.
Proof.
  induction fuel as [|fuel IH]; intros cur r fuel' Hrun Hle.
  - rewrite slotLoop_O in Hrun.
    destruct (Date.ltb cur workEndTime) eqn:Hlt; [discriminate|].
    now rewrite slotLoop_empty.
  - destruct fuel' as [|fuel']; [lia|].
    rewrite slotLoop_step in *. destruct (Date.ltb cur workEndTime); [|assumption].
    destruct (makeSlot employee d dayAssignments cur); [|assumption].
    destruct (slotLoop fuel employee d dayAssignments workEndTime (plusMinutes cur d))
      as [r0|] eqn:Hrest; [|discriminate].
    now rewrite (IH _ _ fuel' Hrest) by lia.
Qed.

End SlotLoopFacts.

(** ** The slot loop on a host with a constant offset *)

Section SlotLoopFixed.
Context {host : HostTimeZone}.
Variable offset : Z.
Hypothesis Hfixed : fixedOffset host offset.
Variables (employee : Employee) (d : Z) (dayAssignments : list WorkAssignment).

Let step : Z := d * Date.msPerMinute.

(** The [k]-th slot of a result starts [k] steps after the first. *)
Lemma slotLoop_nth (workEndTime : JSDate) (slots : list TimeSlot) :
  forall (fuel : nat) (cur : Z),
    slotLoop fuel employee d dayAssignments workEndTime (Some cur) = Some (Normal slots) ->
    forall (k : nat) (s : TimeSlot),
      nth_error slots k = Some s ->
      slot_start s = Some (cur + Z.of_nat k * step)
      /\ slot_end s = Some (cur + Z.of_nat k * step + step)
      /\ Date.ltb (Some (cur + Z.of_nat k * step)) workEndTime = true.
Proof.
  induction slots as [|x rest IH]; intros fuel cur Hrun k s Hk;
    [destruct k; discriminate|].
  destruct (slotLoop_cons _ _ _ _ _ _ _ _ Hrun) as (Hlt & Hx & fuel' & -> & Hrest).
  destruct (makeSlot_Normal _ _ _ _ _ Hx) as (-> & _ & [ez He]).
  pose proof He as He'. rewrite (plusMinutes_fixed offset Hfixed) in He'.
  apply TimeClip_Some in He'. destruct He' as [-> _].
  rewrite He in Hrest.
  destruct k as [|k].
  - cbn in Hk. injection Hk as <-.
    replace (cur + Z.of_nat 0 * step) with cur by lia.
    cbn [slotAt slot_start slot_end]. auto.
  - cbn [nth_error] in Hk. destruct (IH _ _ Hrest _ _ Hk) as (H1 & H2 & H3).
    replace (cur + Z.of_nat (S k) * step)
      with (cur + d * Date.msPerMinute + Z.of_nat k * step) by (unfold step; lia).
    auto.
Qed.

Lemma slotCount_done (cur we : Z) : 0 < d -> we <= cur -> slotCount d cur we = O.
Proof.
  intros Hd Hle. unfold slotCount. fold step.
  assert (0 < step) by (unfold step, Date.msPerMinute; lia).
  assert ((we - cur + step - 1) / step <= 0).
  { apply Z.lt_succ_r. apply Z.div_lt_upper_bound; lia. }
  lia.
Qed.

Lemma slotCount_more (cur we : Z) :
  0 < d -> cur < we -> slotCount d cur we = S (slotCount d (cur + step) we).
Proof.
  intros Hd Hlt. unfold slotCount. fold step.
  assert (Hs : 0 < step) by (unfold step, Date.msPerMinute; lia).
  replace (we - cur + step - 1) with ((we - (cur + step) + step - 1) + 1 * step) by lia.
  rewrite Z.div_add by lia.
  assert (0 <= (we - (cur + step) + step - 1) / step).
  { apply Z.div_pos; lia. }
  rewrite <- Z2Nat.inj_succ by lia. f_equal; lia.
Qed.

(** With a positive duration the loop terminates.  While the end of the
    last slot is a time value, enough fuel gives a list of [slotCount]
    slots. *)
Lemma slotLoop_returns (we : Z) (fuel : nat) :
  0 < d ->
  forall cur : Z,
    - Date.maxTime <= cur ->
    cur + Z.of_nat (slotCount d cur we) * step <= Date.maxTime ->
    (slotCount d cur we <= fuel)%nat ->
    exists slots,
      slotLoop fuel employee d dayAssignments (Some we) (Some cur) = Some (Normal slots)
      /\ List.length slots = slotCount d cur we.
Proof.
  intros Hd.
  assert (Hs : 0 < step) by (unfold step, Date.msPerMinute; lia).
  induction fuel as [|fuel IH]; intros cur Hlow Hhigh Hfuel.
  - rewrite slotLoop_O, ltb_Some. destruct (cur <? we) eqn:Hlt.
    + apply Z.ltb_lt in Hlt. rewrite slotCount_more in Hfuel by assumption. lia.
    + apply Z.ltb_ge in Hlt. exists []. now rewrite slotCount_done.
  - rewrite slotLoop_step, ltb_Some. destruct (cur <? we) eqn:Hlt.
    2:{ apply Z.ltb_ge in Hlt. exists []. now rewrite slotCount_done. }
    apply Z.ltb_lt in Hlt. rewrite slotCount_more in * by assumption.
    set (n := slotCount d (cur + step) we) in *.
    assert (Hnext : plusMinutes (Some cur) d = Some (cur + step)).
    { rewrite (plusMinutes_fixed offset Hfixed). apply TimeClip_Some.
      split; [reflexivity|]. fold step. nia. }
    rewrite makeSlot_eq, Hnext.
    destruct (IH (cur + step)) as (rest & Hrest & Hlen); [lia|fold n; nia|fold n; lia|].
    rewrite Hrest. eexists. split; [reflexivity|]. cbn [List.length]. now rewrite Hlen.
Qed.

(** When the end of a slot is beyond the last time value, the loop ends
    with the exception. *)
Lemma slotLoop_throws (we : Z) (fuel : nat) :
  0 < d ->
  forall cur : Z,
    cur < we ->
    Date.maxTime < cur + Z.of_nat (slotCount d cur we) * step ->
    (slotCount d cur we <= fuel)%nat ->
    slotLoop fuel employee d dayAssignments (Some we) (Some cur) = Some RangeError.
Proof.
  intros Hd.
  assert (Hs : 0 < step) by (unfold step, Date.msPerMinute; lia).
  induction fuel as [|fuel IH]; intros cur Hlt Hhigh Hfuel;
    rewrite slotCount_more in Hfuel, Hhigh by assumption; [lia|].
  rewrite slotLoop_step, ltb_Some, (proj2 (Z.ltb_lt _ _) Hlt).
  rewrite makeSlot_eq, (plusMinutes_fixed offset Hfixed). fold step.
  destruct (Date.TimeClip (cur + step)) as [ez|] eqn:Hclip; [|reflexivity].
  apply TimeClip_Some in Hclip. destruct Hclip as [-> Hrange].
  destruct (Z_lt_le_dec (cur + step) we) as [Hnext|Hnext].
  - rewrite IH; [reflexivity|assumption|lia|lia].
  - rewrite slotCount_done in Hhigh by assumption. lia.
Qed.

Lemma slotLoop_total (we : Z) (fuel : nat) :
  0 < d ->
  forall cur : Z,
    (slotCount d cur we <= fuel)%nat ->
    exists r, slotLoop fuel employee d dayAssignments (Some we) (Some cur) = Some r.
Proof.
  intros Hd. induction fuel as [|fuel IH]; intros cur Hfuel.
  - rewrite slotLoop_O, ltb_Some. destruct (cur <? we) eqn:Hlt; [|eauto].
    apply Z.ltb_lt in Hlt. rewrite slotCount_more in Hfuel by assumption. lia.
  - rewrite slotLoop_step, ltb_Some. destruct (cur <? we) eqn:Hlt; [|eauto].
    apply Z.ltb_lt in Hlt. rewrite slotCount_more in Hfuel by assumption.
    rewrite makeSlot_eq, (plusMinutes_fixed offset Hfixed). fold step.
    destruct (Date.TimeClip (cur + step)) as [ez|] eqn:Hclip; [|eauto].
    apply TimeClip_Some in Hclip. destruct Hclip as [-> _].
    destruct (IH (cur + step)) as [[rest|] Hrest]; [lia| |]; rewrite Hrest; eauto.
Qed.

(** With a duration of 0 the loop stays at its start. *)
Lemma slotLoop_zero (workEndTime : JSDate) (fuel : nat) (cur : Z) :
  d = 0 ->
  - Date.maxTime <= cur <= Date.maxTime ->
  Date.ltb (Some cur) workEndTime = true ->
  slotLoop fuel employee d dayAssignments workEndTime (Some cur) = None.
Proof.
  intros Hd Hrange Hlt.
  assert (Hnext : plusMinutes (Some cur) d = Some cur).
  { rewrite (plusMinutes_fixed offset Hfixed). apply TimeClip_Some.
    split; [|rewrite Hd; lia]. rewrite Hd. lia. }
  induction fuel as [|fuel IH]; [now rewrite slotLoop_O, Hlt|].
  rewrite slotLoop_step, Hlt, makeSlot_eq, Hnext, IH. reflexivity.
Qed.

(** With a negative duration the loop walks back until the end of a slot
    is before the first time value. *)
Lemma slotLoop_negative (we : Z) :
  d < 0 -> we <= Date.maxTime ->
  forall (n : nat) (cur : Z),
    - Date.maxTime <= cur -> cur < we ->
    cur + Date.maxTime < Z.of_nat n * (- step) ->
    slotLoop n employee d dayAssignments (Some we) (Some cur) = Some RangeError.
Proof.
  intros Hd Hwe.
  assert (Hs : step < 0) by (unfold step, Date.msPerMinute; lia).
  induction n as [|n IH]; intros cur Hlow Hlt Hn; [lia|].
  rewrite slotLoop_step, ltb_Some, (proj2 (Z.ltb_lt _ _) Hlt).
  rewrite makeSlot_eq, (plusMinutes_fixed offset Hfixed). fold step.
  destruct (Date.TimeClip (cur + step)) as [ez|] eqn:Hclip; [|reflexivity].
  apply TimeClip_Some in Hclip. destruct Hclip as [-> Hrange].
  rewrite IH; [reflexivity|lia|lia|lia].
Qed.

(** With a duration that is not positive the loop never returns a list,
    once it has been entered. *)
Lemma slotLoop_never_returns (workEndTime : JSDate) (fuel : nat) :
  d <= 0 ->
  forall cur : Z,
    Date.ltb (Some cur) workEndTime = true ->
    forall slots,
      slotLoop fuel employee d dayAssignments workEndTime (Some cur) <> Some (Normal slots).
Proof.
  intros Hd. induction fuel as [|fuel IH]; intros cur Hlt slots;
    [now rewrite slotLoop_O, Hlt|].
  rewrite slotLoop_step, Hlt, makeSlot_eq, (plusMinutes_fixed offset Hfixed).
  destruct (Date.TimeClip (cur + d * Date.msPerMinute)) as [ez|] eqn:Hclip; [|discriminate].
  apply TimeClip_Some in Hclip. destruct Hclip as [-> _].
  assert (Hnext : Date.ltb (Some (cur + d * Date.msPerMinute)) workEndTime = true).
  { destruct workEndTime as [we|]; [|discriminate].
    rewrite ltb_Some in *. apply Z.ltb_lt in Hlt. apply Z.ltb_lt.
    unfold Date.msPerMinute. lia. }
  specialize (IH _ Hnext).
  destruct (slotLoop fuel employee d dayAssignments workEndTime _) as [[rest|]|];
    try discriminate.
  exfalso. now apply (IH rest).
Qed.

End SlotLoopFixed.

(** ** The slot generator *)

Section GeneratorFacts.
Context {host : HostTimeZone}.

Lemma slotCount_bounds (d ws we : Z) :
  0 < d -> ws < we ->
  let step := d * Date.msPerMinute in
  let n := Z.of_nat (slotCount d ws we) in
  0 < n /\ ws + (n - 1) * step < we <= ws + n * step
  /\ ((we - ws) mod step <> 0 -> we < ws + n * step).
Proof.
  intros Hd Hlt step n.
  assert (Hs : 0 < step) by (unfold step, Date.msPerMinute; lia).
  assert (Hq : 0 < (we - ws + step - 1) / step).
  { apply Z.div_str_pos. lia. }
  assert (Hn : n = (we - ws + step - 1) / step).
  { unfold n, slotCount. fold step. rewrite Z2Nat.id; lia. }
  pose proof (Z.div_mod (we - ws + step - 1) step ltac:(lia)) as Hdm.
  pose proof (Z.mod_pos_bound (we - ws + step - 1) step Hs) as Hmb.
  rewrite <- Hn in Hdm.
  repeat split; try nia.
  intros Hrem.
  destruct (Z.eq_dec we (ws + n * step)) as [E|E]; [|nia].
  exfalso. apply Hrem. replace (we - ws) with (0 + n * step) by lia.
  rewrite Z.mod_add by lia. apply Z.mod_0_l. lia.
Qed.

Lemma slotCount_shift (d a b c : Z) : slotCount d (a + c) (b + c) = slotCount d a b.
Proof. unfold slotCount. do 2 f_equal. lia. Qed.

(** Of the employee record the generator reads the identifier only. *)
Lemma slotLoop_employee_id (e e' : Employee) (d : Z) (l : list WorkAssignment)
    (workEndTime : JSDate) (fuel : nat) :
  emp_id e = emp_id e' ->
  forall cur, slotLoop fuel e d l workEndTime cur = slotLoop fuel e' d l workEndTime cur.
Proof.
  intros Hid. induction fuel as [|fuel IH]; intros cur; [reflexivity|].
  rewrite !slotLoop_step, IH. unfold makeSlot. now rewrite Hid.
Qed.

Lemma generateTimeSlotsForDay_employee_id (fuel : nat) (date : JSDate) (e e' : Employee)
    (settings : CalendarSettings) (assignments : list WorkAssignment) :
  emp_id e = emp_id e' ->
  generateTimeSlotsForDay fuel date e settings assignments
  = generateTimeSlotsForDay fuel date e' settings assignments.
Proof.
  intros Hid. unfold generateTimeSlotsForDay, dayAssignmentsOf. rewrite Hid.
  now apply slotLoop_employee_id.
Qed.

Lemma anchor_in_range (date : JSDate) (text : string) (a : Z) :
  anchor date text = Some a -> - Date.maxTime <= a <= Date.maxTime.
Proof.
  destruct date as [t|]; [|now rewrite anchor_invalid_date].
  rewrite anchor_timeOfDay. destruct (timeOfDay text); [|discriminate].
  intros H. apply TimeClip_Some in H. destruct H as [-> H]. exact H.
Qed.

Lemma ltb_invalid_end (cur : JSDate) : Date.ltb cur None = false.
Proof. now destruct cur. Qed.

(** What a list that the generator returns is made of: a chain of slots
    from the anchor of [workStartTime] up to the anchor of [workEndTime]. *)
Lemma generate_shape (fuel : nat) (date : JSDate) (employee : Employee)
    (settings : CalendarSettings) (assignments : list WorkAssignment)
    (slots : list TimeSlot) :
  generateTimeSlotsForDay fuel date employee settings assignments = Some (Normal slots) ->
  let ws := anchor date (workStartTime settings) in
  let we := anchor date (workEndTime settings) in
  (slots = [] <-> ~ date_lt ws we)
  /\ (forall first rest, slots = first :: rest -> slot_start first = ws)
  /\ (forall k a b,
        nth_error slots k = Some a -> nth_error slots (S k) = Some b ->
        slot_start b = slot_end a)
  /\ (forall s, In s slots ->
        date_lt (slot_start s) we
        /\ slot_end s = plusMinutes (slot_start s) (slotDuration settings))
  /\ (forall front s, slots = front ++ [s] -> date_le we (slot_end s)).
Proof.
  intros Hrun ws we. unfold generateTimeSlotsForDay in Hrun. fold ws we in Hrun.
  set (l := dayAssignmentsOf date employee assignments) in Hrun.
  assert (Hin : forall s, In s slots ->
                  date_lt (slot_start s) we
                  /\ slot_end s = plusMinutes (slot_start s) (slotDuration settings)
                  /\ exists ez, slot_end s = Some ez).
  { intros s Hs. destruct (slotLoop_In _ _ _ _ _ _ _ Hrun s Hs) as (c & Hmade & Hlt).
    destruct (makeSlot_Normal _ _ _ _ _ Hmade) as (-> & _ & [ez He]).
    cbn [slotAt slot_start slot_end]. split; [|eauto].
    destruct we as [wez|]; [|discriminate]. rewrite ltb_Some in Hlt.
    now apply Z.ltb_lt in Hlt. }
  split; [|split; [|split; [|split]]].
  - split.
    + intros ->. apply slotLoop_nil in Hrun. intros Hlt.
      destruct ws as [wsz|], we as [wez|]; try contradiction.
      rewrite ltb_Some in Hrun. apply Z.ltb_ge in Hrun. cbn in Hlt. lia.
    + intros Hno.
      assert (Hlt : Date.ltb ws we = false).
      { destruct ws as [wsz|], we as [wez|]; try reflexivity.
        rewrite ltb_Some. apply Z.ltb_ge. cbn in Hno. lia. }
      rewrite slotLoop_empty in Hrun by assumption. congruence.
  - intros first rest ->.
    destruct (slotLoop_cons _ _ _ _ _ _ _ _ Hrun) as (_ & Hmade & _).
    now destruct (makeSlot_Normal _ _ _ _ _ Hmade) as (-> & _).
  - eapply slotLoop_chain. exact Hrun.
  - intros s Hs. destruct (Hin s Hs) as (H1 & H2 & _). auto.
  - intros front s ->.
    pose proof (slotLoop_last _ _ _ _ _ _ _ _ Hrun) as Hlast.
    destruct (Hin s ltac:(apply in_or_app; right; now left)) as (Hlt & _ & [ez He]).
    rewrite He in *. destruct we as [wez|]; [|destruct (slot_start s); destruct Hlt].
    rewrite ltb_Some in Hlast. apply Z.ltb_ge in Hlast. exact Hlast.
Qed.

End GeneratorFacts.

Section GeneratorFixed.
Context {host : HostTimeZone}.
Variable offset : Z.
Hypothesis Hfixed : fixedOffset host offset.

(** With a positive duration the generator terminates, on every day and
    for every employee, once the fuel covers the runs of the window. *)
Lemma generateTimeSlotsForDay_total (date : JSDate) (employee : Employee)
    (settings : CalendarSettings) (assignments : list WorkAssignment) :
  0 < slotDuration settings ->
  exists r,
    forall fuel, (windowRuns settings <= fuel)%nat ->
      generateTimeSlotsForDay fuel date employee settings assignments = Some r.
Proof.
  intros Hd. unfold generateTimeSlotsForDay, windowRuns.
  set (l := dayAssignmentsOf date employee assignments).
  destruct date as [t|].
  2:{ exists (Normal []). intros fuel _. apply slotLoop_empty.
      now rewrite anchor_invalid_date. }
  rewrite !(anchor_fixed offset Hfixed).
  destruct (timeOfDay (workStartTime settings)) as [ts|];
    [|exists (Normal []); intros fuel _; now apply slotLoop_empty].
  destruct (timeOfDay (workEndTime settings)) as [te|];
    [|exists (Normal []); intros fuel _; apply slotLoop_empty; apply ltb_invalid_end].
  set (base := Date.Day (t + offset) * Date.msPerDay - offset).
  destruct (Date.TimeClip (base + ts)) as [ws|] eqn:Hws;
    [|exists (Normal []); intros fuel _; now apply slotLoop_empty].
  destruct (Date.TimeClip (base + te)) as [we|] eqn:Hwe;
    [|exists (Normal []); intros fuel _; now apply slotLoop_empty].
  apply TimeClip_Some in Hws, Hwe. destruct Hws as [-> _], Hwe as [-> _].
  replace (base + ts) with (ts + base) by lia. replace (base + te) with (te + base) by lia.
  rewrite <- (slotCount_shift _ ts te base).
  destruct (slotLoop_total offset Hfixed employee (slotDuration settings) l (te + base)
              _ Hd (ts + base) (le_n _)) as [r Hr].
  exists r. intros fuel Hfuel. eapply slotLoop_fuel_mono; eassumption.
Qed.

Lemma windowRuns_anchored (t : Z) (settings : CalendarSettings) (ws we : Z) :
  anchor (Some t) (workStartTime settings) = Some ws ->
  anchor (Some t) (workEndTime settings) = Some we ->
  windowRuns settings = slotCount (slotDuration settings) ws we.
Proof.
  rewrite !(anchor_fixed offset Hfixed). unfold windowRuns.
  destruct (timeOfDay (workStartTime settings)) as [ts|]; [|discriminate].
  destruct (timeOfDay (workEndTime settings)) as [te|]; [|discriminate].
  intros Hws Hwe. apply TimeClip_Some in Hws, Hwe. destruct Hws as [-> _], Hwe as [-> _].
  set (base := Date.Day (t + offset) * Date.msPerDay - offset).
  replace (base + ts) with (ts + base) by lia. replace (base + te) with (te + base) by lia.
  now rewrite slotCount_shift.
Qed.

End GeneratorFixed.

(** C3, amended: whatever list the generator returns is a chain of slots
    without gaps from the anchor [ws] of [workStartTime] up to the anchor
    [we] of [workEndTime]: it is empty exactly when [we <= ws], its first
    slot starts at [ws], each slot starts where the one before it ends and
    ends where the local time reads [d] minutes more than at its start,
    every start is before [we], and the last slot reaches [we].  On a host
    with a constant offset, for [ws < we] and a positive duration [d]: if
    the end of the last slot is a time value, the generator returns
    [slotCount] slots whose [k]-th start is [ws + k * d] minutes and whose
    end is its start plus [d] minutes, the last of which ends strictly
    after [we] when the window is not a multiple of [d]; otherwise it
    throws a [RangeError] and returns no list.  A window that is empty or
    inverted gives the empty list. *)
Theorem slots_partition_window {host : HostTimeZone} (date : JSDate) (employee : Employee)
    (settings : CalendarSettings) (assignments : list WorkAssignment) (ws we : Z) :
  anchor date (workStartTime settings) = Some ws ->
  anchor date (workEndTime settings) = Some we ->
  let d := slotDuration settings in
  let step := d * Date.msPerMinute in
  let n := slotCount d ws we in
  (forall fuel slots,
      generateTimeSlotsForDay fuel date employee settings assignments = Some (Normal slots) ->
      (slots = [] <-> we <= ws)
      /\ (forall first rest, slots = first :: rest -> slot_start first = Some ws)
      /\ (forall k a b,
            nth_error slots k = Some a -> nth_error slots (S k) = Some b ->
            slot_start b = slot_end a)
      /\ (forall s, In s slots ->
            date_lt (slot_start s) (Some we) /\ slot_end s = plusMinutes (slot_start s) d)
      /\ (forall front s, slots = front ++ [s] -> date_le (Some we) (slot_end s)))
  /\ (forall offset, fixedOffset host offset -> ws < we -> 0 < d ->
        (ws + Z.of_nat n * step <= Date.maxTime ->
         exists slots : list TimeSlot,
           (forall fuel, (n <= fuel)%nat ->
              generateTimeSlotsForDay fuel date employee settings assignments
              = Some (Normal slots))
           /\ List.length slots = n
           /\ slots <> []
           /\ (forall k s, nth_error slots k = Some s ->
                 slot_start s = Some (ws + Z.of_nat k * step)
                 /\ slot_end s = Some (ws + Z.of_nat k * step + step)
                 /\ ws + Z.of_nat k * step < we)
           /\ ws + (Z.of_nat n - 1) * step < we <= ws + Z.of_nat n * step
           /\ ((we - ws) mod step <> 0 -> we < ws + Z.of_nat n * step))
        /\ (Date.maxTime < ws + Z.of_nat n * step ->
            forall fuel, (n <= fuel)%nat ->
              generateTimeSlotsForDay fuel date employee settings assignments
              = Some RangeError))
  /\ (we <= ws ->
      forall fuel,
        generateTimeSlotsForDay fuel date employee settings assignments = Some (Normal [])).
Proof.
  intros Hws Hwe d step n. split; [|split].
  - intros fuel slots Hrun.
    destruct (generate_shape _ _ _ _ _ _ Hrun) as (Hnil & Hfirst & Hchain & Hin & Hlast).
    rewrite Hws, Hwe in *. cbn [date_lt] in Hnil.
    split; [rewrite Hnil; lia|]. auto.
  - intros offset Hfixed Hlt Hd.
    unfold generateTimeSlotsForDay. rewrite Hws, Hwe. fold d.
    set (l := dayAssignmentsOf date employee assignments).
    destruct (slotCount_bounds d ws we Hd Hlt) as (Hpos & Hcover & Hpartial).
    fold step n in Hpos, Hcover, Hpartial.
    split.
    + intros Hrange.
      destruct (slotLoop_returns offset Hfixed employee d l we n Hd ws) as (slots & Hrun & Hlen).
      * apply (anchor_in_range _ _ _ Hws).
      * exact Hrange.
      * apply le_n.
      * exists slots. split; [|split; [|split; [|split; [|split]]]].
        -- intros fuel Hfuel. eapply slotLoop_fuel_mono; eassumption.
        -- exact Hlen.
        -- intros ->. cbn in Hlen. lia.
        -- intros k s Hk.
           destruct (slotLoop_nth offset Hfixed _ _ _ _ _ _ _ Hrun k s Hk) as (H1 & H2 & H3).
           rewrite ltb_Some in H3. apply Z.ltb_lt in H3. auto.
        -- exact Hcover.
        -- exact Hpartial.
    + intros Hout fuel Hfuel. now apply (slotLoop_throws offset Hfixed).
  - intros Hle fuel. unfold generateTimeSlotsForDay. rewrite Hws, Hwe.
    apply slotLoop_empty. rewrite ltb_Some. now apply Z.ltb_ge.
Qed.

(** C3, on a Monday: the global window 08:00-16:30 in 60-minute steps gives
    nine slots, the last of which (16:00-17:00) ends after 16:30. *)
Lemma slots_partition_window_witness :
  anchor (host := utc) (jan2024 15 0 0) (workStartTime defaultSettings) = jan2024 15 8 0
  /\ anchor (host := utc) (jan2024 15 0 0) (workEndTime defaultSettings) = jan2024 15 16 30
  /\ exists slots : list TimeSlot,
       (forall fuel, (9 <= fuel)%nat ->
          generateTimeSlotsForDay (host := utc) fuel (jan2024 15 0 0) lateEmployee
            defaultSettings [] = Some (Normal slots))
       /\ List.length slots = 9%nat
       /\ (forall k s, nth_error slots k = Some s ->
             slot_start s = Some (1705305600000 + Z.of_nat k * 3600000)
             /\ slot_end s = Some (1705305600000 + Z.of_nat k * 3600000 + 3600000)
             /\ 1705305600000 + Z.of_nat k * 3600000 < 1705336200000).
Proof.
  split; [reflexivity|]. split; [reflexivity|].
  destruct (slots_partition_window (host := utc) (jan2024 15 0 0) lateEmployee
              defaultSettings [] 1705305600000 1705336200000 eq_refl eq_refl)
    as (_ & Hgen & _).
  destruct (Hgen 0 (fun _ _ => eq_refl) eq_refl eq_refl) as [Hin _].
  destruct (Hin ltac:(vm_compute; discriminate)) as (slots & Hrun & Hlen & _ & Hnth & _).
  exists slots. split; [exact Hrun|]. split; [exact Hlen|exact Hnth].
Defined.

(** C3 as stated fails: the window 08:00-16:30 is not empty and the
    duration is positive, yet with a duration of 10^13 minutes the end of
    the first slot is beyond the last time value, [toISOString] throws and
    no slot is returned; the handler answers with status 500. *)
Lemma huge_duration_gives_no_slots :
  anchor (host := utc) (jan2024 15 0 0) (workStartTime (settingsWithDuration (10 ^ 13)))
  = jan2024 15 8 0
  /\ anchor (host := utc) (jan2024 15 0 0) (workEndTime (settingsWithDuration (10 ^ 13)))
     = jan2024 15 16 30
  /\ 0 < slotDuration (settingsWithDuration (10 ^ 13))
  /\ (forall fuel, (1 <= fuel)%nat ->
        generateTimeSlotsForDay (host := utc) fuel (jan2024 15 0 0) lateEmployee
          (settingsWithDuration (10 ^ 13)) [] = Some RangeError)
  /\ getTimeSlots (host := utc) 1 (storeWithDuration (10 ^ 13))
       {| q_employeeId := None;
          q_startDate := Some (jan2024 15 0 0);
          q_endDate := Some (jan2024 15 0 0) |}
     = Some (AppError "Failed to retrieve time slots" 500).
Proof.
  split; [reflexivity|]. split; [reflexivity|]. split; [reflexivity|].
  split; [|reflexivity].
  intros fuel Hfuel. unfold generateTimeSlotsForDay.
  eapply slotLoop_fuel_mono; [|exact Hfuel]. reflexivity.
Qed.

(** C1 as stated fails: the employee's own work hours start at 09:00, yet
    the first slot generated for that employee starts at 08:00, the global
    [workStartTime]; the generator differs from the one the specification
    describes. *)
Lemma window_ignores_employee_hours :
  anchor (host := utc) (jan2024 15 0 0) (wh_start (workHours lateEmployee)) = jan2024 15 9 0
  /\ (exists first rest,
        generateTimeSlotsForDay (host := utc) 9 (jan2024 15 0 0) lateEmployee
          defaultSettings [] = Some (Normal (first :: rest))
        /\ slot_start first = jan2024 15 8 0)
  /\ generateTimeSlotsForDay (host := utc) 9 (jan2024 15 0 0) lateEmployee defaultSettings []
     <> generateTimeSlotsForDay_spec (host := utc) 9 (jan2024 15 0 0) lateEmployee
          defaultSettings [].
Proof.
  split; [reflexivity|]. split.
  - vm_compute. eexists. eexists. split; reflexivity.
  - vm_compute. discriminate.
Qed.

(** C1, amended: the day's window is anchored from the global
    [settings.workStartTime] and [settings.workEndTime].  With [h], [m]
    and [eh], [em] the numbers that the first two parts of the two texts
    denote, [ws] is the instant at which the local time reads [h] hours
    and [m] minutes, and no seconds or milliseconds, on the local day of
    the date, and [we] the same for [eh] and [em].  Whatever list the
    generator returns is empty exactly when [ws < we] fails; otherwise its
    first slot starts at [ws], every slot starts before [we] and ends
    where the local time reads [slotDuration] minutes more than at its
    start, and the last slot reaches [we].  Of the employee record the id
    alone is read, the work hours are not; of the settings, [adminEmail]
    is the one field that is not read.  On a host with a constant offset,
    when the window is not empty, the duration is positive and the end of
    the window plus one duration is a time value, the generator does
    return a list, and that list is not empty. *)
Theorem window_from_global_settings {host : HostTimeZone} (t : Z)
    (employee : Employee) (settings : CalendarSettings)
    (assignments : list WorkAssignment)
    (hour minute endHour endMinute : JSNumber) (h m eh em : Z) :
  parseHours (workStartTime settings) = (hour, minute) ->
  Date.integerPart hour = Some h -> Date.integerPart minute = Some m ->
  parseHours (workEndTime settings) = (endHour, endMinute) ->
  Date.integerPart endHour = Some eh -> Date.integerPart endMinute = Some em ->
  let midnight := Date.Day (Date.LocalTime t) * Date.msPerDay in
  let ws := Date.TimeClip (Date.UTC (midnight + Date.MakeTime h m 0 0)) in
  let we := Date.TimeClip (Date.UTC (midnight + Date.MakeTime eh em 0 0)) in
  let d := slotDuration settings in
  (forall fuel slots,
      generateTimeSlotsForDay fuel (Some t) employee settings assignments
      = Some (Normal slots) ->
      (slots = [] <-> ~ date_lt ws we)
      /\ (forall first rest, slots = first :: rest -> slot_start first = ws)
      /\ (forall s, In s slots ->
            date_lt (slot_start s) we /\ slot_end s = plusMinutes (slot_start s) d)
      /\ (forall front s, slots = front ++ [s] -> date_le we (slot_end s)))
  /\ (forall fuel other,
        emp_id other = emp_id employee ->
        generateTimeSlotsForDay fuel (Some t) other settings assignments
        = generateTimeSlotsForDay fuel (Some t) employee settings assignments)
  /\ (forall fuel email,
        generateTimeSlotsForDay fuel (Some t) employee
          {| workStartTime := workStartTime settings;
             workEndTime := workEndTime settings;
             slotDuration := slotDuration settings;
             adminEmail := email |} assignments
        = generateTimeSlotsForDay fuel (Some t) employee settings assignments)
  /\ (forall offset start end_,
        fixedOffset host offset ->
        ws = Some start -> we = Some end_ ->
        start < end_ -> 0 < d -> end_ + d * Date.msPerMinute <= Date.maxTime ->
        Date.LocalTime start = midnight + Date.MakeTime h m 0 0
        /\ Date.LocalTime end_ = midnight + Date.MakeTime eh em 0 0
        /\ exists slots,
             slots <> []
             /\ forall fuel, (windowRuns settings <= fuel)%nat ->
                  generateTimeSlotsForDay fuel (Some t) employee settings assignments
                  = Some (Normal slots)).
Proof.
  intros Hs Hsh Hsm He Heh Hem midnight ws we d.
  pose proof (anchor_value t h m _ _ _ Hs Hsh Hsm) as Hws.
  pose proof (anchor_value t eh em _ _ _ He Heh Hem) as Hwe.
  fold midnight in Hws, Hwe. fold ws in Hws. fold we in Hwe.
  split; [|split; [|split]].
  - intros fuel slots Hrun.
    destruct (generate_shape _ _ _ _ _ _ Hrun) as (Hnil & Hfirst & _ & Hin & Hlast).
    rewrite Hws, Hwe in *. auto.
  - intros fuel other Hid. now apply generateTimeSlotsForDay_employee_id.
  - reflexivity.
  - intros offset start end_ Hfixed Hstart Hend Hlt Hd Hrange.
    rewrite Hstart in Hws. rewrite Hend in Hwe.
    unfold ws in Hstart. unfold we in Hend.
    apply TimeClip_Some in Hstart, Hend.
    destruct Hstart as [Hstart Hin], Hend as [Hend _].
    assert (Hl : forall x, Date.LocalTime (Date.UTC x) = x).
    { intros x. unfold Date.LocalTime, Date.UTC. rewrite !Hfixed. lia. }
    split; [now rewrite Hstart, Hl|]. split; [now rewrite Hend, Hl|].
    rewrite (windowRuns_anchored offset Hfixed t settings start end_ Hws Hwe). fold d.
    destruct (slotCount_bounds d start end_ Hd Hlt) as (Hpos & Hcover & _).
    destruct (slotLoop_returns offset Hfixed employee d
                (dayAssignmentsOf (Some t) employee assignments) end_
                (slotCount d start end_) Hd start) as (slots & Hrun & Hlen);
      [lia|nia|apply le_n|].
    exists slots. split.
    + intros ->. cbn in Hlen. lia.
    + intros fuel Hfuel. unfold generateTimeSlotsForDay. rewrite Hws, Hwe. fold d.
      eapply slotLoop_fuel_mono; eassumption.
Qed.

(** The amended C1 for the employee of the counterexample, whose own
    hours are 09:00-17:30, on a host at UTC+2: a list of slots is
    returned, the first starts at 08:00 local time, every slot starts
    before 16:30 local time, and the last one ends at or after it. *)
Lemma window_from_global_settings_witness :
  exists slots : list TimeSlot,
    (forall fuel, (9 <= fuel)%nat ->
       generateTimeSlotsForDay (host := eet) fuel (jan2024 15 0 0) lateEmployee
         defaultSettings [] = Some (Normal slots))
    /\ (forall first rest, slots = first :: rest -> slot_start first = jan2024 15 6 0)
    /\ (forall s, In s slots -> date_lt (slot_start s) (jan2024 15 14 30))
    /\ (forall front s, slots = front ++ [s] -> date_le (jan2024 15 14 30) (slot_end s)).
Proof.
  assert (Hp1 : parseHours "08:00" = (Number "08", Number "00")) by reflexivity.
  assert (Hp2 : parseHours "16:30" = (Number "16", Number "30")) by reflexivity.
  assert (H8 : Date.integerPart (Number "08") = Some 8) by (vm_compute; reflexivity).
  assert (H0 : Date.integerPart (Number "00") = Some 0) by (vm_compute; reflexivity).
  assert (H16 : Date.integerPart (Number "16") = Some 16) by (vm_compute; reflexivity).
  assert (H30 : Date.integerPart (Number "30") = Some 30) by (vm_compute; reflexivity).
  destruct (window_from_global_settings (host := eet) 1705276800000 lateEmployee
              defaultSettings [] (Number "08") (Number "00") (Number "16") (Number "30")
              8 0 16 30 Hp1 H8 H0 Hp2 H16 H30) as (Hany & _ & _ & Hreturns).
  destruct (Hreturns 7200000 1705298400000 1705329000000 (fun _ _ => eq_refl)
              eq_refl eq_refl eq_refl eq_refl ltac:(vm_compute; discriminate))
    as (_ & _ & slots & _ & Hrun).
  exists slots. split; [exact Hrun|].
  destruct (Hany 9%nat slots (Hrun 9%nat (le_n _))) as (_ & Hfirst & Hin & Hlast).
  split; [exact Hfirst|]. split; [|exact Hlast].
  intros s Hs. exact (proj1 (Hin s Hs)).
Defined.

(** ** The overlap rule *)

Lemma geb_le (a b : JSDate) : Date.geb a b = true <-> date_le b a.
Proof. destruct a, b; simpl; try (split; [discriminate|tauto]). apply Z.leb_le. Qed.

Lemma leb_le (a b : JSDate) : Date.leb a b = true <-> date_le a b.
Proof. destruct a, b; simpl; try (split; [discriminate|tauto]). apply Z.leb_le. Qed.

Lemma ltb_lt (a b : JSDate) : Date.ltb a b = true <-> date_lt a b.
Proof. destruct a, b; simpl; try (split; [discriminate|tauto]). apply Z.ltb_lt. Qed.

Lemma gtb_lt (a b : JSDate) : Date.gtb a b = true <-> date_lt b a.
Proof. destruct a, b; simpl; try (split; [discriminate|tauto]). apply Z.ltb_lt. Qed.

Lemma Status_eqb_eq (a b : Status) : Status_eqb a b = true <-> a = b.
Proof. destruct a, b; simpl; split; congruence. Qed.

Lemma slotOverlaps_threeClause (s e : JSDate) (a : WorkAssignment) :
  slotOverlaps s e a = true <-> threeClause s e a.
Proof.
  unfold slotOverlaps, threeClause, startInside, endInside, containsExisting.
  rewrite !orb_true_iff, !andb_true_iff, !geb_le, !leb_le, !ltb_lt, !gtb_lt. tauto.
Qed.

Lemma coversStart_startInside (c : JSDate) (a : WorkAssignment) :
  coversStart c a = true <-> startInside c a.
Proof.
  unfold coversStart, startInside. now rewrite andb_true_iff, geb_le, ltb_lt.
Qed.

Lemma hasConflict_iff (eid : string) (s e : JSDate) (l : list WorkAssignment) :
  hasConflict eid s e l = true
  <-> exists a, In a l /\ employeeId a = eid /\ status a = scheduled /\ threeClause s e a.
Proof.
  unfold hasConflict. rewrite existsb_exists.
  split; intros (a & Hin & H); exists a; (split; [exact Hin|]).
  - rewrite !andb_true_iff, String.eqb_eq, Status_eqb_eq in H.
    destruct H as [[H1 H2] H3]. repeat split; try assumption.
    now apply slotOverlaps_threeClause.
  - destruct H as (H1 & H2 & H3).
    rewrite !andb_true_iff, String.eqb_eq, Status_eqb_eq. repeat split; try assumption.
    now apply slotOverlaps_threeClause.
Qed.

Lemma threeClause_valid (s e as_ ae : Z) (a : WorkAssignment) :
  startTime a = Some as_ -> endTime a = Some ae ->
  threeClause (Some s) (Some e) a <-> threeClauseZ s e as_ ae.
Proof.
  intros Hs He.
  unfold threeClause, startInside, endInside, containsExisting, threeClauseZ.
  rewrite Hs, He. simpl. tauto.
Qed.

Lemma threeClauseZ_single (s e as_ ae : Z) :
  s < e -> as_ < ae -> threeClauseZ s e as_ ae <-> singleInequality s e as_ ae.
Proof. unfold threeClauseZ, singleInequality. lia. Qed.

(** C2: the conflict check of [createAssignment] reports a conflict exactly
    when some existing assignment of the same employee with status
    [scheduled] meets the proposed interval under the three-clause rule.
    An interval that only touches an existing one at a boundary is not a
    conflict; intervals that share an instant of time are, be it a partial
    overlap or a containment.  The three cases of the specification follow. *)
Theorem creation_conflict_check :
  (forall (eid : string) (s e : JSDate) (l : list WorkAssignment),
      hasConflict eid s e l = true
      <-> exists a, In a l /\ employeeId a = eid /\ status a = scheduled
                    /\ (startInside s a \/ endInside e a \/ containsExisting s e a))
  /\ (forall (a : WorkAssignment) (s e as_ ae : Z),
        startTime a = Some as_ -> endTime a = Some ae -> as_ < ae -> s < e ->
        (s = ae \/ e = as_) ->
        hasConflict (employeeId a) (Some s) (Some e) [a] = false)
  /\ (forall (a : WorkAssignment) (s e as_ ae : Z),
        status a = scheduled ->
        startTime a = Some as_ -> endTime a = Some ae -> as_ < ae -> s < e ->
        s < ae -> as_ < e ->
        hasConflict (employeeId a) (Some s) (Some e) [a] = true)
  /\ hasConflict "emp-1" (jan2024 15 8 30) (jan2024 15 9 30)
       [booking "a1" "emp-1" (jan2024 15 9 0) (jan2024 15 10 0) scheduled] = true
  /\ hasConflict "emp-1" (jan2024 15 9 0) (jan2024 15 11 0)
       [booking "a1" "emp-1" (jan2024 15 9 30) (jan2024 15 10 0) scheduled] = true
  /\ hasConflict "emp-1" (jan2024 15 10 0) (jan2024 15 11 0)
       [booking "a1" "emp-1" (jan2024 15 9 0) (jan2024 15 10 0) scheduled] = false.
Proof.
  split; [exact hasConflict_iff|].
  split.
  { intros a s e as_ ae Hs He Hne Hne' Htouch.
    apply not_true_is_false. intros H.
    apply hasConflict_iff in H. destruct H as (a' & [<-|[]] & _ & _ & H).
    apply (threeClause_valid s e as_ ae a Hs He) in H.
    unfold threeClauseZ in H. lia. }
  split.
  { intros a s e as_ ae Hst Hs He Hne Hne' H1 H2.
    apply hasConflict_iff. exists a. split; [now left|]. repeat split; try assumption.
    apply (threeClause_valid s e as_ ae a Hs He).
    apply threeClauseZ_single; [assumption..|]. split; assumption. }
  repeat split; reflexivity.
Qed.

(** A witness of C2: the adjacent proposal 10:00-11:00 against 09:00-10:00,
    and the overlapping proposal 09:30-10:30. *)
Lemma creation_conflict_check_witness :
  hasConflict "emp-1" (jan2024 15 10 0) (jan2024 15 11 0)
    [booking "a1" "emp-1" (jan2024 15 9 0) (jan2024 15 10 0) scheduled] = false
  /\ hasConflict "emp-1" (jan2024 15 9 30) (jan2024 15 10 30)
       [booking "a1" "emp-1" (jan2024 15 9 0) (jan2024 15 10 0) scheduled] = true.
Proof.
  destruct creation_conflict_check as (_ & Hadjacent & Hoverlap & _).
  split.
  - apply (Hadjacent (booking "a1" "emp-1" (jan2024 15 9 0) (jan2024 15 10 0) scheduled)
             1705312800000 1705316400000 1705309200000 1705312800000);
      try reflexivity. now left.
  - apply (Hoverlap (booking "a1" "emp-1" (jan2024 15 9 0) (jan2024 15 10 0) scheduled)
             1705311000000 1705314600000 1705309200000 1705312800000);
      reflexivity.
Defined.

(** C4: for non-degenerate intervals [s, e) and [as, ae) the three-clause
    test, as written in the slot loop and in [createAssignment], holds
    exactly when [s < ae] and [e > as]. *)
Theorem three_clauses_are_one_inequality (a : WorkAssignment) (s e as_ ae : Z) :
  s < e -> as_ < ae ->
  startTime a = Some as_ -> endTime a = Some ae -> status a = scheduled ->
  (slotOverlaps (Some s) (Some e) a = true <-> s < ae /\ e > as_)
  /\ (hasConflict (employeeId a) (Some s) (Some e) [a] = true <-> s < ae /\ e > as_)
  /\ (((s >= as_ /\ s < ae) \/ (e > as_ /\ e <= ae) \/ (s <= as_ /\ e >= ae))
      <-> s < ae /\ e > as_).
Proof.
  intros Hse Hae Hs He Hst.
  assert (Hrule : threeClause (Some s) (Some e) a <-> s < ae /\ e > as_).
  { rewrite (threeClause_valid s e as_ ae a Hs He), threeClauseZ_single by assumption.
    unfold singleInequality. lia. }
  split; [|split].
  - now rewrite slotOverlaps_threeClause.
  - rewrite hasConflict_iff. rewrite <- Hrule. split.
    + intros (a' & [<-|[]] & _ & _ & H). exact H.
    + intros H. exists a. split; [now left|]. auto.
  - lia.
Qed.

(** C4 at the containment case of the specification: proposed 09:00-11:00
    against 09:30-10:00. *)
Lemma three_clauses_are_one_inequality_witness :
  slotOverlaps (jan2024 15 9 0) (jan2024 15 11 0)
    (booking "a1" "emp-1" (jan2024 15 9 30) (jan2024 15 10 0) scheduled) = true
  <-> 1705309200000 < 1705312800000 /\ 1705316400000 > 1705311000000.
Proof.
  exact (proj1 (three_clauses_are_one_inequality
                  (booking "a1" "emp-1" (jan2024 15 9 30) (jan2024 15 10 0) scheduled)
                  1705309200000 1705316400000 1705311000000 1705312800000
                  eq_refl eq_refl eq_refl eq_refl eq_refl)).
Defined.

(** ** Which assignments the generator looks at *)

Lemma text_eqb_eq (a b : option Z) : Date.text_eqb a b = true <-> a = b.
Proof.
  destruct a as [x|], b as [y|]; simpl; try (split; congruence).
  rewrite Z.eqb_eq. split; congruence.
Qed.

Section DayAssignments.
Context {host : HostTimeZone}.
Variables (date : JSDate) (employee : Employee).

Lemma In_dayAssignmentsOf (l : list WorkAssignment) (a : WorkAssignment) :
  In a (dayAssignmentsOf date employee l)
  <-> In a l /\ employeeId a = emp_id employee
      /\ Date.toDateString (startTime a) = Date.toDateString date
      /\ status a = scheduled.
Proof.
  unfold dayAssignmentsOf. rewrite filter_In, !andb_true_iff.
  rewrite String.eqb_eq, text_eqb_eq, Status_eqb_eq. tauto.
Qed.

Lemma dayAssignmentsOf_keep (l1 l2 : list WorkAssignment) (a : WorkAssignment) :
  sameDayScheduled date employee a ->
  dayAssignmentsOf date employee (l1 ++ a :: l2)
  = dayAssignmentsOf date employee l1 ++ a :: dayAssignmentsOf date employee l2.
Proof.
  intros (Hid & Hday & Hst). unfold dayAssignmentsOf. rewrite filter_app. f_equal.
  cbn [filter].
  now rewrite (proj2 (String.eqb_eq _ _) Hid), (proj2 (text_eqb_eq _ _) Hday),
    (proj2 (Status_eqb_eq _ _) Hst).
Qed.

Lemma dayAssignmentsOf_drop (l1 l2 : list WorkAssignment) (a : WorkAssignment) :
  ~ (employeeId a = emp_id employee
     /\ Date.toDateString (startTime a) = Date.toDateString date
     /\ status a = scheduled) ->
  dayAssignmentsOf date employee (l1 ++ a :: l2) = dayAssignmentsOf date employee (l1 ++ l2).
Proof.
  intros Hout. unfold dayAssignmentsOf. rewrite !filter_app. f_equal.
  cbn [filter].
  match goal with |- (if ?c then _ else _) = _ => destruct c eqn:Hc end; [|reflexivity].
  exfalso. apply Hout.
  rewrite !andb_true_iff, String.eqb_eq, text_eqb_eq, Status_eqb_eq in Hc. tauto.
Qed.

Lemma generate_drop (fuel : nat) (settings : CalendarSettings)
    (l1 l2 : list WorkAssignment) (a : WorkAssignment) :
  ~ (employeeId a = emp_id employee
     /\ Date.toDateString (startTime a) = Date.toDateString date
     /\ status a = scheduled) ->
  generateTimeSlotsForDay fuel date employee settings (l1 ++ a :: l2)
  = generateTimeSlotsForDay fuel date employee settings (l1 ++ l2).
Proof.
  intros Hout. unfold generateTimeSlotsForDay. now rewrite dayAssignmentsOf_drop.
Qed.

(** Every slot of a result is the record made at its own start, and its
    two dates are valid. *)
Lemma generate_In (fuel : nat) (settings : CalendarSettings)
    (assignments : list WorkAssignment) (slots : list TimeSlot) (s : TimeSlot) :
  generateTimeSlotsForDay fuel date employee settings assignments = Some (Normal slots) ->
  In s slots ->
  exists c e : Z,
    s = slotAt employee (slotDuration settings)
          (dayAssignmentsOf date employee assignments) (Some c)
    /\ plusMinutes (Some c) (slotDuration settings) = Some e.
Proof.
  unfold generateTimeSlotsForDay. intros Hrun Hin.
  destruct (slotLoop_In _ _ _ _ _ _ _ Hrun s Hin) as (c & Hmade & _).
  destruct (makeSlot_Normal _ _ _ _ _ Hmade) as (-> & _ & [e He]). eauto.
Qed.

Lemma generate_free (fuel : nat) (settings : CalendarSettings)
    (assignments : list WorkAssignment) (slots : list TimeSlot) (s : TimeSlot) :
  dayAssignmentsOf date employee assignments = [] ->
  generateTimeSlotsForDay fuel date employee settings assignments = Some (Normal slots) ->
  In s slots ->
  available s = true /\ slot_assignmentId s = None.
Proof.
  intros Hday Hrun Hin. destruct (generate_In _ _ _ _ _ Hrun Hin) as (c & e & -> & _).
  rewrite Hday. split; reflexivity.
Qed.

End DayAssignments.

Lemma hasConflict_drop (eid : string) (s e : JSDate) (l1 l2 : list WorkAssignment)
    (a : WorkAssignment) :
  status a <> scheduled ->
  hasConflict eid s e (l1 ++ a :: l2) = hasConflict eid s e (l1 ++ l2).
Proof.
  intros Hst. unfold hasConflict. rewrite !existsb_app. f_equal.
  cbn [existsb].
  destruct (Status_eqb (status a) scheduled) eqn:E.
  - apply Status_eqb_eq in E. contradiction.
  - now rewrite andb_false_r.
Qed.

(** C5: an assignment whose status is [cancelled] or [completed] takes no
    part in either check.  Removing it from the assignment list changes
    neither the generated slots nor the answer of the conflict check; on
    its own it leaves every slot available and blocks no proposal, whatever
    its time window. *)
Theorem inactive_assignments_never_block {host : HostTimeZone}
    (a : WorkAssignment) (l1 l2 : list WorkAssignment) :
  status a = cancelled \/ status a = completed ->
  (forall fuel date employee settings,
      generateTimeSlotsForDay fuel date employee settings (l1 ++ a :: l2)
      = generateTimeSlotsForDay fuel date employee settings (l1 ++ l2))
  /\ (forall eid s e,
        hasConflict eid s e (l1 ++ a :: l2) = hasConflict eid s e (l1 ++ l2))
  /\ (forall fuel date employee settings slots,
        generateTimeSlotsForDay fuel date employee settings [a] = Some (Normal slots) ->
        forall s, In s slots -> available s = true /\ slot_assignmentId s = None)
  /\ (forall eid s e, hasConflict eid s e [a] = false).
Proof.
  intros Hst.
  assert (Hns : status a <> scheduled) by (destruct Hst as [H|H]; rewrite H; discriminate).
  split; [|split; [|split]].
  - intros. apply generate_drop. tauto.
  - intros. now apply hasConflict_drop.
  - intros fuel date employee settings slots Hrun s Hin.
    eapply generate_free; [|exact Hrun|exact Hin].
    apply (dayAssignmentsOf_drop date employee [] [] a). tauto.
  - intros. now apply (hasConflict_drop eid s e [] [] a).
Qed.

(** C5 on a cancelled booking 08:00-09:00, the exact window of the first
    slot: the slots are those of an empty calendar, and the same interval
    can be booked. *)
Lemma inactive_assignments_never_block_witness :
  generateTimeSlotsForDay (host := utc) 9 (jan2024 15 0 0) lateEmployee defaultSettings
    [booking "a1" "emp-1" (jan2024 15 8 0) (jan2024 15 9 0) cancelled]
  = generateTimeSlotsForDay (host := utc) 9 (jan2024 15 0 0) lateEmployee defaultSettings []
  /\ hasConflict "emp-1" (jan2024 15 8 0) (jan2024 15 9 0)
       [booking "a1" "emp-1" (jan2024 15 8 0) (jan2024 15 9 0) cancelled] = false.
Proof.
  destruct (inactive_assignments_never_block (host := utc)
              (booking "a1" "emp-1" (jan2024 15 8 0) (jan2024 15 9 0) cancelled) [] []
              (or_introl eq_refl)) as (Hgen & _ & _ & Hfree).
  split; [apply Hgen | apply Hfree].
Defined.

(** ** The identifier a slot carries *)

Lemma find_first {A : Type} (f : A -> bool) (l1 l2 : list A) (a : A) :
  f a = true -> (forall x, In x l1 -> f x = false) -> find f (l1 ++ a :: l2) = Some a.
Proof.
  intros Ha Hl1. induction l1 as [|x l1 IH]; simpl.
  - now rewrite Ha.
  - rewrite (Hl1 x) by now left. apply IH. intros y Hy. apply Hl1. now right.
Qed.

Lemma find_none {A : Type} (f : A -> bool) (l : list A) :
  (forall x, In x l -> f x = false) -> find f l = None.
Proof.
  intros Hl. induction l as [|x l IH]; simpl; [reflexivity|].
  rewrite (Hl x) by now left. apply IH. intros y Hy. apply Hl. now right.
Qed.

Lemma not_startInside (c : JSDate) (a : WorkAssignment) :
  ~ startInside c a -> coversStart c a = false.
Proof.
  intros H. apply not_true_is_false. intros E. apply H. now apply coversStart_startInside.
Qed.

(** C9: an available slot carries no assignment id.  A slot is unavailable
    exactly when the assignment list holds an assignment of the employee,
    with status [scheduled] and a start on the day of the date, that meets
    the slot under the three-clause rule.  The slot then carries the id of
    the first such assignment of the list whose interval contains the
    slot's start, and no id when there is none: an assignment of another
    employee, with another status or of another day never lends its id.
    The last case occurs: with a booking 08:30-09:30 the 08:00 slot is
    unavailable and carries no id. *)
Theorem slot_assignment_id :
  (forall (host : HostTimeZone) (fuel : nat) (date : JSDate) (employee : Employee)
          (settings : CalendarSettings) (assignments : list WorkAssignment)
          (slots : list TimeSlot),
      @generateTimeSlotsForDay host fuel date employee settings assignments
      = Some (Normal slots) ->
      forall s, In s slots ->
        (available s = true -> slot_assignmentId s = None)
        /\ (available s = false
            <-> exists a, In a assignments
                          /\ @sameDayScheduled host date employee a
                          /\ threeClause (slot_start s) (slot_end s) a)
        /\ (forall l1 a l2,
              assignments = l1 ++ a :: l2 ->
              @sameDayScheduled host date employee a ->
              startInside (slot_start s) a ->
              (forall x, In x l1 -> @sameDayScheduled host date employee x ->
                         ~ startInside (slot_start s) x) ->
              available s = false /\ slot_assignmentId s = Some (id a))
        /\ ((forall a, In a assignments -> @sameDayScheduled host date employee a ->
                       ~ startInside (slot_start s) a) ->
            slot_assignmentId s = None))
  /\ (exists slot rest,
        generateTimeSlotsForDay (host := utc) 9 (jan2024 15 0 0) lateEmployee defaultSettings
          [booking "a1" "emp-1" (jan2024 15 8 30) (jan2024 15 9 30) scheduled]
        = Some (Normal (slot :: rest))
        /\ slot_start slot = jan2024 15 8 0
        /\ available slot = false
        /\ slot_assignmentId slot = None).
Proof.
  split.
  - intros host fuel date employee settings assignments slots Hrun s Hin.
    destruct (generate_In _ _ _ _ _ _ _ Hrun Hin) as (c & e & -> & He).
    cbn [slotAt available slot_assignmentId slot_start slot_end]. rewrite He.
    set (day := dayAssignmentsOf date employee assignments).
    split; [|split; [|split]].
    + rewrite negb_true_iff. now intros ->.
    + rewrite negb_false_iff, existsb_exists.
      split.
      * intros (a & Ha & H). apply In_dayAssignmentsOf in Ha. exists a.
        split; [tauto|]. split; [unfold sameDayScheduled; tauto|].
        now apply slotOverlaps_threeClause.
      * intros (a & Ha & Hday & H). exists a. split.
        -- apply In_dayAssignmentsOf. unfold sameDayScheduled in Hday. tauto.
        -- now apply slotOverlaps_threeClause.
    + intros l1 a l2 Hlist Hday Ha Hl1.
      assert (Hsplit : day = dayAssignmentsOf date employee l1
                             ++ a :: dayAssignmentsOf date employee l2).
      { unfold day. rewrite Hlist. now apply dayAssignmentsOf_keep. }
      assert (Hc : existsb (slotOverlaps (Some c) (Some e)) day = true).
      { apply existsb_exists. exists a. split.
        - rewrite Hsplit. apply in_or_app. right. now left.
        - apply slotOverlaps_threeClause. now left. }
      rewrite Hc. split; [reflexivity|].
      rewrite Hsplit, (find_first _ _ _ a); [reflexivity| |].
      * now apply coversStart_startInside.
      * intros x Hx. apply In_dayAssignmentsOf in Hx. apply not_startInside.
        apply Hl1; [tauto|]. unfold sameDayScheduled. tauto.
    + intros Hnone. rewrite find_none.
      * now destruct (existsb _ day).
      * intros x Hx. apply In_dayAssignmentsOf in Hx. apply not_startInside.
        apply Hnone; [tauto|]. unfold sameDayScheduled. tauto.
  - vm_compute. eexists. eexists. repeat split.
Qed.

(** C9 on a Monday of [emp-1] whose list holds, in this order, a cancelled
    booking 09:00-10:00 of [emp-1], a scheduled booking 09:00-10:00 of
    [emp-2] and a scheduled booking 09:00-10:00 of [emp-1]: the 09:00 slot
    carries the id of the last one. *)
Lemma slot_assignment_id_witness :
  exists slots,
    generateTimeSlotsForDay (host := utc) 9 (jan2024 15 0 0) lateEmployee defaultSettings
      [booking "a1" "emp-1" (jan2024 15 9 0) (jan2024 15 10 0) cancelled;
       booking "a2" "emp-2" (jan2024 15 9 0) (jan2024 15 10 0) scheduled;
       booking "a3" "emp-1" (jan2024 15 9 0) (jan2024 15 10 0) scheduled]
    = Some (Normal slots)
    /\ forall s, In s slots -> slot_start s = jan2024 15 9 0 ->
         available s = false /\ slot_assignmentId s = Some "a3"%string.
Proof.
  assert (Hex : exists slots,
             generateTimeSlotsForDay (host := utc) 9 (jan2024 15 0 0) lateEmployee
               defaultSettings
               [booking "a1" "emp-1" (jan2024 15 9 0) (jan2024 15 10 0) cancelled;
                booking "a2" "emp-2" (jan2024 15 9 0) (jan2024 15 10 0) scheduled;
                booking "a3" "emp-1" (jan2024 15 9 0) (jan2024 15 10 0) scheduled]
             = Some (Normal slots))
    by (vm_compute; eexists; reflexivity).
  destruct Hex as (slots & Hrun). exists slots. split; [exact Hrun|].
  intros s Hin Hstart.
  destruct (proj1 slot_assignment_id utc _ _ _ _ _ _ Hrun s Hin) as (_ & _ & Hfirst & _).
  apply (Hfirst [booking "a1" "emp-1" (jan2024 15 9 0) (jan2024 15 10 0) cancelled;
                 booking "a2" "emp-2" (jan2024 15 9 0) (jan2024 15 10 0) scheduled]
           (booking "a3" "emp-1" (jan2024 15 9 0) (jan2024 15 10 0) scheduled) []).
  - reflexivity.
  - repeat split.
  - rewrite Hstart. unfold startInside. simpl. lia.
  - intros x [<-|[<-|[]]] (Hid & _ & Hst); discriminate.
Defined.

(** C10: an assignment takes part in a day's occupancy check only if the
    calendar date of its start, as [toDateString] prints it, is that of the
    queried day.  An assignment that starts on another day, one that runs
    past midnight into the queried day included, can be removed from the
    list without changing the slots, and on its own leaves every slot
    available. *)
Theorem other_day_assignments_ignored {host : HostTimeZone} (date : JSDate)
    (a : WorkAssignment) (l1 l2 : list WorkAssignment) :
  Date.toDateString (startTime a) <> Date.toDateString date ->
  (forall employee l x,
      In x (dayAssignmentsOf date employee l) ->
      Date.toDateString (startTime x) = Date.toDateString date)
  /\ (forall employee l, ~ In a (dayAssignmentsOf date employee l))
  /\ (forall fuel employee settings,
        generateTimeSlotsForDay fuel date employee settings (l1 ++ a :: l2)
        = generateTimeSlotsForDay fuel date employee settings (l1 ++ l2))
  /\ (forall fuel employee settings slots,
        generateTimeSlotsForDay fuel date employee settings [a] = Some (Normal slots) ->
        forall s, In s slots -> available s = true /\ slot_assignmentId s = None).
Proof.
  intros Hother. split; [|split; [|split]].
  - intros employee l x Hx. now apply In_dayAssignmentsOf in Hx.
  - intros employee l Hin. apply In_dayAssignmentsOf in Hin. tauto.
  - intros. apply generate_drop. tauto.
  - intros fuel employee settings slots Hrun s Hin.
    eapply generate_free; [|exact Hrun|exact Hin].
    apply (dayAssignmentsOf_drop date employee [] [] a). tauto.
Qed.

(** C10 on a booking from Monday 23:00 to Tuesday 09:30: the slots of
    Tuesday are those of an empty calendar, the 08:00 and 09:00 slots
    included. *)
Lemma other_day_assignments_ignored_witness :
  generateTimeSlotsForDay (host := utc) 9 (jan2024 16 0 0) lateEmployee defaultSettings
    [booking "a1" "emp-1" (jan2024 15 23 0) (jan2024 16 9 30) scheduled]
  = generateTimeSlotsForDay (host := utc) 9 (jan2024 16 0 0) lateEmployee defaultSettings [].
Proof.
  refine (proj1 (proj2 (proj2
            (other_day_assignments_ignored (host := utc) (jan2024 16 0 0)
               (booking "a1" "emp-1" (jan2024 15 23 0) (jan2024 16 9 30) scheduled) [] [] _)))
            9%nat lateEmployee defaultSettings).
  vm_compute. discriminate.
Defined.

(** ** The day loop *)

Section DayLoopFacts.
Context {host : HostTimeZone}.
Variables (slotFuel : nat) (employeeId_ : option string) (staff : list Employee)
  (settings_ : CalendarSettings) (assignments : list WorkAssignment).

Lemma forEmployees_step (date : JSDate) (e : Employee) (others : list Employee) :
  forEmployees slotFuel date settings_ assignments (e :: others)
  = match generateTimeSlotsForDay slotFuel date e settings_ assignments with
    | Some (Normal slots) =>
        match forEmployees slotFuel date settings_ assignments others with
        | Some (Normal rest) => Some (Normal (slots ++ rest))
        | Some RangeError => Some RangeError
        | None => None
        end
    | Some RangeError => Some RangeError
    | None => None
    end.
Proof.
  cbn [forEmployees]. unfold bind, ret.
  destruct (generateTimeSlotsForDay slotFuel date e settings_ assignments) as [[slots|]|];
    reflexivity.
Qed.

Lemma dayLoop_O (end_ cur : JSDate) :
  dayLoop O slotFuel employeeId_ staff settings_ assignments end_ cur
  = if Date.leb cur end_ then None else Some (Normal []).
Proof. reflexivity. Qed.

Lemma dayLoop_step (fuel : nat) (end_ cur : JSDate) :
  dayLoop (S fuel) slotFuel employeeId_ staff settings_ assignments end_ cur
  = if Date.leb cur end_ then
      match
        (if negb (num_eqb (Date.getDay cur) 0) && negb (num_eqb (Date.getDay cur) 6)
         then forEmployees slotFuel cur settings_ assignments
                (targetEmployeesOf employeeId_ staff)
         else Some (Normal []))
      with
      | Some (Normal today) =>
          match dayLoop fuel slotFuel employeeId_ staff settings_ assignments end_
                  (nextDay cur) with
          | Some (Normal later) => Some (Normal (today ++ later))
          | Some RangeError => Some RangeError
          | None => None
          end
      | Some RangeError => Some RangeError
      | None => None
      end
    else Some (Normal []).
Proof.
  cbn [dayLoop]. unfold bind, ret, nextDay.
  destruct (Date.leb cur end_); [|reflexivity].
  destruct (negb (num_eqb (Date.getDay cur) 0) && negb (num_eqb (Date.getDay cur) 6)).
  - destruct (forEmployees slotFuel cur settings_ assignments
                (targetEmployeesOf employeeId_ staff)) as [[today|]|]; reflexivity.
  - reflexivity.
Qed.

Lemma dayLoop_empty (fuel : nat) (end_ cur : JSDate) :
  Date.leb cur end_ = false ->
  dayLoop fuel slotFuel employeeId_ staff settings_ assignments end_ cur = Some (Normal []).
Proof.
  intros H. destruct fuel; [rewrite dayLoop_O | rewrite dayLoop_step]; now rewrite H.
Qed.

(** The slots of a day are the slots of each employee, one after the
    other. *)
Lemma forEmployees_In (date : JSDate) (l : list Employee) :
  forall (slots : list TimeSlot),
    forEmployees slotFuel date settings_ assignments l = Some (Normal slots) ->
    (forall slot, In slot slots ->
       exists employee daySlots,
         In employee l
         /\ generateTimeSlotsForDay slotFuel date employee settings_ assignments
            = Some (Normal daySlots)
         /\ In slot daySlots)
    /\ (forall employee, In employee l ->
          exists daySlots,
            generateTimeSlotsForDay slotFuel date employee settings_ assignments
            = Some (Normal daySlots)
            /\ incl daySlots slots).
Proof.
  induction l as [|e l IH]; intros slots Hrun.
  - cbn in Hrun. injection Hrun as <-. split; [intros slot []|intros employee []].
  - rewrite forEmployees_step in Hrun.
    destruct (generateTimeSlotsForDay slotFuel date e settings_ assignments)
      as [[mine|]|] eqn:Hmine; try discriminate.
    destruct (forEmployees slotFuel date settings_ assignments l) as [[others|]|];
      try discriminate.
    injection Hrun as <-. destruct (IH _ eq_refl) as [IH1 IH2]. split.
    + intros slot Hin. apply in_app_or in Hin. destruct Hin as [Hin|Hin].
      * exists e, mine. split; [now left|]. auto.
      * destruct (IH1 _ Hin) as (e' & daySlots & He' & Hgen & Hs).
        exists e', daySlots. split; [now right|]. auto.
    + intros employee [<-|Hin].
      * exists mine. split; [exact Hmine|]. now apply incl_appl.
      * destruct (IH2 _ Hin) as (daySlots & Hgen & Hincl).
        exists daySlots. split; [exact Hgen|]. now apply incl_appr.
Qed.

Lemma working_day (cur : JSDate) :
  negb (num_eqb (Date.getDay cur) 0) && negb (num_eqb (Date.getDay cur) 6) = true
  <-> Date.getDay cur <> Some 0 /\ Date.getDay cur <> Some 6.
Proof.
  rewrite andb_true_iff, !negb_true_iff. unfold num_eqb.
  destruct (Date.getDay cur) as [n|].
  - rewrite !Z.eqb_neq. split; intros [H0 H6]; split; congruence.
  - split; [split; discriminate|auto].
Qed.

Lemma weekend_day (cur : JSDate) :
  Date.getDay cur = Some 0 \/ Date.getDay cur = Some 6 ->
  negb (num_eqb (Date.getDay cur) 0) && negb (num_eqb (Date.getDay cur) 6) = false.
Proof. intros [->| ->]; reflexivity. Qed.

(** The slots of a result are those of the days the loop went through
    that are neither a Sunday nor a Saturday, for each target employee. *)
Lemma dayLoop_In (end_ : JSDate) (fuel : nat) :
  forall (cur : JSDate) (slots : list TimeSlot),
    dayLoop fuel slotFuel employeeId_ staff settings_ assignments end_ cur
    = Some (Normal slots) ->
    (forall slot, In slot slots ->
       exists (k : nat) employee daySlots,
         (forall j, (j <= k)%nat -> Date.leb (Nat.iter j nextDay cur) end_ = true)
         /\ Date.getDay (Nat.iter k nextDay cur) <> Some 0
         /\ Date.getDay (Nat.iter k nextDay cur) <> Some 6
         /\ In employee (targetEmployeesOf employeeId_ staff)
         /\ generateTimeSlotsForDay slotFuel (Nat.iter k nextDay cur) employee
              settings_ assignments = Some (Normal daySlots)
         /\ In slot daySlots)
    /\ (forall (k : nat) employee,
          (forall j, (j <= k)%nat -> Date.leb (Nat.iter j nextDay cur) end_ = true) ->
          Date.getDay (Nat.iter k nextDay cur) <> Some 0 ->
          Date.getDay (Nat.iter k nextDay cur) <> Some 6 ->
          In employee (targetEmployeesOf employeeId_ staff) ->
          exists daySlots,
            generateTimeSlotsForDay slotFuel (Nat.iter k nextDay cur) employee
              settings_ assignments = Some (Normal daySlots)
            /\ incl daySlots slots).
Proof.
  induction fuel as [|fuel IH]; intros cur slots Hrun.
  - rewrite dayLoop_O in Hrun. destruct (Date.leb cur end_) eqn:Hle; [discriminate|].
    injection Hrun as <-. split; [intros slot []|].
    intros k employee Hvisited. specialize (Hvisited O (Nat.le_0_l _)).
    cbn in Hvisited. congruence.
  - rewrite dayLoop_step in Hrun. destruct (Date.leb cur end_) eqn:Hle.
    2:{ injection Hrun as <-. split; [intros slot []|].
        intros k employee Hvisited. specialize (Hvisited O (Nat.le_0_l _)).
        cbn in Hvisited. congruence. }
    match type of Hrun with
    | match ?today with _ => _ end = _ => destruct today as [[mine|]|] eqn:Htoday
    end; try discriminate.
    destruct (dayLoop fuel slotFuel employeeId_ staff settings_ assignments end_
                (nextDay cur)) as [[later|]|] eqn:Hlater; try discriminate.
    injection Hrun as <-. destruct (IH _ _ Hlater) as [IH1 IH2].
    assert (Hshift : forall j, Nat.iter (S j) nextDay cur = Nat.iter j nextDay (nextDay cur))
      by (intros j; apply Nat.iter_succ_r).
    split.
    + intros slot Hin. apply in_app_or in Hin. destruct Hin as [Hin|Hin].
      * destruct (negb (num_eqb (Date.getDay cur) 0)
                  && negb (num_eqb (Date.getDay cur) 6)) eqn:Hweek.
        -- destruct (proj1 (forEmployees_In _ _ _ Htoday) _ Hin)
             as (e & daySlots & He & Hgen & Hs).
           apply working_day in Hweek. destruct Hweek as [H0 H6].
           exists O, e, daySlots. cbn [Nat.iter nat_rect].
           split; [|auto 6]. intros j Hj. replace j with O by lia. exact Hle.
        -- injection Htoday as <-. destruct Hin.
      * destruct (IH1 _ Hin) as (k & e & daySlots & Hvisited & H).
        exists (S k), e, daySlots. rewrite Hshift. split; [|exact H].
        intros [|j] Hj; [exact Hle|]. rewrite Hshift. apply Hvisited. lia.
    + intros [|k] employee Hvisited H0 H6 He.
      * cbn [Nat.iter nat_rect] in *.
        rewrite (proj2 (working_day cur) (conj H0 H6)) in Htoday.
        destruct (proj2 (forEmployees_In _ _ _ Htoday) _ He) as (daySlots & Hgen & Hincl).
        exists daySlots. split; [exact Hgen|]. now apply incl_appl.
      * rewrite Hshift in *.
        destruct (IH2 k employee) as (daySlots & Hgen & Hincl); try assumption.
        { intros j Hj. rewrite <- Hshift. apply Hvisited. lia. }
        exists daySlots. split; [exact Hgen|]. now apply incl_appr.
Qed.

(** A range whose days are all Saturdays and Sundays gives no slot: the
    generator is never called. *)
Lemma dayLoop_weekend (end_ : JSDate) (n : nat) :
  forall (cur : JSDate) (fuel : nat),
    (forall k, (k < n)%nat ->
       Date.leb (Nat.iter k nextDay cur) end_ = true ->
       Date.getDay (Nat.iter k nextDay cur) = Some 0
       \/ Date.getDay (Nat.iter k nextDay cur) = Some 6) ->
    Date.leb (Nat.iter n nextDay cur) end_ = false ->
    (n <= fuel)%nat ->
    dayLoop fuel slotFuel employeeId_ staff settings_ assignments end_ cur
    = Some (Normal []).
Proof.
  induction n as [|n IH]; intros cur fuel Hweek Hend Hfuel.
  - now apply dayLoop_empty.
  - destruct fuel as [|fuel]; [lia|].
    rewrite dayLoop_step. destruct (Date.leb cur end_) eqn:Hle; [|reflexivity].
    rewrite (weekend_day cur (Hweek O ltac:(lia) Hle)).
    rewrite (IH (nextDay cur) fuel); [reflexivity| | |lia].
    + intros k Hk. rewrite <- Nat.iter_succ_r. apply Hweek. lia.
    + now rewrite <- Nat.iter_succ_r.
Qed.

(** More fuel does not change a result. *)
Lemma generate_fuel_mono (fuel fuel' : nat) (date : JSDate) (employee : Employee)
    (r : Completion (list TimeSlot)) :
  generateTimeSlotsForDay fuel date employee settings_ assignments = Some r ->
  (fuel <= fuel')%nat ->
  generateTimeSlotsForDay fuel' date employee settings_ assignments = Some r.
Proof. unfold generateTimeSlotsForDay. apply slotLoop_fuel_mono. Qed.

End DayLoopFacts.

Section DayLoopFuel.
Context {host : HostTimeZone}.
Variables (settings_ : CalendarSettings) (assignments : list WorkAssignment).

Lemma forEmployees_fuel_mono (fuel fuel' : nat) (date : JSDate) (l : list Employee) :
  (fuel <= fuel')%nat ->
  forall r,
    forEmployees fuel date settings_ assignments l = Some r ->
    forEmployees fuel' date settings_ assignments l = Some r.
Proof.
  intros Hle. induction l as [|e l IH]; intros r Hrun; [assumption|].
  rewrite forEmployees_step in *.
  destruct (generateTimeSlotsForDay fuel date e settings_ assignments) as [mine|] eqn:Hmine;
    [|discriminate].
  rewrite (generate_fuel_mono _ _ _ _ _ _ _ Hmine Hle).
  destruct mine as [mine|]; [|assumption].
  destruct (forEmployees fuel date settings_ assignments l) as [others|]; [|discriminate].
  now rewrite (IH _ eq_refl).
Qed.

Lemma dayLoop_fuel_mono (employeeId_ : option string) (staff : list Employee)
    (end_ : JSDate) (fuel slotFuel fuel' slotFuel' : nat) :
  (fuel <= fuel')%nat -> (slotFuel <= slotFuel')%nat ->
  forall (cur : JSDate) (r : Completion (list TimeSlot)),
    dayLoop fuel slotFuel employeeId_ staff settings_ assignments end_ cur = Some r ->
    dayLoop fuel' slotFuel' employeeId_ staff settings_ assignments end_ cur = Some r.
Proof.
  intros Hle Hsle. revert fuel' Hle.
  induction fuel as [|fuel IH]; intros fuel' Hle cur r Hrun.
  - rewrite dayLoop_O in Hrun. destruct (Date.leb cur end_) eqn:Hc; [discriminate|].
    now rewrite dayLoop_empty.
  - destruct fuel' as [|fuel']; [lia|].
    rewrite dayLoop_step in *. destruct (Date.leb cur end_); [|assumption].
    destruct (negb (num_eqb (Date.getDay cur) 0) && negb (num_eqb (Date.getDay cur) 6)).
    + destruct (forEmployees slotFuel cur settings_ assignments
                  (targetEmployeesOf employeeId_ staff)) as [mine|] eqn:Hmine;
        [|discriminate].
      rewrite (forEmployees_fuel_mono _ _ _ _ Hsle _ Hmine).
      destruct mine as [mine|]; [|assumption].
      destruct (dayLoop fuel slotFuel employeeId_ staff settings_ assignments end_
                  (nextDay cur)) as [later|] eqn:Hlater; [|discriminate].
      now rewrite (IH fuel' ltac:(lia) _ _ Hlater).
    + destruct (dayLoop fuel slotFuel employeeId_ staff settings_ assignments end_
                  (nextDay cur)) as [later|] eqn:Hlater; [|discriminate].
      now rewrite (IH fuel' ltac:(lia) _ _ Hlater).
Qed.

End DayLoopFuel.

(** ** The day loop on a host with a constant offset *)

Section DayLoopFixed.
Context {host : HostTimeZone}.
Variable offset : Z.
Hypothesis Hfixed : fixedOffset host offset.
Variables (slotFuel : nat) (employeeId_ : option string) (staff : list Employee)
  (settings_ : CalendarSettings) (assignments : list WorkAssignment).

Lemma forEmployees_total (date : JSDate) (l : list Employee) :
  0 < slotDuration settings_ ->
  (windowRuns settings_ <= slotFuel)%nat ->
  exists r, forEmployees slotFuel date settings_ assignments l = Some r.
Proof.
  intros Hd Hfuel. induction l as [|e l [others IH]]; [now exists (Normal [])|].
  rewrite forEmployees_step.
  destruct (generateTimeSlotsForDay_total offset Hfixed date e settings_ assignments Hd)
    as [mine Hmine].
  rewrite (Hmine _ Hfuel), IH. destruct mine, others; eauto.
Qed.

Lemma dayCount_more (cur end_ : Z) :
  cur <= end_ -> dayCount cur end_ = S (dayCount (cur + Date.msPerDay) end_).
Proof.
  intros Hle. unfold dayCount.
  replace (end_ - cur) with (end_ - (cur + Date.msPerDay) + 1 * Date.msPerDay) by lia.
  rewrite Z.div_add by discriminate.
  assert (0 <= (end_ - (cur + Date.msPerDay)) / Date.msPerDay + 1).
  { replace (end_ - (cur + Date.msPerDay)) with (end_ - cur + (-1) * Date.msPerDay) by lia.
    rewrite Z.div_add by discriminate.
    assert (0 <= (end_ - cur) / Date.msPerDay) by (apply Z.div_pos; [lia|reflexivity]).
    lia. }
  rewrite <- Z2Nat.inj_succ by lia. f_equal; lia.
Qed.

(** The loop goes on from the next day, or stops when there is none. *)
Lemma dayLoop_next (fuel : nat) (end_ cur : Z) :
  (dayCount (cur + Date.msPerDay) end_ <= fuel)%nat ->
  (forall next : Z,
     (dayCount next end_ <= fuel)%nat ->
     exists r,
       dayLoop fuel slotFuel employeeId_ staff settings_ assignments (Some end_) (Some next)
       = Some r) ->
  exists r,
    dayLoop fuel slotFuel employeeId_ staff settings_ assignments (Some end_)
      (nextDay (Some cur)) = Some r.
Proof.
  intros Hfuel IH. rewrite (nextDay_fixed offset Hfixed).
  destruct (Date.TimeClip (cur + Date.msPerDay)) as [next|] eqn:Hclip.
  - apply TimeClip_Some in Hclip. destruct Hclip as [-> _]. now apply IH.
  - exists (Normal []). now apply dayLoop_empty.
Qed.

Lemma dayLoop_total (fuel : nat) (end_ : Z) :
  0 < slotDuration settings_ ->
  (windowRuns settings_ <= slotFuel)%nat ->
  forall cur : Z,
    (dayCount cur end_ <= fuel)%nat ->
    exists r,
      dayLoop fuel slotFuel employeeId_ staff settings_ assignments (Some end_) (Some cur)
      = Some r.
Proof.
  intros Hd Hslot. induction fuel as [|fuel IH]; intros cur Hfuel.
  - destruct (Z_lt_le_dec end_ cur) as [Hlt|Hle].
    + exists (Normal []). apply dayLoop_empty. simpl. now apply Z.leb_gt.
    + rewrite dayCount_more in Hfuel by assumption. lia.
  - rewrite dayLoop_step. simpl Date.leb.
    destruct (cur <=? end_) eqn:Hle; [|now exists (Normal [])].
    apply Z.leb_le in Hle. rewrite dayCount_more in Hfuel by assumption.
    destruct (dayLoop_next fuel end_ cur ltac:(lia) IH) as [later Hlater]. rewrite Hlater.
    destruct (negb (num_eqb (Date.getDay (Some cur)) 0)
              && negb (num_eqb (Date.getDay (Some cur)) 6)).
    + destruct (forEmployees_total (Some cur) (targetEmployeesOf employeeId_ staff) Hd Hslot)
        as [mine Hmine].
      rewrite Hmine. destruct mine, later; eauto.
    + destruct later; eauto.
Qed.

Lemma dayLoop_no_targets (end_ : Z) (fuel : nat) :
  targetEmployeesOf employeeId_ staff = [] ->
  forall cur : Z,
    (dayCount cur end_ <= fuel)%nat ->
    dayLoop fuel slotFuel employeeId_ staff settings_ assignments (Some end_) (Some cur)
    = Some (Normal []).
Proof.
  intros Hnone. induction fuel as [|fuel IH]; intros cur Hfuel.
  - destruct (Z_lt_le_dec end_ cur) as [Hlt|Hle].
    + apply dayLoop_empty. simpl. now apply Z.leb_gt.
    + rewrite dayCount_more in Hfuel by assumption. lia.
  - rewrite dayLoop_step. simpl Date.leb.
    destruct (cur <=? end_) eqn:Hle; [|reflexivity].
    apply Z.leb_le in Hle. rewrite dayCount_more in Hfuel by assumption.
    rewrite Hnone. cbn [forEmployees]. unfold ret.
    assert (Hlater : dayLoop fuel slotFuel employeeId_ staff settings_ assignments
                       (Some end_) (nextDay (Some cur)) = Some (Normal [])).
    { rewrite (nextDay_fixed offset Hfixed).
      destruct (Date.TimeClip (cur + Date.msPerDay)) as [next|] eqn:Hclip.
      - apply TimeClip_Some in Hclip. destruct Hclip as [-> _]. apply IH. lia.
      - now apply dayLoop_empty. }
    rewrite Hlater. now destruct (negb _ && negb _).
Qed.

(** A range that holds a Saturday and the Sunday after it, or that
    Saturday alone. *)
Lemma dayLoop_saturday (fuel : nat) (start end_ : Z) :
  Date.getDay (Some start) = Some 6 ->
  start <= end_ < start + 2 * Date.msPerDay ->
  (2 <= fuel)%nat ->
  dayLoop fuel slotFuel employeeId_ staff settings_ assignments (Some end_) (Some start)
  = Some (Normal []).
Proof.
  intros Hsat [Hle Hlt] Hfuel.
  pose proof (getDay_next offset Hfixed start 6 Hsat) as Hsun.
  change ((6 + 1) mod 7) with 0 in Hsun.
  assert (Hnext : forall t, nextDay (Some t) = Some (t + Date.msPerDay)
                             \/ nextDay (Some t) = None).
  { intros t. rewrite (nextDay_fixed offset Hfixed).
    destruct (Date.TimeClip (t + Date.msPerDay)) as [next|] eqn:Hclip; [|now right].
    apply TimeClip_Some in Hclip. destruct Hclip as [-> _]. now left. }
  apply (dayLoop_weekend _ _ _ _ _ _ 2); [| |exact Hfuel]; cbn [Nat.iter nat_rect].
  - intros [|[|k]] Hk Hin; [now right| |lia]. cbn [Nat.iter nat_rect] in *.
    destruct (Hnext start) as [E|E]; rewrite E in *; [now left|discriminate].
  - destruct (Hnext start) as [E|E]; rewrite E; [|reflexivity].
    destruct (Hnext (start + Date.msPerDay)) as [E'|E']; rewrite E'; [|reflexivity].
    simpl. apply Z.leb_gt. lia.
Qed.

End DayLoopFixed.

(** ** The handler *)

Section Handler.
Context {host : HostTimeZone}.

Lemma getTimeSlots_valid (fuel : nat) (data : StorageData) (employeeId_ : option string)
    (start end_ : Z) :
  getTimeSlots fuel data
    {| q_employeeId := employeeId_;
       q_startDate := Some (Some start);
       q_endDate := Some (Some end_) |}
  = match dayLoop fuel fuel employeeId_ (employees data) (settings data)
            (workAssignments data) (Some end_) (Some start) with
    | None => None
    | Some (Normal timeSlots) => Some (Ok 200 timeSlots)
    | Some RangeError => Some (AppError "Failed to retrieve time slots" 500)
    end.
Proof. reflexivity. Qed.

Lemma getTimeSlots_Ok (fuel : nat) (data : StorageData) (employeeId_ : option string)
    (start end_ : Z) (code : Z) (slots : list TimeSlot) :
  getTimeSlots fuel data
    {| q_employeeId := employeeId_;
       q_startDate := Some (Some start);
       q_endDate := Some (Some end_) |} = Some (Ok code slots) ->
  dayLoop fuel fuel employeeId_ (employees data) (settings data)
    (workAssignments data) (Some end_) (Some start) = Some (Normal slots).
Proof.
  rewrite getTimeSlots_valid.
  destruct (dayLoop fuel fuel employeeId_ (employees data) (settings data)
              (workAssignments data) (Some end_) (Some start)) as [[found|]|];
    try discriminate.
  intros H. injection H as _ <-. reflexivity.
Qed.

(** On a host with a constant offset, for two valid dates and a positive
    slot duration, the handler answers, and the answer is the same for
    every sufficient bound on the iterations: a list of slots, or status
    500 when the generator threw. *)
Lemma getTimeSlots_total (offset : Z) (data : StorageData) (employeeId_ : option string)
    (start end_ : Z) :
  fixedOffset host offset ->
  0 < slotDuration (settings data) ->
  exists answer,
    (forall fuel,
       (Nat.max (dayCount start end_) (windowRuns (settings data)) <= fuel)%nat ->
       getTimeSlots fuel data
         {| q_employeeId := employeeId_;
            q_startDate := Some (Some start);
            q_endDate := Some (Some end_) |}
       = Some answer)
    /\ ((exists slots, answer = Ok 200 slots)
        \/ answer = AppError "Failed to retrieve time slots" 500).
Proof.
  intros Hfixed Hd.
  set (n := Nat.max (dayCount start end_) (windowRuns (settings data))).
  destruct (dayLoop_total offset Hfixed n employeeId_ (employees data) (settings data)
              (workAssignments data) n end_ Hd ltac:(lia) start ltac:(lia))
    as [r Hrun].
  exists (match r with
          | Normal timeSlots => Ok 200 timeSlots
          | RangeError => AppError "Failed to retrieve time slots" 500
          end).
  split.
  - intros fuel Hfuel. rewrite getTimeSlots_valid.
    rewrite (dayLoop_fuel_mono _ _ _ _ _ n n fuel fuel Hfuel Hfuel _ _ Hrun).
    now destruct r.
  - destruct r; eauto.
Qed.

End Handler.

(** C6: the slots of a response are those that the generator returns for
    the days of the iteration (the start date, then one [setDate] step
    after another while the date is not after the end date) whose weekday
    is neither Sunday (0) nor Saturday (6), for each target employee: a
    slot comes from such a day, and such a day contributes all its slots.
    A range whose days are all Saturdays and Sundays gives an empty list
    and no error, whatever the employees, assignments and settings; on a
    host with a constant offset this is so for a range that starts on a
    Saturday and ends less than 48 hours later, and for any range the
    handler does answer when the slot duration is positive. *)
Theorem weekends_are_skipped {host : HostTimeZone} (data : StorageData)
    (employeeId_ : option string) (start end_ : Z) :
  let query := {| q_employeeId := employeeId_;
                  q_startDate := Some (Some start);
                  q_endDate := Some (Some end_) |} in
  let day (k : nat) : JSDate := Nat.iter k nextDay (Some start) in
  (forall fuel code slots,
      getTimeSlots fuel data query = Some (Ok code slots) ->
      (forall slot, In slot slots ->
         exists (k : nat) employee daySlots,
           (forall j, (j <= k)%nat -> Date.leb (day j) (Some end_) = true)
           /\ Date.getDay (day k) <> Some 0
           /\ Date.getDay (day k) <> Some 6
           /\ In employee (targetEmployeesOf employeeId_ (employees data))
           /\ generateTimeSlotsForDay fuel (day k) employee (settings data)
                (workAssignments data) = Some (Normal daySlots)
           /\ In slot daySlots)
      /\ (forall (k : nat) employee,
            (forall j, (j <= k)%nat -> Date.leb (day j) (Some end_) = true) ->
            Date.getDay (day k) <> Some 0 ->
            Date.getDay (day k) <> Some 6 ->
            In employee (targetEmployeesOf employeeId_ (employees data)) ->
            exists daySlots,
              generateTimeSlotsForDay fuel (day k) employee (settings data)
                (workAssignments data) = Some (Normal daySlots)
              /\ incl daySlots slots))
  /\ (forall n : nat,
        (forall k, (k < n)%nat -> Date.leb (day k) (Some end_) = true ->
           Date.getDay (day k) = Some 0 \/ Date.getDay (day k) = Some 6) ->
        Date.leb (day n) (Some end_) = false ->
        forall fuel, (n <= fuel)%nat ->
          getTimeSlots fuel data query = Some (Ok 200 []))
  /\ (forall offset, fixedOffset host offset ->
        (Date.getDay (Some start) = Some 6 ->
         start <= end_ < start + 2 * Date.msPerDay ->
         forall fuel, (2 <= fuel)%nat ->
           getTimeSlots fuel data query = Some (Ok 200 []))
        /\ (0 < slotDuration (settings data) ->
            exists answer,
              (forall fuel,
                 (Nat.max (dayCount start end_) (windowRuns (settings data)) <= fuel)%nat ->
                 getTimeSlots fuel data query = Some answer)
              /\ ((exists slots, answer = Ok 200 slots)
                  \/ answer = AppError "Failed to retrieve time slots" 500))).
Proof.
  intros query day. split; [|split].
  - intros fuel code slots Hrun. apply getTimeSlots_Ok in Hrun.
    exact (dayLoop_In _ _ _ _ _ _ _ _ _ Hrun).
  - intros n Hweek Hend fuel Hfuel. unfold query. rewrite getTimeSlots_valid.
    now rewrite (dayLoop_weekend _ _ _ _ _ _ n).
  - intros offset Hfixed. split.
    + intros Hsat Hrange fuel Hfuel. unfold query. rewrite getTimeSlots_valid.
      now rewrite (dayLoop_saturday offset Hfixed).
    + intros Hd. now apply (getTimeSlots_total offset).
Qed.

(** C6 in Tallinn on 30 and 31 March 2024, the Saturday and the Sunday
    of the change to summer time: the range from Saturday 00:00 to Sunday
    23:59:59.999, local time, gives no slot. *)
Lemma weekends_are_skipped_witness :
  getTimeSlots (host := tallinn) 9
    {| employees := [lateEmployee];
       workAssignments := [booking "a1" "emp-1" (jan2024 15 9 0) (jan2024 15 10 0) scheduled];
       settings := defaultSettings |}
    {| q_employeeId := None;
       q_startDate := Some (Some 1711749600000);
       q_endDate := Some (Some 1711918799999) |}
  = Some (Ok 200 []).
Proof.
  refine (proj1 (proj2 (weekends_are_skipped (host := tallinn) _ None
                          1711749600000 1711918799999)) 2%nat _ _ 9%nat _).
  - intros [|[|k]] Hk _; [right; reflexivity|left; reflexivity|lia].
  - reflexivity.
  - repeat constructor.
Defined.

(** On that weekend Sunday has 23 hours: a range that ends 47 hours and
    40 minutes after Saturday 00:00 reaches Monday 00:20, and the nine
    slots of Monday are returned. *)
Example weekend_of_47_hours :
  1711749600000 <= 1711921200000 < 1711749600000 + 2 * Date.msPerDay
  /\ Date.getDay (host := tallinn) (Some 1711749600000) = Some 6
  /\ exists slots,
       getTimeSlots (host := tallinn) 9
         {| employees := [lateEmployee]; workAssignments := []; settings := defaultSettings |}
         {| q_employeeId := None;
            q_startDate := Some (Some 1711749600000);
            q_endDate := Some (Some 1711921200000) |}
       = Some (Ok 200 slots)
       /\ List.length slots = 9%nat.
Proof.
  split; [split; [discriminate|reflexivity]|]. split; [reflexivity|].
  vm_compute. eexists. split; reflexivity.
Qed.

(** C8: when the start date is after the end date the response is an empty
    list, not an error, whatever the employees, assignments and settings:
    the loop test fails at once, for every bound on the iterations. *)
Theorem inverted_range_is_empty {host : HostTimeZone} (fuel : nat) (data : StorageData)
    (employeeId_ : option string) (start end_ : Z) :
  end_ < start ->
  getTimeSlots fuel data
    {| q_employeeId := employeeId_;
       q_startDate := Some (Some start);
       q_endDate := Some (Some end_) |}
  = Some (Ok 200 []).
Proof.
  intros Hinv. rewrite getTimeSlots_valid.
  rewrite dayLoop_empty; [reflexivity|].
  simpl. apply Z.leb_gt. exact Hinv.
Qed.

(** C8 on the range from 16 January back to 15 January 2024. *)
Lemma inverted_range_is_empty_witness :
  getTimeSlots (host := utc) 0
    {| employees := [lateEmployee]; workAssignments := []; settings := defaultSettings |}
    {| q_employeeId := None;
       q_startDate := Some (jan2024 16 0 0);
       q_endDate := Some (jan2024 15 0 0) |}
  = Some (Ok 200 []).
Proof.
  exact (inverted_range_is_empty (host := utc) 0
           {| employees := [lateEmployee]; workAssignments := []; settings := defaultSettings |}
           None 1705363200000 1705276800000 eq_refl).
Defined.

(** ** Creating and updating assignments *)

Lemma replaceFirst_found (i : string) (f : WorkAssignment -> WorkAssignment)
    (l1 l2 : list WorkAssignment) (old : WorkAssignment) :
  id old = i ->
  (forall x, In x l1 -> id x <> i) ->
  replaceFirst i f (l1 ++ old :: l2) = Some (f old, l1 ++ f old :: l2).
Proof.
  intros Hold Hl1. induction l1 as [|x l1 IH]; simpl.
  - rewrite (proj2 (String.eqb_eq _ _) Hold). reflexivity.
  - destruct (String.eqb (id x) i) eqn:E.
    + apply String.eqb_eq in E. exfalso. apply (Hl1 x); [now left|exact E].
    + rewrite IH; [reflexivity|]. intros y Hy. apply Hl1. now right.
Qed.

Lemma truthy_Some (i : string) : i <> EmptyString -> truthy (Some i) = true.
Proof. destruct i; [congruence|reflexivity]. Qed.

(** C7 as stated fails: the update that moves the booking [a2] onto
    09:30-10:30 is accepted although it then overlaps the scheduled booking
    [a1] (09:00-10:00) of the same employee, while the same interval
    proposed as a new booking is rejected with status 409. *)
Lemma update_accepts_overlap :
  hasConflict "emp-1" (jan2024 15 9 30) (jan2024 15 10 30)
    [booking "a1" "emp-1" (jan2024 15 9 0) (jan2024 15 10 0) scheduled] = true
  /\ (exists updated data',
        updateAssignment clock0 twoBookings (Some "a2"%string) (Some moveOntoFirst)
        = (Ok 200 updated, data')
        /\ id updated = "a2"%string
        /\ employeeId updated = "emp-1"%string
        /\ status updated = scheduled
        /\ startTime updated = jan2024 15 9 30
        /\ endTime updated = jan2024 15 10 30
        /\ workAssignments data'
           = [booking "a1" "emp-1" (jan2024 15 9 0) (jan2024 15 10 0) scheduled; updated])
  /\ createAssignment clock0 twoBookings proposeOverFirst
     = (AppError "Time slot is already occupied" 409, twoBookings).
Proof.
  split; [reflexivity|]. split; [|reflexivity].
  eexists. eexists. split; [reflexivity|]. repeat split.
Qed.

(** C7, amended: conflicts are detected when an assignment is created, not
    when one is updated.  A well-formed creation request for an existing
    employee is rejected with status 409 exactly when [hasConflict] holds,
    and the store is then unchanged.  An update of an existing assignment
    is accepted whatever interval it gives the assignment: the stored
    record is replaced by the merged one and the response is a success. *)
Theorem conflicts_checked_on_creation_only (clock : Clock) (data : StorageData) :
  (forall (body : CreateWorkAssignmentRequest) (eid w : string) (s e : JSDate),
      req_employeeId body = Some eid -> req_workType body = Some w ->
      req_startTime body = Some s -> req_endTime body = Some e ->
      eid <> EmptyString ->
      truthy (req_clientName body) = true ->
      truthy (req_clientPhone body) = true ->
      truthy (req_clientAddress body) = true ->
      In w validWorkTypes ->
      getEmployeeById data eid <> None ->
      (hasConflict eid s e (workAssignments data) = true ->
       createAssignment clock data body
       = (AppError "Time slot is already occupied" 409, data))
      /\ (hasConflict eid s e (workAssignments data) = false ->
          exists created,
            createAssignment clock data body
            = (Ok 201 created,
               {| employees := employees data;
                  workAssignments := workAssignments data ++ [created];
                  settings := settings data |})
            /\ employeeId created = eid /\ status created = scheduled
            /\ startTime created = s /\ endTime created = e))
  /\ (forall (i : string) (updates : WorkAssignmentUpdates)
             (l1 l2 : list WorkAssignment) (old : WorkAssignment),
        i <> EmptyString ->
        workAssignments data = l1 ++ old :: l2 ->
        id old = i ->
        (forall x, In x l1 -> id x <> i) ->
        updateAssignment clock data (Some i) (Some updates)
        = (Ok 200 (mergeUpdates clock old updates),
           {| employees := employees data;
              workAssignments := l1 ++ mergeUpdates clock old updates :: l2;
              settings := settings data |})).
Proof.
  split.
  - intros body eid w s e Heid Hw Hs He Hne Hname Hphone Haddr Hvalid Hemp.
    unfold createAssignment. rewrite Heid, Hw, Hs, He.
    destruct (req_clientName body) as [[|c1 n1]|]; try discriminate.
    destruct (req_clientPhone body) as [[|c2 n2]|]; try discriminate.
    destruct (req_clientAddress body) as [[|c3 n3]|]; try discriminate.
    assert (Hw0 : isEmpty w = false).
    { destruct w; [|reflexivity]. simpl in Hvalid. intuition discriminate. }
    assert (He0 : isEmpty eid = false) by (destruct eid; [congruence|reflexivity]).
    rewrite Hw0, He0. cbn [isEmpty orb].
    assert (Hty : existsb (String.eqb w) validWorkTypes = true).
    { apply existsb_exists. exists w. split; [exact Hvalid|apply String.eqb_refl]. }
    rewrite Hty. cbn [negb].
    destruct (getEmployeeById data eid) as [emp|]; [|congruence].
    unfold getWorkAssignments. split; intros Hc; rewrite Hc; [reflexivity|].
    eexists. split; [reflexivity|]. repeat split.
  - intros i updates l1 l2 old Hne Hdata Hold Hl1.
    unfold updateAssignment, updateWorkAssignment.
    rewrite truthy_Some by assumption. cbn [negb].
    rewrite Hdata, (replaceFirst_found i _ l1 l2 old Hold Hl1). reflexivity.
Qed.

(** The amended C7 at the store and the requests of the counterexample. *)
Lemma conflicts_checked_on_creation_only_witness :
  createAssignment clock0 twoBookings proposeOverFirst
  = (AppError "Time slot is already occupied" 409, twoBookings)
  /\ exists updated,
       updateAssignment clock0 twoBookings (Some "a2"%string) (Some moveOntoFirst)
       = (Ok 200 updated,
          {| employees := [lateEmployee];
             workAssignments :=
               [booking "a1" "emp-1" (jan2024 15 9 0) (jan2024 15 10 0) scheduled; updated];
             settings := defaultSettings |})
       /\ startTime updated = jan2024 15 9 30.
Proof.
  destruct (conflicts_checked_on_creation_only clock0 twoBookings) as [Hcreate Hupdate].
  split.
  - apply (proj1 (Hcreate proposeOverFirst "emp-1"%string "maintenance"%string
                    (jan2024 15 9 30) (jan2024 15 10 30)
                    eq_refl eq_refl eq_refl eq_refl
                    ltac:(discriminate) eq_refl eq_refl eq_refl
                    ltac:(right; left; reflexivity) ltac:(discriminate))).
    reflexivity.
  - eexists. split.
    + apply (Hupdate "a2"%string moveOntoFirst
               [booking "a1" "emp-1" (jan2024 15 9 0) (jan2024 15 10 0) scheduled] []
               (booking "a2" "emp-1" (jan2024 15 11 0) (jan2024 15 12 0) scheduled)).
      * discriminate.
      * reflexivity.
      * reflexivity.
      * intros x [<-|[]]. discriminate.
    + reflexivity.
Defined.

(** * Further properties of the handlers *)

(** ** The range query *)

Lemma inDateRange_iff (start end_ s e : Z) (a : WorkAssignment) :
  startTime a = Some s -> endTime a = Some e -> s <= e ->
  inDateRange (Some start) (Some end_) a = true
  <-> s <= Z.max start end_ /\ Z.min start end_ <= e.
Proof.
  intros Hs He Hse. unfold inDateRange. rewrite Hs, He. simpl.
  rewrite !orb_true_iff, !andb_true_iff, !Z.leb_le. lia.
Qed.

Lemma bool_eq_iff (b c : bool) : (b = true <-> c = true) -> b = c.
Proof. destruct b, c; intuition congruence. Qed.

(** The range query answers with the stored assignments, whatever their
    status, whose closed interval meets the closed range between the two
    dates, taken in either order; with an employee filter, those of that
    employee. *)
Theorem range_query_is_closed_overlap (data : StorageData) (employeeId_ : option string)
    (start end_ : Z) :
  exists found,
    getAssignmentsForDateRange data
      {| q_employeeId := employeeId_;
         q_startDate := Some (Some start);
         q_endDate := Some (Some end_) |} = Ok 200 found
    /\ forall a s e,
         startTime a = Some s -> endTime a = Some e -> s <= e ->
         (In a found
          <-> In a (workAssignments data)
              /\ s <= Z.max start end_ /\ Z.min start end_ <= e
              /\ (truthy employeeId_ = true -> employeeId_ = Some (employeeId a))).
Proof.
  unfold getAssignmentsForDateRange. simpl. eexists. split; [reflexivity|].
  intros a s e Hs He Hse. unfold getWorkAssignments.
  destruct (truthy employeeId_) eqn:Hty.
  - destruct employeeId_ as [i|]; [|discriminate].
    rewrite !filter_In, (inDateRange_iff start end_ s e a Hs He Hse), String.eqb_eq.
    split.
    + intros [[Hin Hr] Hid]. repeat split; try tauto. intros _. now rewrite Hid.
    + intros (Hin & H1 & H2 & Hid). specialize (Hid eq_refl). injection Hid as ->. tauto.
  - rewrite filter_In, (inDateRange_iff start end_ s e a Hs He Hse).
    split; [intros [Hin Hr]; repeat split; try tauto; discriminate | tauto].
Qed.

(** A booking 09:00-10:00 is found by the range 10:00-10:30, which it only
    touches. *)
Lemma range_query_is_closed_overlap_witness :
  exists found,
    getAssignmentsForDateRange twoBookings
      {| q_employeeId := None;
         q_startDate := Some (jan2024 15 10 0);
         q_endDate := Some (jan2024 15 10 30) |} = Ok 200 found
    /\ In (booking "a1" "emp-1" (jan2024 15 9 0) (jan2024 15 10 0) scheduled) found.
Proof.
  destruct (range_query_is_closed_overlap twoBookings None 1705312800000 1705314600000)
    as (found & Hrun & Hin).
  exists found. split; [exact Hrun|].
  apply (Hin (booking "a1" "emp-1" (jan2024 15 9 0) (jan2024 15 10 0) scheduled)
           1705309200000 1705312800000 eq_refl eq_refl ltac:(discriminate)).
  split; [now left|]. split; [discriminate|]. split; [discriminate|]. discriminate.
Defined.

Lemma inDateRange_unreadable (start end_ : JSDate) (a : WorkAssignment) :
  startTime a = None -> endTime a = None -> inDateRange start end_ a = false.
Proof.
  intros Hs He. unfold inDateRange. rewrite Hs, He.
  destruct start, end_; reflexivity.
Qed.

(** Exchanging the two dates of a range query does not change the answer
    when every stored assignment has two readable timestamps in order, or
    two unreadable ones: an inverted range is not empty.  For a stored
    assignment of another kind there are two dates for which the answer
    holds it in one order and not in the other. *)
Theorem range_query_is_symmetric (data : StorageData) :
  (Forall orderedOrUnreadable (workAssignments data) ->
   forall employeeId_ start end_,
     getAssignmentsForDateRange data
       {| q_employeeId := employeeId_;
          q_startDate := Some (Some start);
          q_endDate := Some (Some end_) |}
     = getAssignmentsForDateRange data
         {| q_employeeId := employeeId_;
            q_startDate := Some (Some end_);
            q_endDate := Some (Some start) |})
  /\ (forall a,
        In a (workAssignments data) -> ~ orderedOrUnreadable a ->
        exists start end_ found found',
          getAssignmentsForDateRange data
            {| q_employeeId := None;
               q_startDate := Some (Some start);
               q_endDate := Some (Some end_) |} = Ok 200 found
          /\ getAssignmentsForDateRange data
               {| q_employeeId := None;
                  q_startDate := Some (Some end_);
                  q_endDate := Some (Some start) |} = Ok 200 found'
          /\ In a found /\ ~ In a found').
Proof.
  split.
  - intros Hwf employeeId_ start end_.
    unfold getAssignmentsForDateRange. simpl. unfold getWorkAssignments.
    assert (E : filter (inDateRange (Some start) (Some end_)) (workAssignments data)
                = filter (inDateRange (Some end_) (Some start)) (workAssignments data)).
    { apply filter_ext_in. intros a Ha.
      rewrite Forall_forall in Hwf.
      destruct (Hwf a Ha) as [(s & e & Hs & He & Hse)|[Hs He]].
      - apply bool_eq_iff.
        rewrite (inDateRange_iff start end_ s e a Hs He Hse),
          (inDateRange_iff end_ start s e a Hs He Hse). lia.
      - now rewrite !inDateRange_unreadable. }
    now rewrite E.
  - intros a Ha Hbad.
    assert (Hpick : exists t,
               inDateRange (Some t) (Some (t + 1)) a = true
               /\ inDateRange (Some (t + 1)) (Some t) a = false).
    { unfold inDateRange.
      destruct (startTime a) as [s|] eqn:Hs, (endTime a) as [e|] eqn:He.
      - exists s. assert (e < s).
        { destruct (Z_lt_le_dec e s); [assumption|]. exfalso. apply Hbad. left. eauto. }
        simpl. split.
        + rewrite !orb_true_iff, !andb_true_iff, !Z.leb_le. lia.
        + apply not_true_is_false.
          rewrite !orb_true_iff, !andb_true_iff, !Z.leb_le. lia.
      - exists s. simpl. split.
        + rewrite !orb_true_iff, !andb_true_iff, !Z.leb_le. lia.
        + apply not_true_is_false.
          rewrite !orb_true_iff, !andb_true_iff, !Z.leb_le. intuition (discriminate || lia).
      - exists e. simpl. split.
        + rewrite !orb_true_iff, !andb_true_iff, !Z.leb_le. lia.
        + apply not_true_is_false.
          rewrite !orb_true_iff, !andb_true_iff, !Z.leb_le. intuition (discriminate || lia).
      - exfalso. apply Hbad. now right. }
    destruct Hpick as (t & Hin & Hout).
    unfold getAssignmentsForDateRange. simpl. unfold getWorkAssignments.
    exists t, (t + 1). eexists. eexists.
    split; [reflexivity|]. split; [reflexivity|].
    rewrite !filter_In. split; [tauto|]. intros [_ H]. congruence.
Qed.

(** The range from 12:00 back to 09:30 finds both bookings of the day;
    with a booking whose end is unreadable in the store, the range
    09:00-09:00.001 finds that booking and the same range inverted does
    not. *)
Lemma range_query_is_symmetric_witness :
  getAssignmentsForDateRange twoBookings
    {| q_employeeId := None;
       q_startDate := Some (jan2024 15 12 0);
       q_endDate := Some (jan2024 15 9 30) |}
  = Ok 200 (workAssignments twoBookings)
  /\ exists start end_ found found',
       getAssignmentsForDateRange
         {| employees := [lateEmployee]; workAssignments := [openEnded];
            settings := defaultSettings |}
         {| q_employeeId := None;
            q_startDate := Some (Some start);
            q_endDate := Some (Some end_) |} = Ok 200 found
       /\ getAssignmentsForDateRange
            {| employees := [lateEmployee]; workAssignments := [openEnded];
               settings := defaultSettings |}
            {| q_employeeId := None;
               q_startDate := Some (Some end_);
               q_endDate := Some (Some start) |} = Ok 200 found'
       /\ In openEnded found /\ ~ In openEnded found'.
Proof.
  split.
  - transitivity
      (getAssignmentsForDateRange twoBookings
         {| q_employeeId := None;
            q_startDate := Some (Some 1705311000000);
            q_endDate := Some (Some 1705320000000) |}); [|reflexivity].
    symmetry.
    apply (proj1 (range_query_is_symmetric twoBookings)).
    assert (Hordered : forall i from to,
               from <= to ->
               orderedOrUnreadable (booking i "emp-1" (Some from) (Some to) scheduled)).
    { intros i from to Hle. left. exists from, to. auto. }
    apply Forall_cons; [apply Hordered; discriminate|].
    apply Forall_cons; [apply Hordered; discriminate|]. apply Forall_nil.
  - apply (proj2 (range_query_is_symmetric
                    {| employees := [lateEmployee]; workAssignments := [openEnded];
                       settings := defaultSettings |}) openEnded).
    + now left.
    + intros [(s & e & _ & He & _)|[Hs _]]; discriminate.
Defined.

(** ** The schedule of an employee *)

Lemma startsInRange_iff (i : string) (start end_ : JSDate) (a : WorkAssignment) :
  startsInRange i start end_ a = true
  <-> employeeId a = i /\ date_le start (startTime a) /\ date_le (startTime a) end_.
Proof.
  unfold startsInRange. rewrite !andb_true_iff, String.eqb_eq, geb_le, leb_le. tauto.
Qed.

(** For an employee that exists and two valid dates, the schedule lists
    the employee's assignments whose start lies in the closed range, and
    each of them is also in the answer of the range query for that range
    and that employee. *)
Theorem schedule_is_part_of_range_query (now1 now2 : Z) (data : StorageData) (i : string)
    (employee : Employee) (start end_ : Z) :
  i <> EmptyString ->
  getEmployeeById data i = Some employee ->
  exists mine found,
    getEmployeeSchedule now1 now2 data (Some i) (Some (Some start)) (Some (Some end_))
    = Ok 200 (employee, mine)
    /\ getAssignmentsForDateRange data
         {| q_employeeId := Some i;
            q_startDate := Some (Some start);
            q_endDate := Some (Some end_) |} = Ok 200 found
    /\ (forall a, In a mine
                  <-> In a (workAssignments data) /\ employeeId a = i
                      /\ date_le (Some start) (startTime a)
                      /\ date_le (startTime a) (Some end_))
    /\ incl mine found.
Proof.
  intros Hne Hemp. unfold getEmployeeSchedule, getAssignmentsForDateRange.
  cbn [q_employeeId q_startDate q_endDate].
  rewrite !(truthy_Some i Hne), Hemp. cbn [negb Date.isNaN orb]. unfold getWorkAssignments.
  eexists. eexists. split; [reflexivity|]. split; [reflexivity|]. split.
  - intros a. rewrite filter_In, startsInRange_iff. tauto.
  - intros a. rewrite !filter_In. cbv beta. rewrite startsInRange_iff, String.eqb_eq.
    intros (Hin & Hid & H1 & H2). repeat split; try assumption.
    unfold inDateRange. rewrite (proj2 (geb_le _ _) H1), (proj2 (leb_le _ _) H2).
    reflexivity.
Qed.

(** The schedule of Monday 09:30-12:00 holds the 11:00 booking and not the
    one that began at 09:00, which the range query still reports. *)
Lemma schedule_is_part_of_range_query_witness :
  getEmployeeSchedule 0 0 twoBookings (Some "emp-1"%string)
    (Some (jan2024 15 9 30)) (Some (jan2024 15 12 0))
  = Ok 200 (lateEmployee,
            [booking "a2" "emp-1" (jan2024 15 11 0) (jan2024 15 12 0) scheduled])
  /\ getAssignmentsForDateRange twoBookings
       {| q_employeeId := Some "emp-1"%string;
          q_startDate := Some (jan2024 15 9 30);
          q_endDate := Some (jan2024 15 12 0) |}
     = Ok 200 (workAssignments twoBookings).
Proof.
  destruct (schedule_is_part_of_range_query 0 0 twoBookings "emp-1" lateEmployee
              1705311000000 1705320000000 ltac:(discriminate) eq_refl)
    as (mine & found & Hs & Hr & _).
  pose proof Hs as Hs'. vm_compute in Hs'. injection Hs' as <-.
  pose proof Hr as Hr'. vm_compute in Hr'. injection Hr' as <-.
  split; [exact Hs | exact Hr].
Defined.

(** Without dates the schedule covers the seven days that follow the
    call.  An unknown employee is reported (404) before the dates are
    looked at, and an empty id (400) before the employee is looked up. *)
Theorem schedule_defaults_and_errors (now1 now2 : Z) (data : StorageData) (i : string) :
  i <> EmptyString ->
  (forall employee,
      getEmployeeById data i = Some employee ->
      exists mine,
        getEmployeeSchedule now1 now2 data (Some i) None None = Ok 200 (employee, mine)
        /\ forall a s, startTime a = Some s ->
             (In a mine <-> In a (workAssignments data) /\ employeeId a = i
                            /\ now1 <= s <= now2 + 604800000))
  /\ (forall startDate endDate,
        getEmployeeById data i = None ->
        getEmployeeSchedule now1 now2 data (Some i) startDate endDate
        = AppError "Employee not found" 404)
  /\ (forall startDate endDate,
        getEmployeeSchedule now1 now2 data (Some EmptyString) startDate endDate
        = AppError "Employee ID is required" 400)
  /\ (forall employee endDate,
        getEmployeeById data i = Some employee ->
        getEmployeeSchedule now1 now2 data (Some i) (Some None) endDate
        = AppError "Invalid date format" 400).
Proof.
  intros Hne. split; [|split; [|split]].
  - intros employee Hemp. unfold getEmployeeSchedule.
    rewrite (truthy_Some i Hne), Hemp. simpl. eexists. split; [reflexivity|].
    intros a s Hs. unfold getWorkAssignments.
    rewrite filter_In, startsInRange_iff, Hs. simpl. tauto.
  - intros startDate endDate Hemp. unfold getEmployeeSchedule.
    now rewrite (truthy_Some i Hne), Hemp.
  - reflexivity.
  - intros employee endDate Hemp. unfold getEmployeeSchedule.
    now rewrite (truthy_Some i Hne), Hemp.
Qed.

(** Asked on Monday at 00:00 without dates, the schedule holds both
    bookings of that Monday; an unknown employee with an unreadable date
    is a 404. *)
Lemma schedule_defaults_and_errors_witness :
  getEmployeeSchedule 1705276800000 1705276800000 twoBookings (Some "emp-1"%string) None None
  = Ok 200 (lateEmployee, workAssignments twoBookings)
  /\ getEmployeeSchedule 1705276800000 1705276800000 twoBookings (Some "emp-9"%string)
       (Some None) None
     = AppError "Employee not found" 404.
Proof.
  destruct (schedule_defaults_and_errors 1705276800000 1705276800000 twoBookings "emp-9"
              ltac:(discriminate)) as (_ & Hmissing & _).
  split; [reflexivity|]. apply Hmissing. reflexivity.
Defined.

(** ** Whose slots a query returns *)

Section SlotOwners.
Context {host : HostTimeZone}.

Lemma targetEmployeesOf_In (employeeId_ : option string) (staff : list Employee)
    (e : Employee) :
  In e (targetEmployeesOf employeeId_ staff) ->
  In e staff /\ (truthy employeeId_ = true -> employeeId_ = Some (emp_id e)).
Proof.
  unfold targetEmployeesOf. destruct (truthy employeeId_) eqn:Hty.
  - destruct employeeId_ as [i|]; [|discriminate].
    rewrite filter_In, String.eqb_eq. intros [Hin ->]. auto.
  - intros Hin. split; [exact Hin|discriminate].
Qed.

Lemma targetEmployeesOf_unknown (data : StorageData) (i : string) :
  i <> EmptyString ->
  getEmployeeById data i = None ->
  targetEmployeesOf (Some i) (employees data) = [].
Proof.
  intros Hne Hnone. unfold targetEmployeesOf. rewrite (truthy_Some i Hne).
  unfold getEmployeeById in Hnone.
  induction (employees data) as [|e l IH]; [reflexivity|].
  simpl in *. destruct (String.eqb (emp_id e) i); [discriminate|]. now apply IH.
Qed.

Lemma forEmployees_ext (fuel : nat) (date : JSDate) (settings_ : CalendarSettings)
    (l l' : list WorkAssignment) (targets : list Employee) :
  (forall e, In e targets ->
     generateTimeSlotsForDay fuel date e settings_ l
     = generateTimeSlotsForDay fuel date e settings_ l') ->
  forEmployees fuel date settings_ l targets = forEmployees fuel date settings_ l' targets.
Proof.
  induction targets as [|e targets IH]; intros Hsame; [reflexivity|].
  rewrite !forEmployees_step, (Hsame e) by now left.
  rewrite IH; [reflexivity|]. intros e' He'. apply Hsame. now right.
Qed.

Lemma dayLoop_ext (slotFuel : nat) (employeeId_ : option string) (staff : list Employee)
    (settings_ : CalendarSettings) (l l' : list WorkAssignment) (end_ : JSDate)
    (fuel : nat) :
  (forall date e, In e (targetEmployeesOf employeeId_ staff) ->
     generateTimeSlotsForDay slotFuel date e settings_ l
     = generateTimeSlotsForDay slotFuel date e settings_ l') ->
  forall cur,
    dayLoop fuel slotFuel employeeId_ staff settings_ l end_ cur
    = dayLoop fuel slotFuel employeeId_ staff settings_ l' end_ cur.
Proof.
  intros Hsame. induction fuel as [|fuel IH]; intros cur; [reflexivity|].
  rewrite !dayLoop_step, IH.
  rewrite (forEmployees_ext slotFuel cur settings_ l l'); [reflexivity|].
  intros e He. now apply Hsame.
Qed.

End SlotOwners.

(** Every slot of a response carries the id of a stored employee, and the
    id asked for when the query names one. *)
Theorem slots_belong_to_requested_employee {host : HostTimeZone} (fuel : nat)
    (data : StorageData) (employeeId_ : option string) (start end_ : Z) (code : Z)
    (slots : list TimeSlot) :
  getTimeSlots fuel data
    {| q_employeeId := employeeId_;
       q_startDate := Some (Some start);
       q_endDate := Some (Some end_) |} = Some (Ok code slots) ->
  forall slot, In slot slots ->
    exists e, In e (employees data)
              /\ slot_employeeId slot = Some (emp_id e)
              /\ (truthy employeeId_ = true -> employeeId_ = Some (emp_id e)).
Proof.
  intros Hrun slot Hin. apply getTimeSlots_Ok in Hrun.
  destruct (proj1 (dayLoop_In _ _ _ _ _ _ _ _ _ Hrun) slot Hin)
    as (k & e & daySlots & _ & _ & _ & He & Hgen & Hs).
  destruct (targetEmployeesOf_In _ _ _ He) as [Hstaff Hid].
  destruct (generate_In _ _ _ _ _ _ _ Hgen Hs) as (c & z & -> & _).
  exists e. auto.
Qed.

(** With two employees in the store, the slots asked for [emp-2] on a
    Monday all carry [emp-2]. *)
Lemma slots_belong_to_requested_employee_witness :
  exists slots,
    getTimeSlots (host := utc) 9 twoEmployees
      {| q_employeeId := Some "emp-2"%string;
         q_startDate := Some (jan2024 15 0 0);
         q_endDate := Some (jan2024 15 0 0) |} = Some (Ok 200 slots)
    /\ List.length slots = 9%nat
    /\ forall slot, In slot slots -> slot_employeeId slot = Some "emp-2"%string.
Proof.
  assert (Hex : exists slots,
             getTimeSlots (host := utc) 9 twoEmployees
               {| q_employeeId := Some "emp-2"%string;
                  q_startDate := Some (Some 1705276800000);
                  q_endDate := Some (Some 1705276800000) |} = Some (Ok 200 slots)
             /\ List.length slots = 9%nat)
    by (vm_compute; eexists; split; reflexivity).
  destruct Hex as (slots & Hrun & Hlen). exists slots.
  split; [exact Hrun|]. split; [exact Hlen|].
  intros slot Hin.
  destruct (slots_belong_to_requested_employee (host := utc) 9 twoEmployees
              (Some "emp-2"%string) 1705276800000 1705276800000 200 slots Hrun slot Hin)
    as (e & _ & Hid & Hasked).
  specialize (Hasked eq_refl). congruence.
Defined.

(** A query that names an employee the store does not hold is answered
    with an empty list, not with an error. *)
Theorem unknown_employee_has_no_slots {host : HostTimeZone} (offset : Z)
    (data : StorageData) (i : string) (start end_ : Z) (fuel : nat) :
  fixedOffset host offset ->
  i <> EmptyString ->
  getEmployeeById data i = None ->
  (dayCount start end_ <= fuel)%nat ->
  getTimeSlots fuel data
    {| q_employeeId := Some i;
       q_startDate := Some (Some start);
       q_endDate := Some (Some end_) |} = Some (Ok 200 []).
Proof.
  intros Hfixed Hne Hnone Hfuel. rewrite getTimeSlots_valid.
  rewrite (dayLoop_no_targets offset Hfixed); [reflexivity| |exact Hfuel].
  now apply targetEmployeesOf_unknown.
Qed.

(** The week from Monday 15 to Friday 19 January for [emp-9]. *)
Lemma unknown_employee_has_no_slots_witness :
  getTimeSlots (host := utc) 5 twoEmployees
    {| q_employeeId := Some "emp-9"%string;
       q_startDate := Some (jan2024 15 0 0);
       q_endDate := Some (jan2024 19 0 0) |} = Some (Ok 200 []).
Proof.
  apply (unknown_employee_has_no_slots (host := utc) 0 twoEmployees "emp-9"
           1705276800000 1705622400000 5).
  - intros t isUTC. reflexivity.
  - discriminate.
  - reflexivity.
  - vm_compute. repeat constructor.
Defined.

(** The bookings of other employees do not show in the slots of the
    employee a query names: removing one leaves the response as it is. *)
Theorem other_employees_bookings_are_invisible {host : HostTimeZone} (fuel : nat)
    (staff : list Employee) (settings_ : CalendarSettings) (i : string)
    (a : WorkAssignment) (l1 l2 : list WorkAssignment) (start end_ : JSDate) :
  i <> EmptyString ->
  employeeId a <> i ->
  getTimeSlots fuel
    {| employees := staff; workAssignments := l1 ++ a :: l2; settings := settings_ |}
    {| q_employeeId := Some i; q_startDate := Some start; q_endDate := Some end_ |}
  = getTimeSlots fuel
      {| employees := staff; workAssignments := l1 ++ l2; settings := settings_ |}
      {| q_employeeId := Some i; q_startDate := Some start; q_endDate := Some end_ |}.
Proof.
  intros Hne Hother. unfold getTimeSlots. simpl.
  destruct (Date.isNaN start || Date.isNaN end_); [reflexivity|].
  rewrite (dayLoop_ext fuel (Some i) staff settings_ (l1 ++ a :: l2) (l1 ++ l2));
    [reflexivity|].
  intros date e He.
  destruct (targetEmployeesOf_In _ _ _ He) as [_ Hid].
  specialize (Hid (truthy_Some i Hne)). injection Hid as Hid.
  apply generate_drop. intros (Hsame & _). congruence.
Qed.

(** The slots of [emp-1] are the same with and without the booking of
    [emp-2] at 09:00. *)
Lemma other_employees_bookings_are_invisible_witness :
  getTimeSlots (host := utc) 9 twoEmployees
    {| q_employeeId := Some "emp-1"%string;
       q_startDate := Some (jan2024 15 0 0);
       q_endDate := Some (jan2024 15 0 0) |}
  = getTimeSlots (host := utc) 9
      {| employees := [lateEmployee; otherEmployee];
         workAssignments :=
           [booking "a1" "emp-1" (jan2024 15 9 0) (jan2024 15 10 0) scheduled];
         settings := defaultSettings |}
      {| q_employeeId := Some "emp-1"%string;
         q_startDate := Some (jan2024 15 0 0);
         q_endDate := Some (jan2024 15 0 0) |}.
Proof.
  apply (other_employees_bookings_are_invisible (host := utc) 9
           [lateEmployee; otherEmployee] defaultSettings "emp-1"
           (booking "a2" "emp-2" (jan2024 15 9 0) (jan2024 15 10 0) scheduled)
           [booking "a1" "emp-1" (jan2024 15 9 0) (jan2024 15 10 0) scheduled] []);
    discriminate.
Defined.

(** ** A slot duration that is not positive *)

Lemma num_eqb_false (a : JSNum) (n : Z) : a <> Some n -> num_eqb a n = false.
Proof.
  destruct a as [x|]; simpl; [|reflexivity].
  intros H. apply Z.eqb_neq. congruence.
Qed.

(** On a host with a constant offset, with a window that is not empty: a
    slot duration of 0 makes the slot loop run for ever, so that neither
    the generator nor the handler returns for any bound on the iterations;
    with a negative duration the loop walks back until the end of a slot
    is no time value, [toISOString] throws, and the handler answers with
    status 500.  In neither case is a list of slots returned.  The handler
    is taken on a range that starts on a working day, with an employee in
    the store. *)
Theorem nonpositive_duration_gives_no_slots {host : HostTimeZone} (offset : Z)
    (data : StorageData) (start end_ ws we : Z) :
  fixedOffset host offset ->
  anchor (Some start) (workStartTime (settings data)) = Some ws ->
  anchor (Some start) (workEndTime (settings data)) = Some we ->
  ws < we ->
  let d := slotDuration (settings data) in
  let query := {| q_employeeId := None;
                  q_startDate := Some (Some start);
                  q_endDate := Some (Some end_) |} in
  let workingDay :=
    start <= end_ /\ Date.getDay (Some start) <> Some 0
    /\ Date.getDay (Some start) <> Some 6 /\ employees data <> [] in
  (d <= 0 ->
   forall fuel employee assignments slots,
     generateTimeSlotsForDay fuel (Some start) employee (settings data) assignments
     <> Some (Normal slots))
  /\ (d = 0 ->
      (forall fuel employee assignments,
         generateTimeSlotsForDay fuel (Some start) employee (settings data) assignments
         = None)
      /\ (workingDay -> forall fuel, getTimeSlots fuel data query = None))
  /\ (d < 0 ->
      exists bound : nat,
        (forall fuel employee assignments,
           (bound <= fuel)%nat ->
           generateTimeSlotsForDay fuel (Some start) employee (settings data) assignments
           = Some RangeError)
        /\ (workingDay ->
            forall fuel, (bound <= fuel)%nat ->
              getTimeSlots fuel data query
              = Some (AppError "Failed to retrieve time slots" 500))).
Proof.
  intros Hfixed Hws Hwe Hlt d query workingDay.
  pose proof (anchor_in_range _ _ _ Hws) as Hrange.
  pose proof (anchor_in_range _ _ _ Hwe) as Hrange'.
  assert (Hhandler : forall fuel r,
             (forall employee assignments,
                generateTimeSlotsForDay (S fuel) (Some start) employee (settings data)
                  assignments = r) ->
             (r = None \/ r = Some RangeError) ->
             workingDay ->
             dayLoop (S fuel) (S fuel) None (employees data) (settings data)
               (workAssignments data) (Some end_) (Some start) = r).
  { intros fuel r Hgen Hr (Hle & H0 & H6 & Hstaff).
    rewrite dayLoop_step. simpl Date.leb. rewrite (proj2 (Z.leb_le _ _) Hle).
    rewrite (num_eqb_false _ 0 H0), (num_eqb_false _ 6 H6). cbn [negb andb].
    unfold targetEmployeesOf. cbn [truthy].
    destruct (employees data) as [|e l]; [congruence|].
    rewrite forEmployees_step, Hgen. now destruct Hr as [-> | ->]. }
  split; [|split].
  - intros Hd fuel employee assignments slots. unfold generateTimeSlotsForDay.
    rewrite Hws, Hwe. apply (slotLoop_never_returns offset Hfixed); [exact Hd|].
    rewrite ltb_Some. now apply Z.ltb_lt.
  - intros Hd.
    assert (Hgen : forall fuel employee assignments,
               generateTimeSlotsForDay fuel (Some start) employee (settings data)
                 assignments = None).
    { intros fuel employee assignments. unfold generateTimeSlotsForDay.
      rewrite Hws, Hwe. apply (slotLoop_zero offset Hfixed); [exact Hd|exact Hrange|].
      rewrite ltb_Some. now apply Z.ltb_lt. }
    split; [exact Hgen|].
    intros Hday fuel. unfold query. rewrite getTimeSlots_valid.
    destruct fuel as [|fuel].
    + rewrite dayLoop_O. simpl Date.leb.
      now rewrite (proj2 (Z.leb_le _ _) (proj1 Hday)).
    + rewrite (Hhandler fuel None); auto.
  - intros Hd.
    set (step := d * Date.msPerMinute).
    assert (Hs : 0 < - step) by (unfold step, Date.msPerMinute; lia).
    set (n := S (Z.to_nat ((ws + Date.maxTime) / (- step)))).
    assert (Hn : ws + Date.maxTime < Z.of_nat n * (- step)).
    { unfold n. rewrite Nat2Z.inj_succ, Z2Nat.id by (apply Z.div_pos; lia).
      pose proof (Z.div_mod (ws + Date.maxTime) (- step) ltac:(lia)) as Hdm.
      pose proof (Z.mod_pos_bound (ws + Date.maxTime) (- step) Hs) as Hmb.
      nia. }
    assert (Hgen : forall fuel employee assignments,
               (n <= fuel)%nat ->
               generateTimeSlotsForDay fuel (Some start) employee (settings data)
                 assignments = Some RangeError).
    { intros fuel employee assignments Hfuel. unfold generateTimeSlotsForDay.
      rewrite Hws, Hwe. eapply slotLoop_fuel_mono; [|exact Hfuel].
      apply (slotLoop_negative offset Hfixed); try assumption; lia. }
    exists n. split; [exact Hgen|].
    intros Hday fuel Hfuel. unfold query. rewrite getTimeSlots_valid.
    destruct fuel as [|fuel]; [unfold n in Hfuel; lia|].
    rewrite (Hhandler fuel (Some RangeError)); auto.
Qed.

(** The default window on a Monday: with a duration of 0 minutes the
    handler has not returned after 1000 iterations, and with a duration of
    -60 minutes it answers with status 500. *)
Lemma nonpositive_duration_gives_no_slots_witness :
  getTimeSlots (host := utc) 1000 (storeWithDuration 0)
    {| q_employeeId := None;
       q_startDate := Some (jan2024 15 0 0);
       q_endDate := Some (jan2024 15 0 0) |} = None
  /\ exists bound : nat,
       forall fuel, (bound <= fuel)%nat ->
         getTimeSlots (host := utc) fuel (storeWithDuration (-60))
           {| q_employeeId := None;
              q_startDate := Some (jan2024 15 0 0);
              q_endDate := Some (jan2024 15 0 0) |}
         = Some (AppError "Failed to retrieve time slots" 500).
Proof.
  assert (Hday : 1705276800000 <= 1705276800000
                 /\ Date.getDay (host := utc) (Some 1705276800000) <> Some 0
                 /\ Date.getDay (host := utc) (Some 1705276800000) <> Some 6
                 /\ [lateEmployee] <> [])
    by (repeat split; discriminate).
  split.
  - destruct (nonpositive_duration_gives_no_slots (host := utc) 0 (storeWithDuration 0)
                1705276800000 1705276800000 1705305600000 1705336200000
                (fun _ _ => eq_refl) eq_refl eq_refl eq_refl) as (_ & Hzero & _).
    exact (proj2 (Hzero eq_refl) Hday 1000%nat).
  - destruct (nonpositive_duration_gives_no_slots (host := utc) 0 (storeWithDuration (-60))
                1705276800000 1705276800000 1705305600000 1705336200000
                (fun _ _ => eq_refl) eq_refl eq_refl eq_refl) as (_ & _ & Hneg).
    destruct (Hneg eq_refl) as (bound & _ & Hhandler).
    exists bound. exact (Hhandler Hday).
Defined.

(** ** Slots and bookings *)

Lemma createAssignment_wellFormed (clock : Clock) (data : StorageData)
    (body : CreateWorkAssignmentRequest) (eid : string) (s e : JSDate) :
  wellFormedRequest body eid s e ->
  createAssignment clock data body
  = match getEmployeeById data eid with
    | None => (AppError "Employee not found" 404, data)
    | Some _ =>
        if hasConflict eid s e (workAssignments data)
        then (AppError "Time slot is already occupied" 409, data)
        else (Ok 201 (createdRecord clock body eid s e),
              {| employees := employees data;
                 workAssignments := workAssignments data ++ [createdRecord clock body eid s e];
                 settings := settings data |})
    end.
Proof.
  intros (Heid & Hne & Hname & Hphone & Haddr & (w & Hw & Hvalid) & Hs & He).
  unfold createAssignment, createdRecord. rewrite Heid, Hw, Hs, He.
  destruct (req_clientName body) as [[|c1 n1]|]; try discriminate.
  destruct (req_clientPhone body) as [[|c2 n2]|]; try discriminate.
  destruct (req_clientAddress body) as [[|c3 n3]|]; try discriminate.
  assert (Hw0 : isEmpty w = false).
  { destruct w; [|reflexivity]. simpl in Hvalid. intuition discriminate. }
  assert (He0 : isEmpty eid = false) by (destruct eid; [congruence|reflexivity]).
  rewrite Hw0, He0. cbn [isEmpty orb].
  assert (Hty : existsb (String.eqb w) validWorkTypes = true).
  { apply existsb_exists. exists w. split; [exact Hvalid|apply String.eqb_refl]. }
  rewrite Hty. cbn [negb].
  destruct (getEmployeeById data eid); [|reflexivity].
  unfold getWorkAssignments.
  destruct (hasConflict eid s e (workAssignments data)); reflexivity.
Qed.

Section SlotsAndBookings.
Context {host : HostTimeZone}.

Lemma unavailable_has_conflict (date : JSDate) (employee : Employee) (d : Z)
    (l : list WorkAssignment) (c : JSDate) :
  available (slotAt employee d (dayAssignmentsOf date employee l) c) = false ->
  hasConflict (emp_id employee) c
    (slot_end (slotAt employee d (dayAssignmentsOf date employee l) c)) l = true.
Proof.
  unfold slotAt. cbn [available slot_end]. rewrite negb_false_iff, existsb_exists.
  intros (a & Ha & Hover). apply In_dayAssignmentsOf in Ha.
  destruct Ha as (Hin & Hid & _ & Hst).
  apply hasConflict_iff. exists a. repeat split; try assumption.
  now apply slotOverlaps_threeClause.
Qed.

(** The slots for another list of day assignments are the same intervals,
    made again. *)
Lemma slotLoop_remake (employee : Employee) (d : Z) (l l' : list WorkAssignment)
    (workEndTime : JSDate) (fuel : nat) :
  forall cur,
    slotLoop fuel employee d l' workEndTime cur
    = mapRun (map (fun s => slotAt employee d l' (slot_start s)))
        (slotLoop fuel employee d l workEndTime cur).
Proof.
  induction fuel as [|fuel IH]; intros cur.
  - rewrite !slotLoop_O. now destruct (Date.ltb cur workEndTime).
  - rewrite !slotLoop_step, !makeSlot_eq, IH.
    destruct (Date.ltb cur workEndTime); [|reflexivity].
    destruct cur as [c|]; [|reflexivity].
    destruct (plusMinutes (Some c) d) as [e|]; [|reflexivity].
    destruct (slotLoop fuel employee d l workEndTime (Some e)) as [[rest|]|]; reflexivity.
Qed.

End SlotsAndBookings.

Lemma generate_positive {host : HostTimeZone} (offset : Z) (fuel : nat) (date : JSDate)
    (employee : Employee) (settings_ : CalendarSettings) (l : list WorkAssignment)
    (slots : list TimeSlot) (slot : TimeSlot) :
  fixedOffset host offset ->
  generateTimeSlotsForDay fuel date employee settings_ l = Some (Normal slots) ->
  In slot slots ->
  0 < slotDuration settings_.
Proof.
  unfold generateTimeSlotsForDay. intros Hfixed Hrun Hin.
  destruct (Z_lt_le_dec 0 (slotDuration settings_)) as [Hpos|Hd]; [exact Hpos|].
  exfalso.
  destruct (Date.ltb (anchor date (workStartTime settings_))
              (anchor date (workEndTime settings_))) eqn:Hlt.
  - destruct (anchor date (workStartTime settings_)) as [ws|]; [|discriminate].
    exact (slotLoop_never_returns offset Hfixed _ _ _ _ fuel Hd ws Hlt slots Hrun).
  - rewrite slotLoop_empty in Hrun by assumption. injection Hrun as <-. destruct Hin.
Qed.

(** A slot that a query shows as unavailable cannot be booked: the
    creation request for that employee and that interval is rejected with
    status 409 and the store is unchanged. *)
Theorem unavailable_slot_cannot_be_booked {host : HostTimeZone} (fuel : nat)
    (date : JSDate) (employee : Employee) (data : StorageData) (slots : list TimeSlot)
    (slot : TimeSlot) (clock : Clock) (body : CreateWorkAssignmentRequest) :
  generateTimeSlotsForDay fuel date employee (settings data) (workAssignments data)
  = Some (Normal slots) ->
  In slot slots ->
  available slot = false ->
  getEmployeeById data (emp_id employee) <> None ->
  wellFormedRequest body (emp_id employee) (slot_start slot) (slot_end slot) ->
  createAssignment clock data body
  = (AppError "Time slot is already occupied" 409, data).
Proof.
  intros Hrun Hin Hbusy Hemp Hbody.
  rewrite (createAssignment_wellFormed clock data body _ _ _ Hbody).
  destruct (getEmployeeById data (emp_id employee)) as [found|]; [|congruence].
  destruct (generate_In _ _ _ _ _ _ _ Hrun Hin) as (c & e & -> & _).
  replace (slot_start (slotAt employee (slotDuration (settings data))
                         (dayAssignmentsOf date employee (workAssignments data)) (Some c)))
    with (Some c) by reflexivity.
  now rewrite (unavailable_has_conflict date employee _ _ (Some c) Hbusy).
Qed.

(** The 09:00 slot of [emp-1], taken by booking [a1]. *)
Lemma unavailable_slot_cannot_be_booked_witness :
  createAssignment clock0 twoBookings
    {| req_employeeId := Some "emp-1"%string;
       req_clientName := Some "Jane Client"%string;
       req_clientPhone := Some "555-5678"%string;
       req_clientAddress := Some "456 Oak Ave"%string;
       req_workType := Some "maintenance"%string;
       req_startTime := Some (jan2024 15 9 0);
       req_endTime := Some (jan2024 15 10 0);
       req_comment := None |}
  = (AppError "Time slot is already occupied" 409, twoBookings).
Proof.
  assert (Hex : exists slots,
             generateTimeSlotsForDay (host := utc) 9 (jan2024 15 0 0) lateEmployee
               (settings twoBookings) (workAssignments twoBookings) = Some (Normal slots)
             /\ In {| slot_start := jan2024 15 9 0;
                      slot_end := jan2024 15 10 0;
                      available := false;
                      slot_assignmentId := Some "a1"%string;
                      slot_employeeId := Some "emp-1"%string |} slots)
    by (vm_compute; eexists; split; [reflexivity|]; right; left; reflexivity).
  destruct Hex as (slots & Hrun & Hin).
  apply (unavailable_slot_cannot_be_booked (host := utc) 9 (jan2024 15 0 0) lateEmployee
           twoBookings slots _ clock0 _ Hrun Hin eq_refl).
  - discriminate.
  - split; [reflexivity|]. split; [discriminate|].
    split; [reflexivity|]. split; [reflexivity|]. split; [reflexivity|].
    split; [|split; reflexivity].
    exists "maintenance"%string. split; [reflexivity|]. right; left; reflexivity.
Defined.

(** Once a slot has been booked through [createAssignment], the next query
    for that day shows the same intervals, and that slot as unavailable
    with the id of the new assignment; the slot has to start on the
    calendar day that is queried, and the host to keep one offset. *)
Theorem booked_slot_becomes_unavailable {host : HostTimeZone} (offset : Z) (fuel : nat)
    (date : JSDate) (employee : Employee) (data data' : StorageData)
    (slots : list TimeSlot) (slot : TimeSlot) (clock : Clock)
    (body : CreateWorkAssignmentRequest) (code : Z) (created : WorkAssignment) :
  fixedOffset host offset ->
  generateTimeSlotsForDay fuel date employee (settings data) (workAssignments data)
  = Some (Normal slots) ->
  In slot slots ->
  Date.toDateString (slot_start slot) = Date.toDateString date ->
  wellFormedRequest body (emp_id employee) (slot_start slot) (slot_end slot) ->
  createAssignment clock data body = (Ok code created, data') ->
  exists slots',
    generateTimeSlotsForDay fuel date employee (settings data') (workAssignments data')
    = Some (Normal slots')
    /\ map slot_start slots' = map slot_start slots
    /\ map slot_end slots' = map slot_end slots
    /\ exists slot',
         In slot' slots'
         /\ slot_start slot' = slot_start slot
         /\ slot_end slot' = slot_end slot
         /\ available slot' = false
         /\ slot_assignmentId slot' = Some (id created).
Proof.
  intros Hfixed Hrun Hin Hday Hbody Hcreate.
  pose proof (generate_positive offset _ _ _ _ _ _ _ Hfixed Hrun Hin) as Hd.
  rewrite (createAssignment_wellFormed clock data body _ _ _ Hbody) in Hcreate.
  destruct (getEmployeeById data (emp_id employee)) as [found|]; [|discriminate].
  destruct (hasConflict (emp_id employee) (slot_start slot) (slot_end slot)
              (workAssignments data)) eqn:Hfree; [discriminate|].
  injection Hcreate as _ <- <-. cbn [settings workAssignments].
  set (new := createdRecord clock body (emp_id employee) (slot_start slot) (slot_end slot)).
  set (day := dayAssignmentsOf date employee (workAssignments data)).
  set (d := slotDuration (settings data)) in *.
  assert (Hday' : dayAssignmentsOf date employee (workAssignments data ++ [new])
                  = day ++ [new]).
  { unfold dayAssignmentsOf. rewrite filter_app. fold (dayAssignmentsOf date employee
      (workAssignments data)). fold day. f_equal. cbn [filter].
    unfold new at 1 2 3. cbn [employeeId startTime status createdRecord].
    rewrite String.eqb_refl, (proj2 (text_eqb_eq _ _) Hday). reflexivity. }
  assert (Hmade : forall s, In s slots ->
                    exists c e, s = slotAt employee d day (Some c)
                                /\ plusMinutes (Some c) d = Some e).
  { intros s Hs. exact (generate_In _ _ _ _ _ _ _ Hrun Hs). }
  destruct (Hmade slot Hin) as (c & e & Hslot & He).
  assert (Hstart : slot_start slot = Some c) by now rewrite Hslot.
  assert (Hend : slot_end slot = Some e) by now rewrite Hslot.
  assert (Hlater : c < e).
  { rewrite (plusMinutes_fixed offset Hfixed) in He. apply TimeClip_Some in He.
    destruct He as [-> _]. unfold Date.msPerMinute. lia. }
  unfold generateTimeSlotsForDay in *. fold day d in Hrun. fold d. rewrite Hday'.
  rewrite (slotLoop_remake employee d day (day ++ [new])), Hrun.
  unfold mapRun, bind, ret.
  eexists. split; [reflexivity|]. split; [|split].
  - rewrite map_map. now apply map_ext.
  - rewrite map_map. apply map_ext_in. intros s Hs.
    destruct (Hmade s Hs) as (c' & e' & -> & _). reflexivity.
  - exists (slotAt employee d (day ++ [new]) (slot_start slot)).
    split; [apply in_map_iff; exists slot; auto|].
    split; [reflexivity|].
    split; [rewrite Hslot at 2; rewrite Hstart; reflexivity|].
    assert (Hnew : coversStart (Some c) new = true).
    { apply coversStart_startInside. unfold startInside, new.
      cbn [startTime endTime createdRecord]. rewrite Hstart, Hend. simpl. lia. }
    assert (Hnone : forall x, In x day -> coversStart (Some c) x = false).
    { intros x Hx. apply not_true_is_false. intros Hcov.
      apply In_dayAssignmentsOf in Hx. destruct Hx as (Hx & Hid & _ & Hst).
      assert (Hc : hasConflict (emp_id employee) (slot_start slot) (slot_end slot)
                     (workAssignments data) = true).
      { apply hasConflict_iff. exists x. repeat split; try assumption.
        left. rewrite Hstart. now apply coversStart_startInside. }
      congruence. }
    rewrite Hstart. unfold slotAt. cbn [available slot_assignmentId].
    set (slotEnd := plusMinutes (Some c) d).
    assert (Hbusy : existsb (slotOverlaps (Some c) slotEnd) (day ++ [new]) = true).
    { apply existsb_exists. exists new. split; [apply in_or_app; right; now left|].
      apply slotOverlaps_threeClause. left. now apply coversStart_startInside. }
    rewrite Hbusy. split; [reflexivity|].
    rewrite (find_first _ day [] new Hnew Hnone). reflexivity.
Qed.

(** Booking the free 10:00 slot of a Monday that holds two bookings: the
    next query shows it as taken by the new assignment. *)
Lemma booked_slot_becomes_unavailable_witness :
  exists created data' slots',
    createAssignment clock0 twoBookings bookTen = (Ok 201 created, data')
    /\ generateTimeSlotsForDay (host := utc) 9 (jan2024 15 0 0) lateEmployee
         (settings data') (workAssignments data') = Some (Normal slots')
    /\ exists slot',
         In slot' slots'
         /\ slot_start slot' = jan2024 15 10 0
         /\ available slot' = false
         /\ slot_assignmentId slot' = Some (freshId clock0).
Proof.
  pose (free := {| slot_start := jan2024 15 10 0;
                   slot_end := jan2024 15 11 0;
                   available := true;
                   slot_assignmentId := None;
                   slot_employeeId := Some "emp-1"%string |}).
  assert (Hex : exists slots,
             generateTimeSlotsForDay (host := utc) 9 (jan2024 15 0 0) lateEmployee
               (settings twoBookings) (workAssignments twoBookings) = Some (Normal slots)
             /\ In free slots)
    by (vm_compute; eexists; split; [reflexivity|]; right; right; left; reflexivity).
  destruct Hex as (slots & Hrun & Hin).
  assert (Hc : exists created data',
             createAssignment clock0 twoBookings bookTen = (Ok 201 created, data')
             /\ id created = freshId clock0)
    by (vm_compute; eexists; eexists; split; reflexivity).
  destruct Hc as (created & data' & Hcreate & Hid).
  assert (Hwf : wellFormedRequest bookTen (emp_id lateEmployee) (slot_start free)
                  (slot_end free)).
  { split; [reflexivity|]. split; [discriminate|].
    split; [reflexivity|]. split; [reflexivity|]. split; [reflexivity|].
    split; [|split; reflexivity].
    exists "maintenance"%string. split; [reflexivity|]. right; left; reflexivity. }
  destruct (booked_slot_becomes_unavailable (host := utc) 0 9 (jan2024 15 0 0) lateEmployee
              twoBookings data' slots free clock0 bookTen 201 created
              (fun _ _ => eq_refl) Hrun Hin eq_refl Hwf Hcreate)
    as (slots' & Hrun' & _ & _ & slot' & H1 & H2 & _ & H3 & H4).
  exists created, data', slots'. split; [exact Hcreate|]. split; [exact Hrun'|].
  exists slot'. rewrite <- Hid. repeat split; assumption.
Defined.

(** ** What creation and deletion keep *)

Lemma createAssignment_inv (clock : Clock) (data data' : StorageData)
    (body : CreateWorkAssignmentRequest) (r : Result WorkAssignment) :
  createAssignment clock data body = (r, data') ->
  (data' = data /\ exists message code, r = AppError message code)
  \/ exists new,
       hasConflict (employeeId new) (startTime new) (endTime new) (workAssignments data)
       = false
       /\ status new = scheduled
       /\ id new = freshId clock
       /\ r = Ok 201 new
       /\ data' = {| employees := employees data;
                     workAssignments := workAssignments data ++ [new];
                     settings := settings data |}.
Proof.
  unfold createAssignment.
  destruct (req_employeeId body) as [eid|], (req_clientName body) as [n|],
    (req_clientPhone body) as [ph|], (req_clientAddress body) as [ad|],
    (req_workType body) as [w|], (req_startTime body) as [s|], (req_endTime body) as [e|];
    try (intros H; injection H as <- <-; left; split; [reflexivity|do 2 eexists; reflexivity]).
  destruct (isEmpty eid || isEmpty n || isEmpty ph || isEmpty ad || isEmpty w);
    [intros H; injection H as <- <-; left; split; [reflexivity|do 2 eexists; reflexivity]|].
  destruct (negb (existsb (String.eqb w) validWorkTypes));
    [intros H; injection H as <- <-; left; split; [reflexivity|do 2 eexists; reflexivity]|].
  destruct (getEmployeeById data eid);
    [|intros H; injection H as <- <-; left; split; [reflexivity|do 2 eexists; reflexivity]].
  unfold getWorkAssignments.
  destruct (hasConflict eid s e (workAssignments data)) eqn:Hfree;
    [intros H; injection H as <- <-; left; split; [reflexivity|do 2 eexists; reflexivity]|].
  intros H. injection H as <- <-. right. eexists. repeat apply conj; cycle 3.
  - reflexivity.
  - reflexivity.
  - exact Hfree.
  - reflexivity.
  - reflexivity.
Qed.

Lemma ForallOrdPairs_snoc {A : Type} (R : A -> A -> Prop) (l : list A) (x : A) :
  ForallOrdPairs R l -> Forall (fun a => R a x) l -> ForallOrdPairs R (l ++ [x]).
Proof.
  induction 1 as [|a l Ha Hl IH]; intros Hx; simpl.
  - repeat constructor.
  - inversion Hx as [|? ? Hax Hlx]; subst. constructor.
    + apply Forall_app. split; [exact Ha|]. repeat constructor. exact Hax.
    + now apply IH.
Qed.

Lemma ForallOrdPairs_filter {A : Type} (R : A -> A -> Prop) (f : A -> bool) (l : list A) :
  ForallOrdPairs R l -> ForallOrdPairs R (filter f l).
Proof.
  induction 1 as [|a l Ha Hl IH]; simpl; [constructor|].
  destruct (f a); [|exact IH]. constructor; [|exact IH].
  rewrite Forall_forall in *. intros x Hx. apply Ha. apply filter_In in Hx. tauto.
Qed.

Lemma sharesTime_threeClause (a new : WorkAssignment) :
  sharesTime a new -> threeClause (startTime new) (endTime new) a.
Proof.
  intros (sa & ea & sb & eb & Hsa & Hea & Hsb & Heb & H1 & H2).
  unfold threeClause, startInside, endInside, containsExisting.
  rewrite Hsa, Hea, Hsb, Heb. simpl. lia.
Qed.

(** If no employee is booked twice at one time, this is still so after
    [createAssignment], whatever the request and the answer, and after
    [deleteAssignment]. *)
Theorem creation_keeps_bookings_disjoint (clock : Clock) (data : StorageData) :
  noDoubleBooking (workAssignments data) ->
  (forall body r data',
      createAssignment clock data body = (r, data') ->
      noDoubleBooking (workAssignments data'))
  /\ (forall id_ r data',
        assignmentController.deleteAssignment data id_ = (r, data') ->
        noDoubleBooking (workAssignments data')).
Proof.
  intros Hinv. split.
  - intros body r data' Hcreate.
    destruct (createAssignment_inv _ _ _ _ _ Hcreate)
      as [[-> _]|(new & Hfree & Hst & _ & _ & ->)]; [exact Hinv|].
    cbn [workAssignments]. apply ForallOrdPairs_snoc; [exact Hinv|].
    apply Forall_forall. intros a Ha (Hemp & Hsa & _ & Hshare).
    assert (Hc : hasConflict (employeeId new) (startTime new) (endTime new)
                   (workAssignments data) = true).
    { apply hasConflict_iff. exists a. repeat split; try assumption.
      now apply sharesTime_threeClause. }
    congruence.
  - intros id_ r data'. unfold assignmentController.deleteAssignment, deleteWorkAssignment.
    destruct id_ as [i|]; [|intros H; injection H as _ <-; exact Hinv].
    destruct (negb (truthy (Some i))); [intros H; injection H as _ <-; exact Hinv|].
    destruct (Nat.eqb _ _); intros H; injection H as _ <-;
      now apply ForallOrdPairs_filter.
Qed.

(** The store with two bookings of one employee at 09:00 and 11:00 is free
    of double bookings, and so is the store after the 10:00 slot is
    booked. *)
Lemma creation_keeps_bookings_disjoint_witness :
  noDoubleBooking (workAssignments twoBookings)
  /\ noDoubleBooking (workAssignments (snd (createAssignment clock0 twoBookings bookTen))).
Proof.
  assert (Hinv : noDoubleBooking (workAssignments twoBookings)).
  { repeat constructor.
    intros (_ & _ & _ & sa & ea & sb & eb & Hsa & Hea & Hsb & Heb & H1 & H2).
    injection Hsa as <-. injection Hea as <-. injection Hsb as <-. injection Heb as <-.
    vm_compute in H2. discriminate. }
  split; [exact Hinv|].
  apply (proj1 (creation_keeps_bookings_disjoint clock0 twoBookings Hinv) bookTen
           (fst (createAssignment clock0 twoBookings bookTen))).
  apply surjective_pairing.
Defined.

Lemma hasConflict_invalid (eid : string) (l : list WorkAssignment) :
  hasConflict eid None None l = false.
Proof.
  unfold hasConflict. induction l as [|a l IH]; [reflexivity|].
  cbn [existsb]. rewrite IH. simpl. now rewrite !andb_false_r.
Qed.

(** The handler does not check that the two timestamps are dates: a
    request that is complete, for an employee that exists, whose
    timestamps are both unreadable is never a conflict and is stored. *)
Theorem unreadable_times_are_accepted (clock : Clock) (data : StorageData)
    (body : CreateWorkAssignmentRequest) (eid : string) :
  wellFormedRequest body eid None None ->
  getEmployeeById data eid <> None ->
  createAssignment clock data body
  = (Ok 201 (createdRecord clock body eid None None),
     {| employees := employees data;
        workAssignments := workAssignments data ++ [createdRecord clock body eid None None];
        settings := settings data |}).
Proof.
  intros Hbody Hemp. rewrite (createAssignment_wellFormed clock data body _ _ _ Hbody).
  destruct (getEmployeeById data eid); [|congruence].
  now rewrite hasConflict_invalid.
Qed.

(** Two unreadable timestamps, in a store that already holds bookings of
    that employee. *)
Lemma unreadable_times_are_accepted_witness :
  exists created data',
    createAssignment clock0 twoBookings unreadableTimes = (Ok 201 created, data')
    /\ startTime created = None
    /\ List.length (workAssignments data') = 3%nat.
Proof.
  eexists. eexists. split.
  - apply (unreadable_times_are_accepted clock0 twoBookings unreadableTimes "emp-1").
    + split; [reflexivity|]. split; [discriminate|].
      split; [reflexivity|]. split; [reflexivity|]. split; [reflexivity|].
      split; [|split; reflexivity].
      exists "maintenance"%string. split; [reflexivity|]. right; left; reflexivity.
    + discriminate.
  - split; reflexivity.
Defined.

(** ** Looking up, deleting and updating assignments *)

Lemma find_app_none {A : Type} (f : A -> bool) (l1 l2 : list A) :
  (forall x, In x l1 -> f x = false) -> find f (l1 ++ l2) = find f l2.
Proof.
  intros H. induction l1 as [|x l1 IH]; [reflexivity|].
  simpl. rewrite (H x) by now left. apply IH. intros y Hy. apply H. now right.
Qed.

Lemma find_app_some {A : Type} (f : A -> bool) (l1 l2 : list A) (x : A) :
  find f l1 = Some x -> find f (l1 ++ l2) = Some x.
Proof.
  induction l1 as [|y l1 IH]; simpl; [discriminate|].
  destruct (f y); [auto|exact IH].
Qed.

(** After a creation whose fresh id is not yet in the store, the new
    assignment is the one found under that id, and every id that was
    found before is found as before. *)
Theorem created_assignment_is_found (clock : Clock) (data data' : StorageData)
    (body : CreateWorkAssignmentRequest) (code : Z) (created : WorkAssignment) :
  freshId clock <> EmptyString ->
  ~ In (freshId clock) (map id (workAssignments data)) ->
  createAssignment clock data body = (Ok code created, data') ->
  assignmentController.getAssignmentById data' (Some (freshId clock)) = Ok 200 created
  /\ (forall i x,
        getWorkAssignmentById data i = Some x -> getWorkAssignmentById data' i = Some x).
Proof.
  intros Hne Hfresh Hcreate.
  destruct (createAssignment_inv _ _ _ _ _ Hcreate)
    as [[_ (m & c & H)]|(new & _ & _ & Hid & Hr & ->)]; [discriminate|].
  injection Hr as _ <-. split.
  - unfold assignmentController.getAssignmentById, getWorkAssignmentById, getWorkAssignments.
    rewrite (truthy_Some _ Hne). cbn [negb workAssignments].
    rewrite find_app_none.
    + simpl. now rewrite Hid, String.eqb_refl.
    + intros x Hx. apply String.eqb_neq. intros E. apply Hfresh.
      rewrite <- E. now apply in_map.
  - intros i x. unfold getWorkAssignmentById, getWorkAssignments. cbn [workAssignments].
    apply find_app_some.
Qed.

(** Booking the 10:00 slot, then asking for the assignment by its id. *)
Lemma created_assignment_is_found_witness :
  exists created data',
    createAssignment clock0 twoBookings bookTen = (Ok 201 created, data')
    /\ assignmentController.getAssignmentById data' (Some (freshId clock0)) = Ok 200 created.
Proof.
  assert (Hc : exists created data',
             createAssignment clock0 twoBookings bookTen = (Ok 201 created, data'))
    by (vm_compute; eexists; eexists; reflexivity).
  destruct Hc as (created & data' & Hcreate).
  exists created, data'. split; [exact Hcreate|].
  apply (created_assignment_is_found clock0 twoBookings data' bookTen 201 created).
  - discriminate.
  - simpl. intros [H|[H|[]]]; discriminate.
  - exact Hcreate.
Defined.

Lemma filter_length_same {A : Type} (f : A -> bool) (l : list A) :
  List.length (filter f l) = List.length l <-> forall x, In x l -> f x = true.
Proof.
  induction l as [|a l IH]; simpl; [tauto|].
  pose proof (filter_length_le f l) as Hle.
  destruct (f a) eqn:Hfa; simpl.
  - split.
    + intros H x [<-|Hx]; [exact Hfa|]. apply IH; [lia|exact Hx].
    + intros H. f_equal. apply IH. intros x Hx. apply H. now right.
  - split; [lia|]. intros H. specialize (H a (or_introl eq_refl)). congruence.
Qed.

(** Deleting by id removes every stored assignment with that id and keeps
    the others in their order; it succeeds exactly when there was one.
    Afterwards the id is not found, and a second deletion is a 404. *)
Theorem delete_removes_every_record_with_the_id (data : StorageData) (i : string) :
  i <> EmptyString ->
  exists r data',
    assignmentController.deleteAssignment data (Some i) = (r, data')
    /\ workAssignments data'
       = filter (fun a => negb (String.eqb (id a) i)) (workAssignments data)
    /\ employees data' = employees data /\ settings data' = settings data
    /\ (In i (map id (workAssignments data)) -> r = Ok 200 tt)
    /\ (~ In i (map id (workAssignments data)) ->
        r = AppError "Work assignment not found" 404
        /\ workAssignments data' = workAssignments data)
    /\ assignmentController.getAssignmentById data' (Some i)
       = AppError "Work assignment not found" 404
    /\ fst (assignmentController.deleteAssignment data' (Some i))
       = AppError "Work assignment not found" 404.
Proof.
  intros Hne.
  set (keep := fun a => negb (String.eqb (id a) i)).
  assert (Hgone : forall x, In x (filter keep (workAssignments data)) ->
                            String.eqb (id x) i = false).
  { intros x Hx. apply filter_In in Hx. destruct Hx as [_ Hx].
    unfold keep in Hx. now apply negb_true_iff in Hx. }
  unfold assignmentController.deleteAssignment, assignmentController.getAssignmentById,
    deleteWorkAssignment, getWorkAssignmentById, getWorkAssignments.
  rewrite (truthy_Some i Hne). cbn [negb]. fold keep.
  destruct (Nat.eqb (List.length (filter keep (workAssignments data)))
              (List.length (workAssignments data))) eqn:Hlen;
    eexists; eexists; (split; [reflexivity|]); cbn [workAssignments employees settings fst];
    (split; [reflexivity|]); (split; [reflexivity|]); (split; [reflexivity|]).
  - apply Nat.eqb_eq in Hlen. pose proof (proj1 (filter_length_same _ _) Hlen) as Hall.
    clear Hlen. rename Hall into Hlen. split; [|split; [|split]].
    + intros Hin. apply in_map_iff in Hin. destruct Hin as (a & Ha & Hin).
      specialize (Hlen a Hin). unfold keep in Hlen.
      rewrite Ha, String.eqb_refl in Hlen. discriminate.
    + intros _. split; [reflexivity|].
      clear Hgone. induction (workAssignments data) as [|a l IH]; [reflexivity|].
      simpl. rewrite (Hlen a) by now left. f_equal. apply IH.
      intros x Hx. apply Hlen. now right.
    + now rewrite (find_none _ _ Hgone).
    + rewrite (proj2 (filter_length_same keep (filter keep (workAssignments data)))).
      * now rewrite Nat.eqb_refl.
      * intros x Hx. unfold keep. now rewrite (Hgone x Hx).
  - split; [|split; [|split]].
    + reflexivity.
    + intros Hout. exfalso. apply Nat.eqb_neq in Hlen. apply Hlen.
      apply filter_length_same. intros x Hx. unfold keep. apply negb_true_iff.
      apply String.eqb_neq. intros E. apply Hout. rewrite <- E. now apply in_map.
    + now rewrite (find_none _ _ Hgone).
    + rewrite (proj2 (filter_length_same keep (filter keep (workAssignments data)))).
      * now rewrite Nat.eqb_refl.
      * intros x Hx. unfold keep. now rewrite (Hgone x Hx).
Qed.

(** Deleting booking [a1] leaves [a2] alone in the store. *)
Lemma delete_removes_every_record_with_the_id_witness :
  exists data',
    assignmentController.deleteAssignment twoBookings (Some "a1"%string) = (Ok 200 tt, data')
    /\ workAssignments data'
       = [booking "a2" "emp-1" (jan2024 15 11 0) (jan2024 15 12 0) scheduled]
    /\ assignmentController.getAssignmentById data' (Some "a1"%string)
       = AppError "Work assignment not found" 404.
Proof.
  destruct (delete_removes_every_record_with_the_id twoBookings "a1" ltac:(discriminate))
    as (r & data' & Hrun & Hkept & _ & _ & Hok & _ & Hget & _).
  specialize (Hok (or_introl eq_refl)). subst r.
  exists data'. split; [exact Hrun|]. split; [rewrite Hkept; reflexivity|exact Hget].
Defined.

Lemma replaceFirst_missing (i : string) (f : WorkAssignment -> WorkAssignment)
    (l : list WorkAssignment) :
  ~ In i (map id l) -> replaceFirst i f l = None.
Proof.
  induction l as [|a l IH]; intros Hout; [reflexivity|].
  simpl in *. destruct (String.eqb (id a) i) eqn:E.
  - apply String.eqb_eq in E. tauto.
  - rewrite IH; [reflexivity|tauto].
Qed.

Lemma replaceFirst_shape (i : string) (f : WorkAssignment -> WorkAssignment)
    (l : list WorkAssignment) :
  forall u l',
    replaceFirst i f l = Some (u, l') ->
    List.length l' = List.length l
    /\ ((forall a, id (f a) = id a) -> map id l' = map id l)
    /\ exists l1 old l2,
         l = l1 ++ old :: l2 /\ l' = l1 ++ f old :: l2 /\ u = f old /\ id old = i
         /\ forall x, In x l1 -> id x <> i.
Proof.
  induction l as [|a l IH]; intros u l' Hrun; simpl in Hrun; [discriminate|].
  destruct (String.eqb (id a) i) eqn:E.
  - injection Hrun as <- <-. apply String.eqb_eq in E. split; [reflexivity|]. split.
    + intros Hid. simpl. now rewrite Hid.
    + exists [], a, l. repeat split; try assumption. intros x [].
  - destruct (replaceFirst i f l) as [[u0 rest]|]; [|discriminate].
    injection Hrun as <- <-.
    destruct (IH _ _ eq_refl) as (Hlen & Hids & l1 & old & l2 & -> & -> & -> & Hold & Hl1).
    split; [simpl; now rewrite Hlen|]. split.
    + intros Hid. simpl. now rewrite (Hids Hid).
    + exists (a :: l1), old, l2. repeat split; try assumption.
      intros x [<-|Hx]; [now apply String.eqb_neq|now apply Hl1].
Qed.

(** An update whose id is not in the store is a 404 and changes nothing.
    Any update keeps the number of assignments, the employees and the
    settings, and, when the body carries no [id], the ids in their order. *)
Theorem update_touches_one_record (clock : Clock) (data : StorageData) (i : string)
    (updates : WorkAssignmentUpdates) :
  i <> EmptyString ->
  (~ In i (map id (workAssignments data)) ->
   updateAssignment clock data (Some i) (Some updates)
   = (AppError "Work assignment not found" 404, data))
  /\ (forall r data',
        updateAssignment clock data (Some i) (Some updates) = (r, data') ->
        List.length (workAssignments data') = List.length (workAssignments data)
        /\ employees data' = employees data /\ settings data' = settings data
        /\ (upd_id updates = None ->
            map id (workAssignments data') = map id (workAssignments data))).
Proof.
  intros Hne. unfold updateAssignment, updateWorkAssignment.
  rewrite (truthy_Some i Hne). cbn [negb]. split.
  - intros Hout. now rewrite replaceFirst_missing.
  - intros r data'.
    destruct (replaceFirst i (fun old => mergeUpdates clock old updates)
                (workAssignments data)) as [[u l']|] eqn:Hrun.
    + intros H. injection H as _ <-. cbn [workAssignments employees settings].
      destruct (replaceFirst_shape _ _ _ _ _ Hrun) as (Hlen & Hids & _).
      repeat split; try assumption.
      intros Hnoid. apply Hids. intros a. unfold mergeUpdates. cbn [id].
      now rewrite Hnoid.
    + intros H. injection H as _ <-. auto.
Qed.

(** Moving booking [a2] keeps the two ids; an update of [a9] is a 404. *)
Lemma update_touches_one_record_witness :
  updateAssignment clock0 twoBookings (Some "a9"%string) (Some moveOntoFirst)
  = (AppError "Work assignment not found" 404, twoBookings)
  /\ map id (workAssignments
               (snd (updateAssignment clock0 twoBookings (Some "a2"%string)
                       (Some moveOntoFirst))))
     = ["a1"; "a2"]%string.
Proof.
  split.
  - apply (proj1 (update_touches_one_record clock0 twoBookings "a9" moveOntoFirst
                    ltac:(discriminate))).
    simpl. intros [H|[H|[]]]; discriminate.
  - destruct (proj2 (update_touches_one_record clock0 twoBookings "a2" moveOntoFirst
                       ltac:(discriminate)) _ _ (surjective_pairing _))
      as (_ & _ & _ & Hids).
    rewrite (Hids eq_refl). reflexivity.
Defined.

(** Setting the status of an assignment to [completed] or [cancelled]
    takes it out of every later conflict check: the check then answers as
    if the assignment were not in the store. *)
Theorem cancelling_frees_the_interval (clock : Clock) (data : StorageData) (i : string)
    (updates : WorkAssignmentUpdates) (l1 l2 : list WorkAssignment)
    (old : WorkAssignment) (st : Status) :
  i <> EmptyString ->
  workAssignments data = l1 ++ old :: l2 ->
  id old = i ->
  (forall x, In x l1 -> id x <> i) ->
  upd_status updates = Some st ->
  st <> scheduled ->
  exists updated data',
    updateAssignment clock data (Some i) (Some updates) = (Ok 200 updated, data')
    /\ status updated = st
    /\ forall eid s e,
         hasConflict eid s e (workAssignments data') = hasConflict eid s e (l1 ++ l2).
Proof.
  intros Hne Hdata Hold Hl1 Hst Hns.
  unfold updateAssignment, updateWorkAssignment.
  rewrite (truthy_Some i Hne). cbn [negb].
  rewrite Hdata, (replaceFirst_found i _ l1 l2 old Hold Hl1).
  eexists. eexists. split; [reflexivity|].
  assert (Hmerged : status (mergeUpdates clock old updates) = st)
    by (unfold mergeUpdates; cbn [status]; now rewrite Hst).
  split; [exact Hmerged|].
  intros eid s e. cbn [workAssignments]. apply hasConflict_drop. now rewrite Hmerged.
Qed.

(** Once booking [a1] (09:00-10:00) is cancelled, the proposal 09:30-10:30,
    which it blocked, is free of conflict. *)
Lemma cancelling_frees_the_interval_witness :
  hasConflict "emp-1" (jan2024 15 9 30) (jan2024 15 10 30) (workAssignments twoBookings)
  = true
  /\ exists updated data',
       updateAssignment clock0 twoBookings (Some "a1"%string) (Some cancelIt)
       = (Ok 200 updated, data')
       /\ hasConflict "emp-1" (jan2024 15 9 30) (jan2024 15 10 30) (workAssignments data')
          = false.
Proof.
  split; [reflexivity|].
  destruct (cancelling_frees_the_interval clock0 twoBookings "a1" cancelIt []
              [booking "a2" "emp-1" (jan2024 15 11 0) (jan2024 15 12 0) scheduled]
              (booking "a1" "emp-1" (jan2024 15 9 0) (jan2024 15 10 0) scheduled) cancelled
              ltac:(discriminate) eq_refl eq_refl ltac:(intros x []) eq_refl
              ltac:(discriminate))
    as (updated & data' & Hrun & _ & Hfree).
  exists updated, data'. split; [exact Hrun|]. rewrite Hfree. reflexivity.
Defined.

(** ** Employees *)

Lemma find_filtered_out (i : string) (l : list Employee) :
  find (fun employee => String.eqb (emp_id employee) i)
    (filter (fun emp => negb (String.eqb (emp_id emp) i)) l) = None.
Proof.
  apply find_none. intros x Hx. apply filter_In in Hx.
  destruct Hx as [_ Hx]. now apply negb_true_iff in Hx.
Qed.

(** Deleting an employee leaves the employee's assignments in the store.
    The id is then unknown: it is not found, and a creation request for it
    is answered with 404. *)
Theorem deleting_an_employee_keeps_the_bookings (data : StorageData) (i : string) :
  i <> EmptyString ->
  In i (map emp_id (employees data)) ->
  exists data',
    employeeController.deleteEmployee data (Some i) = (Ok 200 tt, data')
    /\ workAssignments data' = workAssignments data
    /\ settings data' = settings data
    /\ employees data' = filter (fun emp => negb (String.eqb (emp_id emp) i)) (employees data)
    /\ employeeController.getEmployeeById data' (Some i) = AppError "Employee not found" 404
    /\ forall clock body s e,
         wellFormedRequest body i s e ->
         createAssignment clock data' body = (AppError "Employee not found" 404, data').
Proof.
  intros Hne Hin.
  unfold employeeController.deleteEmployee, employeeController.getEmployeeById,
    deleteEmployee.
  rewrite (truthy_Some i Hne). cbn [negb].
  set (keep := fun emp => negb (String.eqb (emp_id emp) i)).
  destruct (Nat.eqb (List.length (filter keep (employees data)))
              (List.length (employees data))) eqn:Hlen.
  - exfalso. apply Nat.eqb_eq in Hlen.
    pose proof (proj1 (filter_length_same _ _) Hlen) as Hall.
    apply in_map_iff in Hin. destruct Hin as (e & He & Hin).
    specialize (Hall e Hin). unfold keep in Hall.
    rewrite He, String.eqb_refl in Hall. discriminate.
  - eexists. split; [reflexivity|]. cbn [workAssignments settings employees].
    split; [reflexivity|]. split; [reflexivity|]. split; [reflexivity|].
    assert (Hgone : getEmployeeById
                      {| employees := filter keep (employees data);
                         workAssignments := workAssignments data;
                         settings := settings data |} i = None)
      by apply find_filtered_out.
    split; [now rewrite Hgone|].
    intros clock body s e Hbody.
    rewrite (createAssignment_wellFormed clock _ body _ _ _ Hbody). now rewrite Hgone.
Qed.

(** After [emp-1] is deleted, the two bookings of [emp-1] are still
    stored. *)
Lemma deleting_an_employee_keeps_the_bookings_witness :
  exists data',
    employeeController.deleteEmployee twoBookings (Some "emp-1"%string) = (Ok 200 tt, data')
    /\ workAssignments data' = workAssignments twoBookings
    /\ employees data' = [].
Proof.
  destruct (deleting_an_employee_keeps_the_bookings twoBookings "emp-1"
              ltac:(discriminate) (or_introl eq_refl))
    as (data' & Hrun & Hkept & _ & Hstaff & _).
  exists data'. split; [exact Hrun|]. split; [exact Hkept|]. rewrite Hstaff. reflexivity.
Defined.

Lemma NoDup_snoc {A : Type} (l : list A) (x : A) :
  NoDup l -> ~ In x l -> NoDup (l ++ [x]).
Proof.
  induction 1 as [|a l Ha Hl IH]; intros Hx; simpl.
  - repeat constructor. intros [].
  - constructor.
    + rewrite in_app_iff. simpl. intros [H|[H|[]]]; [tauto|].
      apply Hx. now left.
    + apply IH. intros H. apply Hx. now right.
Qed.

(** If the stored employees have distinct e-mail addresses, they still
    have after [createEmployee], whatever the request; a request with an
    address that is already stored is answered with 409 and changes
    nothing. *)
Theorem employee_emails_stay_unique (clock : Clock) (data : StorageData)
    (body : employeeController.CreateEmployeeRequest) :
  NoDup (map emp_email (employees data)) ->
  (forall r data',
      employeeController.createEmployee clock data body = (r, data') ->
      NoDup (map emp_email (employees data'))
      /\ workAssignments data' = workAssignments data)
  /\ (forall name email start end_,
        employeeController.ereq_name body = Some name -> name <> EmptyString ->
        employeeController.ereq_email body = Some email -> email <> EmptyString ->
        employeeController.ereq_workHours body = Some (Some start, Some end_) ->
        start <> EmptyString -> end_ <> EmptyString ->
        In email (map emp_email (employees data)) ->
        employeeController.createEmployee clock data body
        = (AppError "Employee with this email already exists" 409, data)).
Proof.
  intros Hinv. split.
  - intros r data'. unfold employeeController.createEmployee.
    destruct (employeeController.ereq_name body) as [name|],
      (employeeController.ereq_email body) as [email|],
      (employeeController.ereq_workHours body) as [[start end_]|];
      try (intros H; injection H as _ <-; auto).
    destruct (isEmpty name || isEmpty email); [intros H; injection H as _ <-; auto|].
    destruct start as [[|c1 s1]|], end_ as [[|c2 s2]|];
      try (intros H; injection H as _ <-; auto).
    unfold getEmployees.
    destruct (existsb (fun emp => String.eqb (emp_email emp) email) (employees data))
      eqn:Hdup; [intros H; injection H as _ <-; auto|].
    intros H. injection H as _ <-. cbn [employees workAssignments].
    split; [|reflexivity].
    rewrite map_app. apply NoDup_snoc; [exact Hinv|].
    intros Hin. apply in_map_iff in Hin. destruct Hin as (e & He & Hin).
    assert (Ht : existsb (fun emp => String.eqb (emp_email emp) email) (employees data)
                 = true).
    { apply existsb_exists. exists e. split; [exact Hin|]. now apply String.eqb_eq. }
    congruence.
  - intros name email start end_ Hn Hnne He Hene Hw Hsne Hene' Hin.
    unfold employeeController.createEmployee. rewrite Hn, He, Hw.
    destruct name; [congruence|]. destruct email as [|ce email']; [congruence|].
    destruct start; [congruence|]. destruct end_; [congruence|].
    cbn [isEmpty orb]. unfold getEmployees.
    apply in_map_iff in Hin. destruct Hin as (e & Heq & Hin).
    assert (Ht : existsb (fun emp => String.eqb (emp_email emp) (String ce email'))
                   (employees data) = true).
    { apply existsb_exists. exists e. split; [exact Hin|]. now apply String.eqb_eq. }
    now rewrite Ht.
Qed.

(** A second employee with the address of the first is refused. *)
Lemma employee_emails_stay_unique_witness :
  employeeController.createEmployee clock0 twoBookings
    {| employeeController.ereq_name := Some "Johnny"%string;
       employeeController.ereq_email := Some "john@example.com"%string;
       employeeController.ereq_workHours := Some (Some "08:00"%string, Some "12:00"%string) |}
  = (AppError "Employee with this email already exists" 409, twoBookings).
Proof.
  apply (proj2 (employee_emails_stay_unique clock0 twoBookings _
                  ltac:(repeat constructor; intros []))
           "Johnny"%string "john@example.com"%string "08:00"%string "12:00"%string);
    try reflexivity; try discriminate.
  now left.
Defined.

(** ** More on slots and bookings *)

(** A slot that a query shows as available can be booked, provided every
    scheduled assignment of that employee starts on the day that was
    queried (one that began the day before is not looked at by the query,
    though it counts as a conflict). *)
Theorem available_slot_can_be_booked {host : HostTimeZone} (fuel : nat) (date : JSDate)
    (employee : Employee) (data : StorageData) (slots : list TimeSlot) (slot : TimeSlot)
    (clock : Clock) (body : CreateWorkAssignmentRequest) :
  generateTimeSlotsForDay fuel date employee (settings data) (workAssignments data)
  = Some (Normal slots) ->
  In slot slots ->
  available slot = true ->
  (forall a, In a (workAssignments data) ->
     employeeId a = emp_id employee -> status a = scheduled ->
     Date.toDateString (startTime a) = Date.toDateString date) ->
  getEmployeeById data (emp_id employee) <> None ->
  wellFormedRequest body (emp_id employee) (slot_start slot) (slot_end slot) ->
  createAssignment clock data body
  = (Ok 201 (createdRecord clock body (emp_id employee) (slot_start slot) (slot_end slot)),
     {| employees := employees data;
        workAssignments :=
          workAssignments data
          ++ [createdRecord clock body (emp_id employee) (slot_start slot) (slot_end slot)];
        settings := settings data |}).
Proof.
  intros Hrun Hin Hfree Hsameday Hemp Hbody.
  rewrite (createAssignment_wellFormed clock data body _ _ _ Hbody).
  destruct (getEmployeeById data (emp_id employee)) as [found|]; [|congruence].
  destruct (hasConflict (emp_id employee) (slot_start slot) (slot_end slot)
              (workAssignments data)) eqn:Hc; [|reflexivity].
  exfalso. apply hasConflict_iff in Hc. destruct Hc as (a & Ha & Hid & Hst & Hrule).
  destruct (generate_In _ _ _ _ _ _ _ Hrun Hin) as (c & e & -> & _).
  unfold slotAt in Hfree, Hrule. cbn [available slot_start slot_end] in Hfree, Hrule.
  apply negb_true_iff in Hfree.
  assert (Hbusy : existsb
                    (slotOverlaps (Some c)
                       (plusMinutes (Some c) (slotDuration (settings data))))
                    (dayAssignmentsOf date employee (workAssignments data)) = true).
  { apply existsb_exists. exists a. split.
    - apply In_dayAssignmentsOf. repeat split; auto.
    - now apply slotOverlaps_threeClause. }
  congruence.
Qed.

(** The free 10:00 slot of the Monday with two bookings. *)
Lemma available_slot_can_be_booked_witness :
  exists created data',
    createAssignment clock0 twoBookings bookTen = (Ok 201 created, data')
    /\ List.length (workAssignments data') = 3%nat.
Proof.
  pose (free := {| slot_start := jan2024 15 10 0;
                   slot_end := jan2024 15 11 0;
                   available := true;
                   slot_assignmentId := None;
                   slot_employeeId := Some "emp-1"%string |}).
  assert (Hex : exists slots,
             generateTimeSlotsForDay (host := utc) 9 (jan2024 15 0 0) lateEmployee
               (settings twoBookings) (workAssignments twoBookings) = Some (Normal slots)
             /\ In free slots)
    by (vm_compute; eexists; split; [reflexivity|]; right; right; left; reflexivity).
  destruct Hex as (slots & Hrun & Hin).
  assert (Hwf : wellFormedRequest bookTen (emp_id lateEmployee) (slot_start free)
                  (slot_end free)).
  { split; [reflexivity|]. split; [discriminate|].
    split; [reflexivity|]. split; [reflexivity|]. split; [reflexivity|].
    split; [|split; reflexivity].
    exists "maintenance"%string. split; [reflexivity|]. right; left; reflexivity. }
  eexists. eexists. split.
  - apply (available_slot_can_be_booked (host := utc) 9 (jan2024 15 0 0) lateEmployee
             twoBookings slots free clock0 bookTen Hrun Hin eq_refl).
    + intros a [<-|[<-|[]]] _ _; reflexivity.
    + discriminate.
    + exact Hwf.
  - reflexivity.
Defined.

(** ** Updating an employee *)

Section SameIds.
Context {host : HostTimeZone}.

Lemma replaceFirstEmployee_ids (i : string) (f : Employee -> Employee) (l : list Employee) :
  (forall e, emp_id (f e) = emp_id e) ->
  forall u l',
    replaceFirstEmployee i f l = Some (u, l') ->
    Forall2 (fun e e' => emp_id e = emp_id e') l l'.
Proof.
  intros Hid. induction l as [|a l IH]; intros u l' Hrun; simpl in Hrun; [discriminate|].
  destruct (String.eqb (emp_id a) i).
  - injection Hrun as <- <-. constructor; [now rewrite Hid|].
    clear IH. induction l; constructor; auto.
  - destruct (replaceFirstEmployee i f l) as [[u0 rest]|]; [|discriminate].
    injection Hrun as <- <-. constructor; [reflexivity|]. eapply IH. reflexivity.
Qed.

Lemma targetEmployeesOf_ids (employeeId_ : option string) (l l' : list Employee) :
  Forall2 (fun e e' => emp_id e = emp_id e') l l' ->
  Forall2 (fun e e' => emp_id e = emp_id e')
    (targetEmployeesOf employeeId_ l) (targetEmployeesOf employeeId_ l').
Proof.
  intros Hsame. unfold targetEmployeesOf. destruct (truthy employeeId_); [|exact Hsame].
  induction Hsame as [|e e' l l' He Hl IH]; simpl; [constructor|].
  rewrite He. destruct employeeId_ as [j|]; [|exact IH].
  destruct (String.eqb (emp_id e') j); [constructor; assumption|exact IH].
Qed.

Lemma forEmployees_ids (fuel : nat) (date : JSDate) (settings_ : CalendarSettings)
    (assignments : list WorkAssignment) (l l' : list Employee) :
  Forall2 (fun e e' => emp_id e = emp_id e') l l' ->
  forEmployees fuel date settings_ assignments l
  = forEmployees fuel date settings_ assignments l'.
Proof.
  induction 1 as [|e e' l l' He Hl IH]; [reflexivity|].
  now rewrite !forEmployees_step, (generateTimeSlotsForDay_employee_id _ _ e e' _ _ He), IH.
Qed.

Lemma dayLoop_ids (slotFuel : nat) (employeeId_ : option string) (l l' : list Employee)
    (settings_ : CalendarSettings) (assignments : list WorkAssignment) (end_ : JSDate)
    (fuel : nat) :
  Forall2 (fun e e' => emp_id e = emp_id e') l l' ->
  forall cur,
    dayLoop fuel slotFuel employeeId_ l settings_ assignments end_ cur
    = dayLoop fuel slotFuel employeeId_ l' settings_ assignments end_ cur.
Proof.
  intros Hsame. induction fuel as [|fuel IH]; intros cur; [reflexivity|].
  rewrite !dayLoop_step, IH.
  now rewrite (forEmployees_ids slotFuel cur settings_ assignments _ _
                 (targetEmployeesOf_ids employeeId_ l l' Hsame)).
Qed.

End SameIds.

(** An update of an employee that does not change the id, a change of the
    work hours for one, leaves the answer to every slot query as it was. *)
Theorem changing_work_hours_changes_no_slot {host : HostTimeZone} (data data' : StorageData)
    (id_ : option string) (updates : EmployeeUpdates) (r : Result Employee) :
  eupd_id updates = None ->
  employeeController.updateEmployee data id_ updates = (r, data') ->
  forall fuel query, getTimeSlots fuel data' query = getTimeSlots fuel data query.
Proof.
  intros Hnoid. unfold employeeController.updateEmployee, updateEmployee.
  destruct id_ as [i|]; [|intros H; injection H as _ <-; reflexivity].
  destruct (negb (truthy (Some i))); [intros H; injection H as _ <-; reflexivity|].
  destruct (replaceFirstEmployee i (fun old => mergeEmployee old updates) (employees data))
    as [[u l']|] eqn:Hrun; intros H; injection H as _ <-; [|reflexivity].
  intros fuel query. unfold getTimeSlots. cbn [employees settings workAssignments].
  destruct (q_startDate query) as [start|], (q_endDate query) as [end_|]; try reflexivity.
  destruct (Date.isNaN start || Date.isNaN end_); [reflexivity|].
  assert (Hid : forall e, emp_id (mergeEmployee e updates) = emp_id e).
  { intros e. unfold mergeEmployee. cbn [emp_id]. now rewrite Hnoid. }
  now rewrite (dayLoop_ids fuel (q_employeeId query) (employees data) l' (settings data)
                 (workAssignments data) end_ fuel
                 (replaceFirstEmployee_ids i (fun old => mergeEmployee old updates)
                    (employees data) Hid u l' Hrun) start).
Qed.

(** Giving [emp-1] the hours 10:00-14:00 changes none of the Monday
    slots. *)
Lemma changing_work_hours_changes_no_slot_witness :
  workHours
    (hd otherEmployee
       (employees
          (snd (employeeController.updateEmployee twoBookings (Some "emp-1"%string)
                  shorterHours))))
  = {| wh_start := "10:00"; wh_end := "14:00" |}
  /\ getTimeSlots (host := utc) 9
       (snd (employeeController.updateEmployee twoBookings (Some "emp-1"%string)
               shorterHours))
       {| q_employeeId := None;
          q_startDate := Some (jan2024 15 0 0);
          q_endDate := Some (jan2024 15 0 0) |}
     = getTimeSlots (host := utc) 9 twoBookings
         {| q_employeeId := None;
            q_startDate := Some (jan2024 15 0 0);
            q_endDate := Some (jan2024 15 0 0) |}.
Proof.
  split; [reflexivity|].
  apply (changing_work_hours_changes_no_slot (host := utc) twoBookings _
           (Some "emp-1"%string) shorterHours
           (fst (employeeController.updateEmployee twoBookings (Some "emp-1"%string)
                   shorterHours)) eq_refl).
  apply surjective_pairing.
Defined.

(** ** Work-hours texts without minutes *)

Lemma split_no_separator (sep : ascii) (text : string) :
  ~ In sep (list_ascii_of_string text) -> split sep text = [text].
Proof.
  induction text as [|c text IH]; intros Hno; [reflexivity|].
  simpl in *. destruct (Ascii.eqb c sep) eqn:E.
  - apply Ascii.eqb_eq in E. tauto.
  - rewrite IH; [reflexivity|tauto].
Qed.

(** A work-hours text without a colon is read as a full hour.  When
    [Number] of the whole text is finite, the anchor is the instant at
    which the local time reads that many hours, the fraction dropped, and
    no minutes on the local day of the date.  When it is NaN or infinite
    the anchor is an Invalid Date, and with such a text as
    [workStartTime] the generator returns the empty list without an
    error. *)
Theorem hours_without_minutes {host : HostTimeZone} (text : string) (t : Z) :
  ~ In ":"%char (list_ascii_of_string text) ->
  parseHours text = (Number text, Finite 0 0)
  /\ (forall h, Date.integerPart (Number text) = Some h ->
        anchor (Some t) text
        = Date.TimeClip (Date.UTC (Date.Day (Date.LocalTime t) * Date.msPerDay
                                   + h * Date.msPerHour)))
  /\ (Date.integerPart (Number text) = None ->
      anchor (Some t) text = None
      /\ forall fuel employee settings assignments,
           workStartTime settings = text ->
           generateTimeSlotsForDay fuel (Some t) employee settings assignments
           = Some (Normal [])).
Proof.
  intros Hno.
  assert (Hp : parseHours text = (Number text, Finite 0 0)).
  { unfold parseHours. now rewrite split_no_separator. }
  split; [exact Hp|]. split.
  - intros h Hh. rewrite (anchor_value t h 0 text _ _ Hp Hh eq_refl).
    unfold Date.MakeTime. do 2 f_equal. lia.
  - intros Hnone.
    assert (Ha : anchor (Some t) text = None).
    { unfold anchor, Date.setHours. now rewrite Hp, Hnone. }
    split; [exact Ha|].
    intros fuel employee settings assignments Htext.
    unfold generateTimeSlotsForDay. rewrite Htext, Ha.
    now apply slotLoop_empty.
Qed.

(** On a Monday: the texts [8], [ 8.5 ] and [0x8] anchor the day at 08:00
    and the empty text at 00:00; [8h] is no number, and as [workStartTime]
    it leaves the day without slots. *)
Lemma hours_without_minutes_witness :
  anchor (host := utc) (jan2024 15 0 0) "8" = jan2024 15 8 0
  /\ anchor (host := utc) (jan2024 15 0 0) " 8.5 " = jan2024 15 8 0
  /\ anchor (host := utc) (jan2024 15 0 0) "0x8" = jan2024 15 8 0
  /\ anchor (host := utc) (jan2024 15 0 0) "" = jan2024 15 0 0
  /\ anchor (host := utc) (jan2024 15 0 0) "8h" = None
  /\ forall fuel,
       generateTimeSlotsForDay (host := utc) fuel (jan2024 15 0 0) lateEmployee
         {| workStartTime := "8h";
            workEndTime := "16:30";
            slotDuration := 60;
            adminEmail := "admin@company.com" |} []
       = Some (Normal []).
Proof.
  assert (Hno : forall text,
             existsb (Ascii.eqb ":") (list_ascii_of_string text) = false ->
             ~ In ":"%char (list_ascii_of_string text)).
  { intros text H Hin.
    assert (E : existsb (Ascii.eqb ":") (list_ascii_of_string text) = true)
      by (apply existsb_exists; exists ":"%char; split; [exact Hin|apply Ascii.eqb_refl]).
    congruence. }
  split.
  { change (jan2024 15 0 0) with (Some 1705276800000) at 1.
    rewrite (proj1 (proj2 (hours_without_minutes (host := utc) "8" 1705276800000
                             (Hno "8"%string eq_refl))) 8 eq_refl).
    reflexivity. }
  split.
  { change (jan2024 15 0 0) with (Some 1705276800000) at 1.
    rewrite (proj1 (proj2 (hours_without_minutes (host := utc) " 8.5 " 1705276800000
                             (Hno " 8.5 "%string eq_refl))) 8 eq_refl).
    reflexivity. }
  split.
  { change (jan2024 15 0 0) with (Some 1705276800000) at 1.
    rewrite (proj1 (proj2 (hours_without_minutes (host := utc) "0x8" 1705276800000
                             (Hno "0x8"%string eq_refl))) 8 eq_refl).
    reflexivity. }
  split.
  { change (jan2024 15 0 0) with (Some 1705276800000) at 1.
    rewrite (proj1 (proj2 (hours_without_minutes (host := utc) "" 1705276800000
                             (Hno ""%string eq_refl))) 0 eq_refl).
    reflexivity. }
  change (jan2024 15 0 0) with (Some 1705276800000).
  destruct (proj2 (proj2 (hours_without_minutes (host := utc) "8h" 1705276800000
                            (Hno "8h"%string eq_refl))) eq_refl) as [Ha Hgen].
  split; [exact Ha|].
  intros fuel. now apply Hgen.
Defined.
